(** * retail-flow-backend: entry codes and composite writes

    A shallow embedding of the storage-facing handlers of [src/server.cjs]:
    [generateEntryCode] and the routes [add-product], [update-product],
    [auto-update-inventory], [delete-purchase-order],
    [create-purchase-order] and [save-invoice].

    Modelling conventions.
    - All handlers await the same connection ([SSHDBConnection]); its
      session is the record [conn].  A handler is a function from [conn] to a
      result and the [conn] it leaves behind.
    - SQL integers and JSON numbers are [Z]; text is [string].  A request
      field is an [option] wherever the handler or the driver decides what
      happens when it is absent (presence checks, [||] defaults, and the bind
      parameters of [execute], which mysql2 refuses when [undefined]).
    - The counter and quantity columns are SQL integers, which the driver
      hands over as numbers.  A number is an IEEE double: [nextValue + 1] is
      [JS.add], the sum rounded to the nearest double, which is the integer
      successor exactly for the safe integers (below [2^53] in absolute
      value).  Every statement about the value of a counter or about the
      digits of a code says that the counter it starts from is a safe
      integer; up to [2^53] the driver hands a stored integer over as it is
      and [String] prints all its digits.
    - A table is the list of its rows, oldest first; no key is assumed to be
      unique, since the schema is not part of the repository.  Text is
      compared exactly.
    - A statement on the modelled tables always completes; the only rejected
      statements are the [execute] calls with an [undefined] parameter.
    - An element of the [products] array of auto-update-inventory, or of the
      [orderDetails] array of create-purchase-order, is [null] or an object;
      the object parsed from the session file is given by its own
      properties, and a read falls back on [Object.prototype].
    - Handlers run one after the other: a handler is followed to its end
      before the next one starts.

    The second part of the definitions adds the routes
    [get-purchase-orders-details], [delete-product], [login], [get-the-role],
    [add-supplier] and [add-customer], and the session file of [utils.cjs].
    The tables these routes use that [tables] does not hold ([users],
    [suppliers], [customers]) are passed to them as arguments; the password
    check and the token are parameters of [login]. *)

From Stdlib Require Import ZArith List Bool Lia.
Set Warnings "-register-all".
From Stdlib Require Import Strings.String Strings.Ascii.
From Stdlib Require Import Numbers.DecimalString Numbers.DecimalFacts.
From Stdlib Require Import Numbers.DecimalPos Numbers.DecimalZ.
Import ListNotations.

Open Scope string_scope.
Open Scope list_scope.
Open Scope Z_scope.

(** String concatenation, JavaScript's [+] on strings. *)
Infix "+++" := String.append (right associativity, at level 60).

(** ** JavaScript primitives used by the handlers *)

Module JS.

(** A number is an IEEE double; the integer-valued ones are the integers
    whose significand fits 53 bits.  [round x] is the double nearest to the
    integer [x], a tie going to the even significand.  The overflow threshold
    [2^1024] is far from every number met here and is not modelled. *)
Definition round (x : Z) : Z :=
  let a := Z.abs x in
  let e := Z.log2 a - 52 in
  if e <=? 0 then x
  else
    let q := Z.shiftr a e in
    let r := a - q * 2 ^ e in
    let half := 2 ^ (e - 1) in
    let q' := if r <? half then q
              else if half <? r then q + 1
              else if Z.even q then q else q + 1 in
    Z.sgn x * (q' * 2 ^ e).

(** [a + b] on two integer-valued numbers. *)
Definition add (a b : Z) : Z := round (a + b).

(** [String(n)] for an integer-valued number that is printed with all its
    digits, as every integer up to [2^53] is. *)
Definition String (n : Z) : string := NilZero.string_of_int (Z.to_int n).

(** The filler of [padStart]: the first [n] characters of [fill] repeated.
    [rest] is what is left of the current copy of [fill]. *)
Fixpoint filler (fill rest : string) (n : nat) : string :=
  match n with
  | O => EmptyString
  | S n' =>
      match rest with
      | String.String c rest' => String.String c (filler fill rest' n')
      | EmptyString =>
          match fill with
          | String.String c rest' => String.String c (filler fill rest' n')
          | EmptyString => EmptyString
          end
      end
  end.

(** [s.padStart(targetLength, fill)]: nothing is added when [targetLength]
    does not exceed the length of [s]; [s] is never shortened. *)
Definition padStart (s : string) (targetLength : Z) (fill : string) : string :=
  filler fill fill (Z.to_nat (targetLength - Z.of_nat (String.length s))) +++ s.

(** An [Error] object: its [name] and [message]. *)
Record Error := mkError { name : string; message : string }.

Definition TypeError (msg : string) : Error := mkError "TypeError" msg.

(** [String(error)], as produced by ["..." + error]. *)
Definition Error_toString (e : Error) : string := name e +++ ": " +++ message e.

(** Reading property [p] of [undefined]. *)
Definition read_of_undefined (p : string) : Error :=
  TypeError ("Cannot read properties of undefined (reading '" +++ p +++ "')").

(** Reading property [p] of [null]. *)
Definition read_of_null (p : string) : Error :=
  TypeError ("Cannot read properties of null (reading '" +++ p +++ "')").

(** Truthiness of an optional string: [undefined] and the empty string are
    falsy. *)
Definition truthy_str (s : option string) : bool :=
  match s with
  | Some EmptyString | None => false
  | Some _ => true
  end.

(** [x || d] on an optional number. *)
Definition or_default (x : option Z) (d : Z) : Z :=
  match x with
  | Some v => if v =? 0 then d else v
  | None => d
  end.

(** JSON values of response bodies. *)
Inductive json :=
| JNull
| JNum (n : Z)
| JStr (s : string)
| JObj (fields : list (string * json)).

(** An object literal some of whose values may be [undefined]: such fields
    are left out when the object is serialised. *)
Definition object (fields : list (string * option json)) : json :=
  JObj (flat_map (fun kv => match snd kv with
                            | Some v => [(fst kv, v)]
                            | None => []
                            end) fields).

End JS.

(** ** Tables *)

(** [codeformats]: one counter per code type. *)
Record codeformat := mkCodeFormat {
  Code : Z;
  PreFix : string;
  Length : Z;
  nextValue : Z
}.

(** [products]. *)
Record product := mkProduct {
  id : Z;
  sku : string;
  productName : string;
  category : string;
  intQty : option Z;
  cost : option Z;
  price : option Z;
  image : option string;
  maxDiscount : option Z;
  dicountAllowed : Z
}.

(** [purchaseorder]. *)
Record purchaseorder_row := mkPurchaseOrder {
  po_id : Z;
  purchaseOrderCode : string;
  SupplierCode : option string;
  SupplierName : option string;
  TotalCost : option Z;
  postDate : string;
  docDate : string
}.

(** [purchaseorderdetails]. *)
Record purchaseorderdetails_row := mkPurchaseOrderDetails {
  poCode : string;
  ProductCode : option string;
  pod_productName : option string;
  qty : option Z;
  pod_cost : option Z
}.

(** [sales_invoices]. *)
Record sales_invoice := mkSalesInvoice {
  code : string;
  customer_id : string;
  post_date : string;
  due_date : string;
  payment_method : string;
  total_amount : Z;
  discount_amount : Z;
  net_total : Z
}.

(** [cart_items]. *)
Record cart_item := mkCartItem {
  invoice_code : string;
  ci_sku : string;
  ci_name : string;
  quantity : Z;
  ci_price : Z;
  discount : Z
}.

Record tables := mkTables {
  codeformats : list codeformat;
  products : list product;
  products_next_id : Z;
  purchaseorder : list purchaseorder_row;
  purchaseorder_next_id : Z;
  purchaseorderdetails : list purchaseorderdetails_row;
  sales_invoices : list sales_invoice;
  cart_items : list cart_item
}.

(** ** The shared connection *)

(** Statements sent over the connection, in the order they were sent. *)
Inductive stmt :=
| SelectCodeFormat (codeType : Z)
| UpdateNextValue (newValue codeType : Z)
| InsertProduct (sku : string)
| UpdateProduct (sku : string)
| UpdateInventory (quantity : option Z) (sku : option string)
| InsertPurchaseOrder (code : string)
| InsertPurchaseOrderDetails (code : string) (rows : nat)
| DeletePurchaseOrderDetails (code : string)
| DeletePurchaseOrder (code : string)
| BeginTransaction
| Commit
| InsertSalesInvoice (code : string)
| InsertCartItem (code : string) (sku : string).

(** [cur] is what every query on the connection sees; [committed] is what
    has been made durable; [in_txn] tells whether a transaction is open. *)
Record conn := mkConn {
  cur : tables;
  committed : tables;
  in_txn : bool;
  log : list stmt
}.

(** Computations on the connection that may throw.  What was written before
    a throw stays written: the state is returned in both cases. *)
Inductive outcome (A : Type) :=
| Ok (a : A)
| Throw (e : JS.Error).
Arguments Ok {A} a.
Arguments Throw {A} e.

Definition M (A : Type) : Type := conn -> outcome A * conn.

Definition ret {A} (a : A) : M A := fun c => (Ok a, c).

Definition throw {A} (e : JS.Error) : M A := fun c => (Throw e, c).

Definition bind {A B} (m : M A) (k : A -> M B) : M B :=
  fun c =>
    match m c with
    | (Ok a, c') => k a c'
    | (Throw e, c') => (Throw e, c')
    end.

(** [try { m } catch (error) { h error }]. *)
Definition try_catch {A} (m : M A) (h : JS.Error -> M A) : M A :=
  fun c =>
    match m c with
    | (Ok a, c') => (Ok a, c')
    | (Throw e, c') => h e c'
    end.

Declare Scope conn_scope.
Delimit Scope conn_scope with conn.
Notation "x <- m ;; k" := (bind m (fun x => k))
  (at level 100, m at next level, right associativity) : conn_scope.
Notation "m ;;; k" := (bind m (fun _ => k))
  (at level 100, right associativity) : conn_scope.
Open Scope conn_scope.

(** A statement that reads: logged, tables untouched. *)
Definition query_read {A} (s : stmt) (f : tables -> A) : M A :=
  fun c => (Ok (f (cur c)),
            mkConn (cur c) (committed c) (in_txn c) (log c ++ [s])).

(** What a writing statement reports back. *)
Record ResultSetHeader := mkHeader { affectedRows : Z; insertId : Z }.

(** A statement that writes: applied to [cur], and to [committed] as well
    when no transaction is open (autocommit).  It resolves to the pair
    [[header, fields]]. *)
Definition query_write (s : stmt) (f : tables -> ResultSetHeader * tables)
  : M (ResultSetHeader * unit) :=
  fun c =>
    let '(h, t) := f (cur c) in
    (Ok (h, tt),
     mkConn t (if in_txn c then committed c else t) (in_txn c) (log c ++ [s])).

(** [connection.beginTransaction()]: START TRANSACTION commits whatever
    transaction is still open, then opens a new one. *)
Definition beginTransaction : M unit :=
  fun c => (Ok tt, mkConn (cur c) (cur c) true (log c ++ [BeginTransaction])).

(** [connection.commit()]. *)
Definition commit : M unit :=
  fun c => (Ok tt, mkConn (cur c) (cur c) false (log c ++ [Commit])).

(** Functional updates of single tables. *)
Definition set_codeformats (l : list codeformat) (t : tables) : tables :=
  mkTables l (products t) (products_next_id t) (purchaseorder t)
    (purchaseorder_next_id t) (purchaseorderdetails t) (sales_invoices t)
    (cart_items t).

Definition set_products (l : list product) (n : Z) (t : tables) : tables :=
  mkTables (codeformats t) l n (purchaseorder t)
    (purchaseorder_next_id t) (purchaseorderdetails t) (sales_invoices t)
    (cart_items t).

Definition set_purchaseorder (l : list purchaseorder_row) (n : Z) (t : tables)
  : tables :=
  mkTables (codeformats t) (products t) (products_next_id t) l n
    (purchaseorderdetails t) (sales_invoices t) (cart_items t).

Definition set_purchaseorderdetails (l : list purchaseorderdetails_row)
  (t : tables) : tables :=
  mkTables (codeformats t) (products t) (products_next_id t) (purchaseorder t)
    (purchaseorder_next_id t) l (sales_invoices t) (cart_items t).

Definition set_sales_invoices (l : list sales_invoice) (t : tables) : tables :=
  mkTables (codeformats t) (products t) (products_next_id t) (purchaseorder t)
    (purchaseorder_next_id t) (purchaseorderdetails t) l (cart_items t).

Definition set_cart_items (l : list cart_item) (t : tables) : tables :=
  mkTables (codeformats t) (products t) (products_next_id t) (purchaseorder t)
    (purchaseorder_next_id t) (purchaseorderdetails t) (sales_invoices t) l.

(** ** generateEntryCode *)

(** [SELECT * FROM codeformats WHERE Code = ?]. *)
Definition select_codeformat (codeType : Z) (t : tables) : list codeformat :=
  filter (fun r => Code r =? codeType) (codeformats t).

(** [update codeformats SET nextValue=? where Code =?]. *)
Definition update_nextValue (newValue codeType : Z) (t : tables)
  : ResultSetHeader * tables :=
  (mkHeader (Z.of_nat (List.length (select_codeformat codeType t))) 0,
   set_codeformats
     (map (fun r => if Code r =? codeType
                    then mkCodeFormat (Code r) (PreFix r) (Length r) newValue
                    else r)
          (codeformats t)) t).

(** [preFix + String(newValue).padStart(Length, "0")]. *)
Definition codeSample (preFix : string) (Length newValue : Z) : string :=
  preFix +++ JS.padStart (JS.String newValue) Length "0".

Definition generateEntryCode (codeType : Z) : M string :=
  rows <- query_read (SelectCodeFormat codeType) (select_codeformat codeType) ;;
  match rows with
  | [] => throw (JS.read_of_undefined "nextValue")
  | row0 :: _ =>
      let nextValue := nextValue row0 in
      let preFix := PreFix row0 in
      let Length := Length row0 in
      let newValue := JS.add nextValue 1 in
      query_write (UpdateNextValue newValue codeType)
        (update_nextValue newValue codeType) ;;;
      ret (codeSample preFix Length newValue)
  end.

(** ** HTTP responses *)

Record response := mkResponse { status : Z; body : JS.json }.

Definition message_body (msg : string) : JS.json :=
  JS.JObj [("message", JS.JStr msg)].

(** ** POST /api/add-product *)

Record add_product_body := mkAddProductBody {
  ap_name : option string;
  ap_category : option string;
  ap_quantity : option Z;
  ap_cost : option Z;
  ap_price : option Z;
  ap_image : option string;
  ap_maxDiscount : option Z
}.

(** [INSERT INTO products (...) VALUES (...)]; the new row takes the next
    identifier of the table. *)
Definition insert_product (sku name category : string) (quantity : Z)
  (cost price : option Z) (image : option string) (maxDiscount dicountAllowed : Z)
  (t : tables) : ResultSetHeader * tables :=
  let i := products_next_id t in
  (mkHeader 1 i,
   set_products
     (products t ++ [mkProduct i sku name category (Some quantity) cost price
                       image (Some maxDiscount) dicountAllowed])
     (i + 1) t).

Definition add_product (b : add_product_body) : M response :=
  try_catch
    (let dicountAllowed := 0 in
     match ap_name b with
     | None | Some EmptyString =>
         ret (mkResponse 400 (message_body "Product name is required"))
     | Some name =>
     match ap_category b with
     | None | Some EmptyString =>
         ret (mkResponse 400 (message_body "Category is required"))
     | Some category =>
     match ap_quantity b with
     | None => ret (mkResponse 400 (message_body "Quantity is required"))
     | Some quantity =>
     if quantity <? 0 then
       ret (mkResponse 400 (message_body "Quantity must be a non-negative number"))
     else
     match ap_maxDiscount b with
     | None =>
         ret (mkResponse 400 (message_body
           "maxDiscount must be a non-negative number and in between 0 and 100"))
     | Some maxDiscount =>
     if (maxDiscount <? 0) || (maxDiscount >? 100) then
       ret (mkResponse 400 (message_body
         "maxDiscount must be a non-negative number and in between 0 and 100"))
     else
       let dicountAllowed :=
         if (0 <? maxDiscount) && (maxDiscount <? 100) then 1
         else dicountAllowed in
       sku <- generateEntryCode 1 ;;
       r <- query_write (InsertProduct sku)
              (insert_product sku name category quantity (ap_cost b)
                 (ap_price b) (ap_image b) maxDiscount dicountAllowed) ;;
       let result := fst r in
       ret (mkResponse 201
              (JS.JObj
                 [("message", JS.JStr "Product added successfully");
                  ("product",
                   JS.object
                     [("id", Some (JS.JNum (insertId result)));
                      ("sku", Some (JS.JStr sku));
                      ("name", Some (JS.JStr name));
                      ("category", Some (JS.JStr category));
                      ("quantity", Some (JS.JNum quantity));
                      ("cost", option_map JS.JNum (ap_cost b));
                      ("price", option_map JS.JNum (ap_price b));
                      ("image", option_map JS.JStr (ap_image b));
                      ("maxDiscount", Some (JS.JNum maxDiscount));
                      ("dicountAllowed", Some (JS.JNum dicountAllowed))])]))
     end end end end)
    (fun error =>
       ret (mkResponse 500
              (JS.JObj [("message", JS.JStr "Error adding product");
                        ("error", JS.JStr (JS.message error))]))).

(** ** PUT /api/update-product *)

Record update_product_body := mkUpdateProductBody {
  up_sku : option string;
  up_name : option string;
  up_category : option string;
  up_quantity : option Z;
  up_price : option Z;
  up_cost : option Z;
  up_image : option string;
  up_maxDiscount : option Z
}.

(** [image || null]. *)
Definition image_or_null (image : option string) : option string :=
  if JS.truthy_str image then image else None.

(** [UPDATE products SET productName = ?, ..., dicountAllowed=? WHERE sku = ?]. *)
Definition update_product_row (name category : string) (quantity price cost : option Z)
  (image : option string) (maxDiscount : option Z) (dicountAllowed : Z)
  (s : string) (t : tables) : ResultSetHeader * tables :=
  (mkHeader
     (Z.of_nat (List.length (filter (fun r => (sku r =? s)%string) (products t)))) 0,
   set_products
     (map (fun r => if (sku r =? s)%string
                    then mkProduct (id r) (sku r) name category quantity cost
                           price image maxDiscount dicountAllowed
                    else r)
          (products t))
     (products_next_id t) t).

(** [0 < maxDiscount && maxDiscount < 100]; both comparisons are false on
    [undefined]. *)
Definition discount_in_range (maxDiscount : option Z) : bool :=
  match maxDiscount with
  | Some m => (0 <? m) && (m <? 100)
  | None => false
  end.

(** [result.affectedRows] where [result] is the whole pair [[header, fields]]
    (the handler does not destructure it): an array has no such property. *)
Definition pair_affectedRows (result : ResultSetHeader * unit) : option Z := None.

Definition update_product (b : update_product_body) : M response :=
  let missingFields :=
    (if JS.truthy_str (up_sku b) then [] else ["sku"]) ++
    (if JS.truthy_str (up_name b) then [] else ["name"]) ++
    (if JS.truthy_str (up_category b) then [] else ["category"]) in
  match missingFields, up_sku b, up_name b, up_category b with
  | [], Some sku, Some name, Some category =>
      let dicountAllowed := if discount_in_range (up_maxDiscount b) then 1 else 0 in
      try_catch
        (result <- query_write (UpdateProduct sku)
                     (update_product_row name category (up_quantity b) (up_price b)
                        (up_cost b) (image_or_null (up_image b))
                        (up_maxDiscount b) dicountAllowed sku) ;;
         match pair_affectedRows result with
         | Some 0 => ret (mkResponse 404 (message_body "Product not found."))
         | _ => ret (mkResponse 200 (message_body "Product updated successfully."))
         end)
        (fun error => ret (mkResponse 500 (JS.JObj [("message", JS.JObj [])])))
  | _, _, _, _ =>
      ret (mkResponse 400
             (message_body ("Missing required fields: " +++
                            String.concat ", " missingFields)))
  end.

(** ** PUT /api/auto-update-inventory *)

(** An element of the [products] array: [null], or a value with its [sku]
    and [quantity] properties, [None] for a property that is absent or
    [null]. *)
Inductive inventory_entry :=
| Null
| mkEntry (sku : option string) (quantity : option Z).

(** The two properties of an element that is not [null]. *)
Definition e_sku (product : inventory_entry) : option string :=
  match product with
  | Null => None
  | mkEntry sku _ => sku
  end.

Definition e_quantity (product : inventory_entry) : option Z :=
  match product with
  | Null => None
  | mkEntry _ quantity => quantity
  end.

(** A value inside a template literal or on the right of a string [+]. *)
Definition show_str (s : option string) : string :=
  match s with Some v => v | None => "undefined" end.

(** The rows selected by [WHERE sku = ? AND intQty >= ?]; a comparison with
    NULL selects nothing. *)
Definition inventory_match (quantity : option Z) (s : option string)
  (r : product) : bool :=
  match s, quantity, intQty r with
  | Some s, Some q, Some stock => (sku r =? s)%string && (stock >=? q)
  | _, _, _ => false
  end.

(** [UPDATE products SET intQty = intQty - ? WHERE sku = ? AND intQty >= ?]. *)
Definition update_inventory (quantity : option Z) (s : option string)
  (t : tables) : ResultSetHeader * tables :=
  (mkHeader
     (Z.of_nat (List.length (filter (inventory_match quantity s) (products t)))) 0,
   set_products
     (map (fun r =>
             if inventory_match quantity s r
             then mkProduct (id r) (sku r) (productName r) (category r)
                    (match intQty r, quantity with
                     | Some stock, Some q => Some (stock - q)
                     | _, _ => None
                     end)
                    (cost r) (price r) (image r) (maxDiscount r) (dicountAllowed r)
             else r)
          (products t))
     (products_next_id t) t).

(** [quantity <= 0]: false on [undefined]. *)
Definition not_positive (quantity : option Z) : bool :=
  match quantity with Some q => q <=? 0 | None => false end.

(** The [for ... of] loop over the batch.  [Some r] is the response returned
    from inside the loop; [None] means the loop ran to its end.  Taking
    [{ sku, quantity }] out of a [null] element throws. *)
Fixpoint deduct_loop (products : list inventory_entry) : M (option response) :=
  match products with
  | [] => ret None
  | Null :: _ =>
      throw (JS.TypeError
               "Cannot destructure property 'sku' of 'object null' as it is null.")
  | entry :: rest =>
      let sku := e_sku entry in
      let quantity := e_quantity entry in
      if not_positive quantity then
        ret (Some (mkResponse 400
               (message_body ("Quantity must be greater than zero for SKU: " +++
                              show_str sku))))
      else
        r <- query_write (UpdateInventory quantity sku)
               (update_inventory quantity sku) ;;
        let result := fst r in
        if affectedRows result =? 0 then
          ret (Some (mkResponse 404
                 (message_body ("Product with SKU " +++ show_str sku +++
                                " not found or insufficient stock."))))
        else deduct_loop rest
  end.

(** [!product.sku || product.quantity == null], for an element that is not
    [null]. *)
Definition missing_fields (product : inventory_entry) : bool :=
  negb (JS.truthy_str (e_sku product)) ||
  match e_quantity product with None => true | Some _ => false end.

(** [products.filter((product, index) => ...)]: the elements are tested in
    order, and reading [sku] of a [null] element throws. *)
Fixpoint filter_missing_fields (products : list inventory_entry)
  : M (list inventory_entry) :=
  match products with
  | [] => ret []
  | Null :: _ => throw (JS.read_of_null "sku")
  | product :: rest =>
      kept <- filter_missing_fields rest ;;
      ret (if missing_fields product then product :: kept else kept)
  end.

(** [.map((product, index) => `Product at index ${index}`)]: the index is the
    position in the array being mapped. *)
Fixpoint index_labels {A} (l : list A) (index : nat) : list string :=
  match l with
  | [] => []
  | _ :: rest =>
      ("Product at index " +++ JS.String (Z.of_nat index))
        :: index_labels rest (S index)
  end.

Definition auto_update_inventory (products : option (list inventory_entry))
  : M response :=
  match products with
  | None =>
      ret (mkResponse 400
             (message_body
                ("Request must include an array of products with SKU and quantity."
                 +++ "false")))
  | Some [] =>
      ret (mkResponse 400
             (message_body
                ("Request must include an array of products with SKU and quantity."
                 +++ "true")))
  | Some products =>
      missing <- filter_missing_fields products ;;
      let missingProducts := index_labels missing 0 in
      if (0 <? List.length missingProducts)%nat then
        ret (mkResponse 400
               (message_body ("Missing required fields in products: " +++
                              String.concat ", " missingProducts)))
      else
        try_catch
          (r <- deduct_loop products ;;
           match r with
           | Some early => ret early
           | None => ret (mkResponse 200 (message_body "Products updated successfully."))
           end)
          (fun error =>
             ret (mkResponse 500
                    (message_body "An error occurred while updating products.")))
  end.

(** ** POST /api/delete-purchase-order *)

(** [DELETE FROM purchaseorderdetails WHERE poCode = ?]. *)
Definition delete_details (c : string) (t : tables) : ResultSetHeader * tables :=
  (mkHeader
     (Z.of_nat (List.length
        (filter (fun r => (poCode r =? c)%string) (purchaseorderdetails t)))) 0,
   set_purchaseorderdetails
     (filter (fun r => negb (poCode r =? c)%string) (purchaseorderdetails t)) t).

(** [DELETE FROM purchaseorder WHERE purchaseOrderCode = ?]. *)
Definition delete_order (c : string) (t : tables) : ResultSetHeader * tables :=
  (mkHeader
     (Z.of_nat (List.length
        (filter (fun r => (purchaseOrderCode r =? c)%string) (purchaseorder t)))) 0,
   set_purchaseorder
     (filter (fun r => negb (purchaseOrderCode r =? c)%string) (purchaseorder t))
     (purchaseorder_next_id t) t).

Definition delete_purchase_order (poCode : option string) : M response :=
  try_catch
    (match poCode with
     | None | Some EmptyString =>
         ret (mkResponse 400 (message_body "Missing purchase order code (poCode)"))
     | Some poCode =>
         query_write (DeletePurchaseOrderDetails poCode) (delete_details poCode) ;;;
         query_write (DeletePurchaseOrder poCode) (delete_order poCode) ;;;
         ret (mkResponse 200
                (message_body "Purchase order and details deleted successfully."))
     end)
    (fun error =>
       ret (mkResponse 500 (message_body "Error deleting purchase order"))).

(** [SELECT * FROM purchaseorderdetails WHERE poCode = ?]. *)
Definition select_details (c : string) (t : tables) : list purchaseorderdetails_row :=
  filter (fun r => (poCode r =? c)%string) (purchaseorderdetails t).

(** ** POST /api/create-purchase-order *)

(** The fields of [new Date()] the handler reads. *)
Record Date := mkDate { getFullYear : Z; getMonth : Z; getDate : Z }.

Record supplier_ref := mkSupplier {
  s_code : option string;
  s_name : option string
}.

(** An element of [orderDetails]: [null], or a value with its properties,
    [None] for a property that is absent or [null]. *)
Inductive order_line :=
| NullLine
| mkOrderLine (sku productName : option string) (quantity cost : option Z).

(** The properties of an element that is not [null]. *)
Definition l_sku (item : order_line) : option string :=
  match item with
  | NullLine => None
  | mkOrderLine sku _ _ _ => sku
  end.

Definition l_productName (item : order_line) : option string :=
  match item with
  | NullLine => None
  | mkOrderLine _ productName _ _ => productName
  end.

Definition l_quantity (item : order_line) : option Z :=
  match item with
  | NullLine => None
  | mkOrderLine _ _ quantity _ => quantity
  end.

Definition l_cost (item : order_line) : option Z :=
  match item with
  | NullLine => None
  | mkOrderLine _ _ _ cost => cost
  end.

Record purchase_order_body := mkPurchaseOrderBody {
  supplier : option supplier_ref;
  orderDetails : option (list order_line);
  totalCost : option Z
}.

(** [`${year}-${month}-${day}`]. *)
Definition qdate (date : Date) : string :=
  let year := getFullYear date in
  let month := JS.padStart (JS.String (JS.add (getMonth date) 1)) 2 "0" in
  let day := JS.padStart (JS.String (getDate date)) 2 "0" in
  JS.String year +++ "-" +++ month +++ "-" +++ day.

(** [INSERT INTO purchaseorder (...) VALUES (?, ?, ?, ?, ?, ?)]. *)
Definition insert_purchaseorder (c : string) (scode sname : option string)
  (total : option Z) (post doc : string) (t : tables) : ResultSetHeader * tables :=
  let i := purchaseorder_next_id t in
  (mkHeader 1 i,
   set_purchaseorder
     (purchaseorder t ++ [mkPurchaseOrder i c scode sname total post doc])
     (i + 1) t).

(** [INSERT INTO purchaseorderdetails (...) VALUES ?] with the whole batch. *)
Definition insert_details (orderItems : list purchaseorderdetails_row) (t : tables)
  : ResultSetHeader * tables :=
  (mkHeader (Z.of_nat (List.length orderItems)) 0,
   set_purchaseorderdetails (purchaseorderdetails t ++ orderItems) t).

(** [orderDetails.map((item) => [EntryCode, item.sku, ...])]: the elements
    are taken in order, and reading [sku] of a [null] element throws. *)
Fixpoint order_items (EntryCode : string) (orderDetails : list order_line)
  : M (list purchaseorderdetails_row) :=
  match orderDetails with
  | [] => ret []
  | NullLine :: _ => throw (JS.read_of_null "sku")
  | item :: rest =>
      rows <- order_items EntryCode rest ;;
      ret (mkPurchaseOrderDetails EntryCode (l_sku item) (l_productName item)
             (l_quantity item) (l_cost item) :: rows)
  end.

(** The code type passed to [generateEntryCode] by this handler. *)
Definition purchase_order_codeType : Z := 2.

Definition create_purchase_order (date : Date) (b : purchase_order_body)
  : M response :=
  try_catch
    (EntryCode <- generateEntryCode purchase_order_codeType ;;
     let qdate := qdate date in
     match supplier b with
     | None => throw (JS.read_of_undefined "code")
     | Some supplier =>
         r <- query_write (InsertPurchaseOrder EntryCode)
                (insert_purchaseorder EntryCode (s_code supplier) (s_name supplier)
                   (totalCost b) qdate qdate) ;;
         let result := fst r in
         match orderDetails b with
         | Some ((_ :: _) as orderDetails) =>
             orderItems <- order_items EntryCode orderDetails ;;
             query_write (InsertPurchaseOrderDetails EntryCode (List.length orderItems))
               (insert_details orderItems) ;;;
             ret tt
         | _ => ret tt
         end ;;;
         ret (mkResponse 200
                (JS.JObj [("message", JS.JStr "Purchase order added successfully");
                          ("purchaseOrderId", JS.JNum (insertId result))]))
     end)
    (fun error =>
       ret (mkResponse 500
              (JS.JObj
                 [("error",
                   JS.JStr ("An error occurred while creating the purchase order "
                            +++ JS.Error_toString error))]))).

(** ** POST /api/save-invoice *)

Record customer_ref := mkCustomer { c_code : option string }.

Record invoice_meta := mkInvoiceMeta {
  i_postDate : option string;
  i_dueDate : option string;
  i_paymentMethod : option string;
  i_totalAmount : option Z;
  i_discountAmount : option Z;
  i_netTotal : option Z
}.

Record cart_entry := mkCartEntry {
  ce_sku : option string;
  ce_name : option string;
  ce_quantity : option Z;
  ce_price : option Z;
  ce_discount : option Z
}.

Record invoice_body := mkInvoiceBody {
  customer : option customer_ref;
  invoice : option invoice_meta;
  cartItems : option (list cart_entry)
}.

(** mysql2 refuses an [execute] one of whose bind parameters is [undefined]. *)
Definition undefined_parameter : JS.Error :=
  JS.TypeError
    "Bind parameters must not contain undefined. To pass SQL NULL specify JS null".

(** [connection.execute(sql, params)]: [row] is the row made of the bind
    parameters, [None] when one of them is [undefined].  A refused statement
    never reaches the connection. *)
Definition execute {R} (s : stmt) (row : option R)
  (insert : R -> tables -> ResultSetHeader * tables) : M (ResultSetHeader * unit) :=
  match row with
  | Some r => query_write s (insert r)
  | None => throw undefined_parameter
  end.

Definition insert_sales_invoice (r : sales_invoice) (t : tables)
  : ResultSetHeader * tables :=
  (mkHeader 1 0, set_sales_invoices (sales_invoices t ++ [r]) t).

Definition insert_cart_item (r : cart_item) (t : tables)
  : ResultSetHeader * tables :=
  (mkHeader 1 0, set_cart_items (cart_items t ++ [r]) t).

(** The bind parameters of the [sales_invoices] insert. *)
Definition sales_invoice_params (EntryCode : string) (customer : customer_ref)
  (invoice : invoice_meta) : option sales_invoice :=
  match c_code customer, i_postDate invoice, i_dueDate invoice,
        i_paymentMethod invoice, i_totalAmount invoice,
        i_discountAmount invoice, i_netTotal invoice with
  | Some cc, Some pd, Some dd, Some pm, Some ta, Some da, Some nt =>
      Some (mkSalesInvoice EntryCode cc pd dd pm ta da nt)
  | _, _, _, _, _, _, _ => None
  end.

(** The bind parameters of one [cart_items] insert; the last one is
    [item.discount || 0]. *)
Definition cart_item_params (EntryCode : string) (item : cart_entry)
  : option cart_item :=
  match ce_sku item, ce_name item, ce_quantity item, ce_price item with
  | Some s, Some n, Some q, Some p =>
      Some (mkCartItem EntryCode s n q p (JS.or_default (ce_discount item) 0))
  | _, _, _, _ => None
  end.

(** [cartItems.map(item => connection.execute(...))] followed by
    [Promise.all]: every statement is issued, one after the other on the same
    connection, whether or not an earlier one was refused; the result is the
    first rejection, if any. *)
Fixpoint execute_all (EntryCode : string) (cartItems : list cart_entry)
  : M (option JS.Error) :=
  match cartItems with
  | [] => ret None
  | item :: rest =>
      first <- try_catch
                 (execute (InsertCartItem EntryCode (show_str (ce_sku item)))
                    (cart_item_params EntryCode item) insert_cart_item ;;;
                  ret None)
                 (fun e => ret (Some e)) ;;
      later <- execute_all EntryCode rest ;;
      ret (match first with Some e => Some e | None => later end)
  end.

Definition Promise_all (rejected : option JS.Error) : M unit :=
  match rejected with
  | Some e => throw e
  | None => ret tt
  end.

(** The code type passed to [generateEntryCode] by this handler. *)
Definition invoice_codeType : Z := 6.

(** [Throw] as the outcome of the handler itself means that the route's
    promise was rejected without a response being sent. *)
Definition save_invoice (b : invoice_body) : M response :=
  EntryCode <- generateEntryCode invoice_codeType ;;
  try_catch
    (beginTransaction ;;;
     match customer b with
     | None => throw (JS.read_of_undefined "code")
     | Some customer =>
     match invoice b with
     | None => throw (JS.read_of_undefined "postDate")
     | Some invoice =>
         execute (InsertSalesInvoice EntryCode)
           (sales_invoice_params EntryCode customer invoice)
           insert_sales_invoice ;;;
         match cartItems b with
         | None => throw (JS.read_of_undefined "map")
         | Some cartItems =>
             rejected <- execute_all EntryCode cartItems ;;
             Promise_all rejected ;;;
             commit ;;;
             ret (mkResponse 200
                    (JS.JObj [("message", JS.JStr "Invoice saved successfully!");
                              ("invoiceCode", JS.JStr EntryCode)]))
         end
     end end)
    (fun error =>
       ret (mkResponse 500
              (message_body ("Failed to save invoice. " +++ JS.message error)))).

(** * Further routes *)

(** The routes below send statements of kinds [stmt] has no constructor for.
    They run on the connection like any other statement; [log] keeps no trace
    of them. *)
Definition query_other_read {A} (f : tables -> A) : M A :=
  fun c => (Ok (f (cur c)), c).

Definition query_other_write (f : tables -> ResultSetHeader * tables)
  : M (ResultSetHeader * unit) :=
  fun c =>
    let '(h, t) := f (cur c) in
    (Ok (h, tt), mkConn t (if in_txn c then committed c else t) (in_txn c) (log c)).

(** ** GET /api/get-purchase-orders-details *)

(** What the route sends: the selected rows as they are, with status 200, or
    an object with an [error] field. *)
Inductive details_reply :=
| DetailsRows (rows : list purchaseorderdetails_row)
| DetailsError (status : Z) (error : string).

Definition get_purchase_orders_details (poCode : option string) : M details_reply :=
  try_catch
    (match poCode with
     | None | Some EmptyString => ret (DetailsError 400 "poCode is required")
     | Some poCode =>
         rows <- query_other_read (select_details poCode) ;;
         if (List.length rows =? 0)%nat then
           ret (DetailsError 404 "No purchase order found for the given poCode")
         else ret (DetailsRows rows)
     end)
    (fun error =>
       ret (DetailsError 500 ("Internal Server Error " +++ JS.Error_toString error))).

(** ** DELETE /api/delete-product *)

(** [DELETE FROM products WHERE id = ?]; a comparison with NULL selects
    nothing. *)
Definition product_has_id (i : option Z) (r : product) : bool :=
  match i with Some v => id r =? v | None => false end.

Definition delete_product_rows (i : option Z) (t : tables) : ResultSetHeader * tables :=
  (mkHeader (Z.of_nat (List.length (filter (product_has_id i) (products t)))) 0,
   set_products (filter (fun r => negb (product_has_id i r)) (products t))
     (products_next_id t) t).

(** The second statement is [pool.query("commit")]. *)
Definition delete_product (i : option Z) : M response :=
  try_catch
    (query_other_write (delete_product_rows i) ;;;
     commit ;;;
     ret (mkResponse 200
            (JS.object [("message", Some (JS.JStr "Product deleted successfully"));
                        ("id", option_map JS.JNum i)])))
    (fun error => ret (mkResponse 500 (message_body "Internal server error"))).

(** ** The session file *)

Module Session.

(** The file [session.json]: not there, there with a text [JSON.parse]
    refuses, or there with the text of an object, given by its own
    properties. *)
Inductive file :=
| Missing
| Unparsable
| Parsed (sessionData : list (string * JS.json)).

(** The names of the properties every object inherits from
    [Object.prototype]. *)
Definition Object_prototype : list string :=
  ["constructor"; "__defineGetter__"; "__defineSetter__"; "hasOwnProperty";
   "__lookupGetter__"; "__lookupSetter__"; "isPrototypeOf";
   "propertyIsEnumerable"; "toString"; "valueOf"; "__proto__";
   "toLocaleString"].

Definition inherited (key : string) : bool :=
  existsb (String.eqb key) Object_prototype.

(** What reading a property of the parsed object gives: the value of an own
    property, or what [Object.prototype] has under that name, a function, or
    the prototype itself for [__proto__]. *)
Inductive property :=
| Own (v : JS.json)
| Inherited (name : string).

(** The own property of that name. *)
Fixpoint lookup (key : string) (sessionData : list (string * JS.json))
  : option JS.json :=
  match sessionData with
  | [] => None
  | (k, v) :: rest => if (k =? key)%string then Some v else lookup key rest
  end.

(** [sessionData[key]]: the own property, else the inherited one, else
    [undefined]. *)
Definition get (key : string) (sessionData : list (string * JS.json))
  : option property :=
  match lookup key sessionData with
  | Some v => Some (Own v)
  | None => if inherited key then Some (Inherited key) else None
  end.

(** Creating or replacing the own property [key]. *)
Fixpoint assign (key : string) (value : JS.json)
  (sessionData : list (string * JS.json)) : list (string * JS.json) :=
  match sessionData with
  | [] => [(key, value)]
  | (k, v) :: rest =>
      if (k =? key)%string then (k, value) :: rest
      else (k, v) :: assign key value rest
  end.

(** [sessionData[key] = value] for a value that is not [undefined].  Without
    an own property of that name, [__proto__] is the accessor of
    [Object.prototype]: its setter creates no own property. *)
Definition set (key : string) (value : JS.json)
  (sessionData : list (string * JS.json)) : list (string * JS.json) :=
  match lookup key sessionData with
  | None => if (key =? "__proto__")%string then sessionData
            else assign key value sessionData
  | Some _ => assign key value sessionData
  end.

(** What [JSON.stringify] writes after [sessionData[key] = value]: the own
    properties, one whose value is [undefined] left out. *)
Definition written (key : string) (value : option JS.json)
  (sessionData : list (string * JS.json)) : list (string * JS.json) :=
  match value with
  | Some v => set key v sessionData
  | None => filter (fun kv => negb (fst kv =? key)%string) sessionData
  end.

(** When the file cannot be parsed the error is caught and logged and
    nothing is written. *)
Definition saveSessionData (key : string) (value : option JS.json) (f : file) : file :=
  match f with
  | Missing => Parsed (written key value [])
  | Unparsable => Unparsable
  | Parsed sessionData => Parsed (written key value sessionData)
  end.

(** [None] stands for both [null] and [undefined]. *)
Definition getSessionData (key : string) (f : file) : option property :=
  match f with
  | Missing => None
  | Unparsable => None
  | Parsed sessionData => get key sessionData
  end.

(** What [JSON.stringify] makes of a value that was read: a function is left
    out, and [Object.prototype] has no property to list. *)
Definition stringified (p : property) : option JS.json :=
  match p with
  | Own v => Some v
  | Inherited name => if (name =? "__proto__")%string then Some (JS.JObj []) else None
  end.

End Session.

(** Truthiness of a value read from the session. *)
Definition truthy_value (v : option Session.property) : bool :=
  match v with
  | None | Some (Session.Own JS.JNull) => false
  | Some (Session.Own (JS.JStr s)) => negb (s =? "")%string
  | Some (Session.Own (JS.JNum n)) => negb (n =? 0)
  | Some (Session.Own (JS.JObj _)) => true
  | Some (Session.Inherited _) => true
  end.

(** ** GET /get-the-role *)

Definition get_the_role (f : Session.file) : response :=
  let role := Session.getSessionData "role" f in
  if negb (truthy_value role) then
    mkResponse 404 (message_body "Role not found")
  else
    mkResponse 200
      (JS.object [("role", match role with
                           | Some p => Session.stringified p
                           | None => None
                           end)]).

(** ** POST /api/login *)

(** A row of [users]; [role] may be NULL. *)
Record user := mkUser {
  u_id : Z;
  u_username : string;
  u_password : string;
  u_role : option string
}.

(** A column value as the driver hands it over: NULL is [null]. *)
Definition column_text (v : option string) : JS.json :=
  match v with Some s => JS.JStr s | None => JS.JNull end.

Section Login.

(** [bcrypt.compare(password, hash)] and [jwt.sign({id, username}, ...)]. *)
Variable bcrypt_compare : string -> string -> bool.
Variable jwt_sign : Z -> string -> string.

(** [users] is the content of the table the route selects from; the session
    file is read and written through [saveSessionData].  The catch branch of
    the route is left out: nothing in its body throws here. *)
Definition login (users : list user) (username : option string) (password : string)
  (f : Session.file) : response * Session.file :=
  let rows :=
    filter (fun r => match username with
                     | Some u => (u_username r =? u)%string
                     | None => false
                     end) users in
  match rows with
  | [] => (mkResponse 401 (message_body "Invalid username or password"), f)
  | user :: _ =>
      let f' := Session.saveSessionData "role" (Some (column_text (u_role user))) f in
      let isMatch := bcrypt_compare password (u_password user) in
      if negb isMatch then
        (mkResponse 401 (message_body "Invalid username or password"), f')
      else
        let token := jwt_sign (u_id user) (u_username user) in
        (mkResponse 200
           (JS.JObj [("message", JS.JStr "Login successful");
                     ("token", JS.JStr token)]), f')
  end.

End Login.

(** ** POST /api/add-supplier and POST /api/add-customer *)

(** The [suppliers] and [customers] tables are kept beside [tables]: their
    rows and the identifier the next row takes.  The catch branches around
    the two inserts are left out: an insert always completes here. *)
Record supplier_row := mkSupplierRow {
  sup_id : Z;
  sup_code : string;
  sup_name : string;
  sup_email : option string;
  sup_phone : option string;
  sup_address : option string;
  sup_city : option string;
  sup_country : option string
}.

Record suppliers_table := mkSuppliers {
  suppliers : list supplier_row;
  suppliers_next_id : Z
}.

Record add_supplier_body := mkAddSupplierBody {
  as_name : option string;
  as_email : option string;
  as_phone : option string;
  as_address : option string;
  as_city : option string;
  as_country : option string
}.

Definition add_supplier (b : add_supplier_body) (t : suppliers_table)
  : M (response * suppliers_table) :=
  match as_name b with
  | None | Some EmptyString =>
      ret (mkResponse 400
             (message_body ("Missing required fields: " +++
                            String.concat ", " ["name"])), t)
  | Some name =>
      generated <- try_catch
                     (EntryCode <- generateEntryCode 2 ;; ret (Some EntryCode))
                     (fun error => ret None) ;;
      match generated with
      | None =>
          ret (mkResponse 500 (message_body "Error generating entry code"), t)
      | Some EntryCode =>
          let i := suppliers_next_id t in
          ret (mkResponse 200
                 (JS.JObj [("message", JS.JStr "Supplier added successfully");
                           ("supplierId", JS.JNum i)]),
               mkSuppliers
                 (suppliers t ++
                  [mkSupplierRow i EntryCode name (as_email b) (as_phone b)
                     (as_address b) (as_city b) (as_country b)])
                 (i + 1))
      end
  end.

Record customer_row := mkCustomerRow {
  cus_id : Z;
  cus_code : string;
  cus_name : string;
  cus_email : option string;
  cus_contact : option string;
  cus_address : option string;
  cus_city : option string;
  cus_country : option string
}.

Record customers_table := mkCustomers {
  customers : list customer_row;
  customers_next_id : Z
}.

Record add_customer_body := mkAddCustomerBody {
  ac_name : option string;
  ac_email : option string;
  ac_contact : option string;
  ac_address : option string;
  ac_city : option string;
  ac_country : option string
}.

(** The code is asked for first, outside the try block and before the check
    of the name. *)
Definition add_customer (b : add_customer_body) (t : customers_table)
  : M (response * customers_table) :=
  EntryCode <- generateEntryCode 5 ;;
  match ac_name b with
  | None | Some EmptyString =>
      ret (mkResponse 400
             (message_body ("Missing required fields: " +++
                            String.concat ", " ["name"])), t)
  | Some name =>
      let i := customers_next_id t in
      ret (mkResponse 200
             (JS.JObj [("message", JS.JStr "Customer added successfully");
                       ("customer", JS.JNum i)]),
           mkCustomers
             (customers t ++
              [mkCustomerRow i EntryCode name (ac_email b) (ac_contact b)
                 (ac_address b) (ac_city b) (ac_country b)])
             (i + 1))
  end.

(** ** Vocabulary of the statements *)

(** [n] copies of the character 0. *)
Fixpoint zeros (n : nat) : string :=
  match n with
  | O => EmptyString
  | S n' => String "0" (zeros n')
  end.






(** The integers [n] for which [n + 1] is exact, [Number.isSafeInteger]:
    the counters the statements are about. *)
Definition safe_integer (n : Z) : Prop := - 2 ^ 53 < n < 2 ^ 53.


(** A counter row with its counter replaced. *)
Definition with_nextValue (v : Z) (r : codeformat) : codeformat :=
  mkCodeFormat (Code r) (PreFix r) (Length r) v.

(** The values of the top-level fields of a response body. *)
Definition field_values (j : JS.json) : list JS.json :=
  match j with
  | JS.JObj fields => map snd fields
  | _ => []
  end.

(** The tables after the conditional updates of a list of entries. *)
Definition deductions (l : list inventory_entry) (t : tables) : tables :=
  fold_left (fun t e => snd (update_inventory (e_quantity e) (e_sku e) t)) l t.

(** Every entry of [l], taken in order from tables [t], asks for a positive
    quantity and its update changes at least one row. *)
Fixpoint all_applied (l : list inventory_entry) (t : tables) : bool :=
  match l with
  | [] => true
  | e :: rest =>
      negb (not_positive (e_quantity e)) &&
      negb (affectedRows (fst (update_inventory (e_quantity e) (e_sku e) t)) =? 0) &&
      all_applied rest (snd (update_inventory (e_quantity e) (e_sku e) t))
  end.

(** The stock of the rows of a given SKU. *)
Definition stock_of (s : string) (t : tables) : list (option Z) :=
  map intQty (filter (fun r => (sku r =? s)%string) (products t)).

(** The stock held by the whole table; a NULL quantity counts for nothing. *)
Definition total_stock (t : tables) : Z :=
  fold_right Z.add 0
    (map (fun r => match intQty r with Some q => q | None => 0 end) (products t)).

(** The statement sent for one entry of the batch. *)
Definition inventory_stmt (e : inventory_entry) : stmt :=
  UpdateInventory (e_quantity e) (e_sku e).

(** A cart entry all of whose bind parameters are defined. *)
Definition complete_entry (item : cart_entry) : bool :=
  match ce_sku item, ce_name item, ce_quantity item, ce_price item with
  | Some _, Some _, Some _, Some _ => true
  | _, _, _, _ => false
  end.

(** The [cart_items] rows of the entries whose insert is not refused. *)
Definition accepted_rows (EntryCode : string) (cartItems : list cart_entry)
  : list cart_item :=
  flat_map (fun item => match cart_item_params EntryCode item with
                        | Some r => [r]
                        | None => []
                        end) cartItems.

(** The statements of the inserts that are not refused. *)
Definition accepted_stmts (EntryCode : string) (cartItems : list cart_entry)
  : list stmt :=
  flat_map (fun item => match cart_item_params EntryCode item with
                        | Some _ => [InsertCartItem EntryCode (show_str (ce_sku item))]
                        | None => []
                        end) cartItems.

(** What the row stored for a cart entry holds. *)
Definition row_of_entry (EntryCode : string) (item : cart_entry) (r : cart_item)
  : Prop :=
  invoice_code r = EntryCode /\
  ce_sku item = Some (ci_sku r) /\ ce_name item = Some (ci_name r) /\
  ce_quantity item = Some (quantity r) /\ ce_price item = Some (ci_price r) /\
  discount r = match ce_discount item with Some d => d | None => 0 end.

(** The lines a purchase-order request carries, none when the field is absent. *)
Definition lines_of (orderDetails : option (list order_line)) : list order_line :=
  match orderDetails with Some l => l | None => [] end.

(** The [purchaseorderdetails] row of one line under an order code. *)
Definition line_row (EntryCode : string) (item : order_line)
  : purchaseorderdetails_row :=
  mkPurchaseOrderDetails EntryCode (l_sku item) (l_productName item)
    (l_quantity item) (l_cost item).

(** ** Sample data *)

Definition sample_tables : tables :=
  mkTables
    [mkCodeFormat 1 "SKU" 2 98; mkCodeFormat 2 "PO" 4 7; mkCodeFormat 6 "INV" 5 41]
    [mkProduct 1 "SKU97" "Tea" "Drinks" (Some 10) (Some 3) (Some 5) None (Some 0) 0;
     mkProduct 2 "SKU98" "Mug" "Kitchen" (Some 1) (Some 2) (Some 4) None (Some 20) 1]
    3 [] 1 [] [] [].

Definition sample_conn : conn := mkConn sample_tables sample_tables false [].


Definition sample_orders : tables :=
  mkTables (codeformats sample_tables) (products sample_tables) 3
    [mkPurchaseOrder 1 "PO0006" (Some "SUP01") (Some "Acme") (Some 30)
       "2024-01-05" "2024-01-05";
     mkPurchaseOrder 2 "PO0007" (Some "SUP02") (Some "Best") (Some 12)
       "2024-02-11" "2024-02-11"]
    3
    [mkPurchaseOrderDetails "PO0006" (Some "SKU97") (Some "Tea") (Some 10) (Some 3);
     mkPurchaseOrderDetails "PO0007" (Some "SKU98") (Some "Mug") (Some 2) (Some 2);
     mkPurchaseOrderDetails "PO0007" (Some "SKU97") (Some "Tea") (Some 4) (Some 2)]
    [] [].

Definition sample_orders_conn : conn := mkConn sample_orders sample_orders false [].

Definition sample_date : Date := mkDate 2024 2 9.

Definition sample_order_body : purchase_order_body :=
  mkPurchaseOrderBody (Some (mkSupplier (Some "SUP01") (Some "Acme")))
    (Some [mkOrderLine (Some "SKU97") (Some "Tea") (Some 10) (Some 3);
           mkOrderLine (Some "SKU98") (Some "Mug") (Some 2) (Some 2)])
    (Some 34).

Definition sample_invoice_meta : invoice_meta :=
  mkInvoiceMeta (Some "2024-03-09") (Some "2024-04-09") (Some "cash")
    (Some 25) (Some 1) (Some 24).

Definition sample_invoice_body : invoice_body :=
  mkInvoiceBody (Some (mkCustomer (Some "CUS01"))) (Some sample_invoice_meta)
    (Some [mkCartEntry (Some "SKU97") (Some "Tea") (Some 2) (Some 5) None;
           mkCartEntry (Some "SKU98") (Some "Mug") (Some 1) (Some 4) (Some 1);
           mkCartEntry (Some "SKU97") (Some "Tea") (Some 2) (Some 5) (Some 0)]).

(** A request whose second cart entry has no [sku]. *)
Definition sample_invoice_body_missing_sku : invoice_body :=
  mkInvoiceBody (Some (mkCustomer (Some "CUS01"))) (Some sample_invoice_meta)
    (Some [mkCartEntry (Some "SKU97") (Some "Tea") (Some 2) (Some 5) None;
           mkCartEntry None (Some "Mug") (Some 1) (Some 4) (Some 1);
           mkCartEntry (Some "SKU97") (Some "Tea") (Some 2) (Some 5) (Some 0)]).

(** ** Vocabulary of the further properties *)

(** The request passes every check add-product makes before it asks for a
    code. *)
Definition add_product_accepts (b : add_product_body) : bool :=
  JS.truthy_str (ap_name b) && JS.truthy_str (ap_category b) &&
  match ap_quantity b, ap_maxDiscount b with
  | Some q, Some m => (0 <=? q) && (0 <=? m) && (m <=? 100)
  | _, _ => false
  end.

(** The request names the three fields update-product asks for. *)
Definition update_product_accepts (b : update_product_body) : bool :=
  JS.truthy_str (up_sku b) && JS.truthy_str (up_name b) &&
  JS.truthy_str (up_category b).

(** The batch is an array one of whose elements is [null]. *)
Definition has_null (batch : option (list inventory_entry)) : Prop :=
  match batch with
  | Some l => In Null l
  | None => False
  end.

(** No row holds a negative quantity. *)
Definition stock_nonneg (t : tables) : bool :=
  forallb (fun p => match intQty p with Some q => 0 <=? q | None => true end)
    (products t).

(** Everything a product row holds apart from its quantity. *)
Definition product_identity (p : product)
  : Z * string * string * string * option Z * option Z * option string *
    option Z * Z :=
  (id p, sku p, productName p, category p, cost p, price p, image p,
   maxDiscount p, dicountAllowed p).

(** The tables apart from the quantities of the products. *)
Definition same_but_stock (t t' : tables) : Prop :=
  codeformats t' = codeformats t /\
  map product_identity (products t') = map product_identity (products t) /\
  products_next_id t' = products_next_id t /\
  purchaseorder t' = purchaseorder t /\
  purchaseorder_next_id t' = purchaseorder_next_id t /\
  purchaseorderdetails t' = purchaseorderdetails t /\
  sales_invoices t' = sales_invoices t /\
  cart_items t' = cart_items t.

(** The tables apart from the counters. *)
Definition same_but_counters (t t' : tables) : Prop :=
  products t' = products t /\
  products_next_id t' = products_next_id t /\
  purchaseorder t' = purchaseorder t /\
  purchaseorder_next_id t' = purchaseorder_next_id t /\
  purchaseorderdetails t' = purchaseorderdetails t /\
  sales_invoices t' = sales_invoices t /\
  cart_items t' = cart_items t.

(** A request to one of the modelled routes that use the connection. *)
Inductive request :=
| ToAddProduct (b : add_product_body)
| ToUpdateProduct (b : update_product_body)
| ToDeleteProduct (i : option Z)
| ToAutoUpdateInventory (products : option (list inventory_entry))
| ToAddSupplier (b : add_supplier_body) (t : suppliers_table)
| ToAddCustomer (b : add_customer_body) (t : customers_table)
| ToCreatePurchaseOrder (date : Date) (b : purchase_order_body)
| ToGetPurchaseOrdersDetails (poCode : option string)
| ToDeletePurchaseOrder (poCode : option string)
| ToSaveInvoice (b : invoice_body).

(** The connection after a request has been served. *)
Definition serve (r : request) (c : conn) : conn :=
  match r with
  | ToAddProduct b => snd (add_product b c)
  | ToUpdateProduct b => snd (update_product b c)
  | ToDeleteProduct i => snd (delete_product i c)
  | ToAutoUpdateInventory products => snd (auto_update_inventory products c)
  | ToAddSupplier b t => snd (add_supplier b t c)
  | ToAddCustomer b t => snd (add_customer b t c)
  | ToCreatePurchaseOrder date b => snd (create_purchase_order date b c)
  | ToGetPurchaseOrdersDetails poCode => snd (get_purchase_orders_details poCode c)
  | ToDeletePurchaseOrder poCode => snd (delete_purchase_order poCode c)
  | ToSaveInvoice b => snd (save_invoice b c)
  end.

(** The connection after a list of requests served one after the other. *)
Definition serve_all (rs : list request) (c : conn) : conn :=
  fold_left (fun c r => serve r c) rs c.

(** From [t] to [t'] the counters are untouched, or the counter of one code
    type has taken the step of [generateEntryCode]. *)
Definition counter_step (t t' : tables) : Prop :=
  codeformats t' = codeformats t \/
  exists codeType row rest,
    select_codeformat codeType t = row :: rest /\
    codeformats t' =
      codeformats (snd (update_nextValue (JS.add (nextValue row) 1) codeType t)).

(** Sample users, and stand-ins for the password check and the token. *)
Definition sample_users : list user :=
  [mkUser 1 "ann" "hash-of-secret" (Some "admin");
   mkUser 2 "bob" "hash-of-hunter2" (Some "cashier")].

Definition sample_compare (password hash : string) : bool :=
  ("hash-of-" +++ password =? hash)%string.

Definition sample_sign (i : Z) (username : string) : string :=
  "token-" +++ JS.String i +++ "-" +++ username.

Definition sample_suppliers : suppliers_table := mkSuppliers [] 1.

Definition sample_customers : customers_table := mkCustomers [] 1.

Definition sample_tables_with_customers : tables :=
  set_codeformats (codeformats sample_tables ++ [mkCodeFormat 5 "CUS" 3 9])
    sample_tables.

Definition sample_conn_with_customers : conn :=
  mkConn sample_tables_with_customers sample_tables_with_customers false [].

(** The sample store with its [codeformats] table emptied. *)
Definition sample_no_counters : conn :=
  mkConn (set_codeformats [] sample_tables) (set_codeformats [] sample_tables)
    false [].

(** * Properties *)

(** ** Decimal strings and padding *)

Lemma length_append (a b : string) :
  String.length (a +++ b) = (String.length a + String.length b)%nat.
Proof.
  induction a as [|ch a IH]; simpl; [reflexivity | now rewrite IH].
Qed.


Lemma append_inv_head (p a b : string) : p +++ a = p +++ b -> a = b.
Proof.
  induction p as [|ch p IH]; simpl; intros H; [assumption|].
  injection H as H. now apply IH.
Qed.

Lemma filler_zero_gen n : forall rest,
  rest = EmptyString \/ rest = "0" -> JS.filler "0" rest n = zeros n.
Proof.
  induction n as [|n IH]; intros rest Hrest; [reflexivity|].
  destruct Hrest as [-> | ->]; simpl; f_equal; apply IH; now left.
Qed.

(** Padding with the character 0 puts [targetLength - length s] zeros in
    front of [s], none when that difference is not positive. *)
Lemma padStart_zero (s : string) (targetLength : Z) :
  JS.padStart s targetLength "0" =
  zeros (Z.to_nat (targetLength - Z.of_nat (String.length s))) +++ s.
Proof.
  unfold JS.padStart. rewrite filler_zero_gen; [reflexivity | now right].
Qed.

Lemma string_of_uint_D0 d s :
  NilZero.string_of_uint d = String "0" s ->
  d = Decimal.Nil \/ exists d', d = Decimal.D0 d'.
Proof.
  destruct d; simpl; intros H; try discriminate; [now left | right; eauto].
Qed.

(** A positive number is printed without a leading zero. *)
Lemma to_uint_no_leading_zero p d : Pos.to_uint p <> Decimal.D0 d.
Proof.
  intros E.
  assert (U : Decimal.unorm (Pos.to_uint p) = Pos.to_uint p).
  { rewrite <- (DecimalPos.Unsigned.to_of (Pos.to_uint p)).
    now rewrite DecimalPos.Unsigned.of_to. }
  rewrite E in U. unfold Decimal.unorm in U.
  destruct (Decimal.nzhead (Decimal.D0 d)) eqn:N; try discriminate.
  - injection U as <-. apply (DecimalPos.Unsigned.to_uint_nonzero p). exact E.
  - now apply DecimalFacts.nzhead_nonzero in N.
Qed.

Lemma String_nonempty z : JS.String z <> EmptyString.
Proof.
  unfold JS.String. destruct z as [|p|p]; simpl; try discriminate.
  destruct (Pos.to_uint p) eqn:E; simpl; try discriminate.
Qed.

(** The only decimal string that starts with 0 is ["0"] itself. *)
Lemma String_leading_zero z s : JS.String z = String "0" s -> s = EmptyString.
Proof.
  unfold JS.String. destruct z as [|p|p]; simpl.
  - now intros [= <-].
  - intros H. apply string_of_uint_D0 in H. destruct H as [H | [d' H]].
    + now apply DecimalPos.Unsigned.to_uint_nonnil in H.
    + now apply to_uint_no_leading_zero in H.
  - discriminate.
Qed.

Lemma String_inj a b : JS.String a = JS.String b -> a = b.
Proof.
  unfold JS.String. intros H.
  apply DecimalZ.to_int_inj.
  assert (P : forall z, NilZero.int_of_string (NilZero.string_of_int (Z.to_int z))
                        = Some (Z.to_int z)).
  { intros z. apply NilZero.isi; destruct z as [|p|p]; simpl; try discriminate;
      intros [= E]; now apply DecimalPos.Unsigned.to_uint_nonnil in E. }
  generalize (P a). rewrite H, P. now intros [= ->].
Qed.

Lemma zeros_head n m s :
  (n < m)%nat -> exists u, zeros m +++ s = zeros n +++ String "0" u.
Proof.
  revert m. induction n as [|n IH]; intros m Hnm.
  - destruct m as [|m]; [lia|]. simpl. eauto.
  - destruct m as [|m]; [lia|]. destruct (IH m) as [u Hu]; [lia|].
    exists u. simpl. now rewrite Hu.
Qed.

(** Zero-padded decimal strings of one target length determine the number. *)
Lemma padStart_String_inj (targetLength a b : Z) :
  JS.padStart (JS.String a) targetLength "0" =
  JS.padStart (JS.String b) targetLength "0" -> a = b.
Proof.
  rewrite !padStart_zero.
  set (n := Z.to_nat (targetLength - Z.of_nat (String.length (JS.String a)))).
  set (m := Z.to_nat (targetLength - Z.of_nat (String.length (JS.String b)))).
  intros H.
  destruct (lt_eq_lt_dec n m) as [[Hlt | Heq] | Hgt].
  - exfalso. destruct (zeros_head n m (JS.String b) Hlt) as [u Hu].
    rewrite Hu in H. apply append_inv_head in H.
    pose proof (String_leading_zero _ _ H) as ->.
    assert (L : String.length (JS.String a) = 1%nat) by now rewrite H.
    pose proof (String_nonempty b) as Hb.
    destruct (JS.String b) eqn:Eb; [congruence|]. simpl in *. lia.
  - rewrite Heq in H. apply append_inv_head in H. now apply String_inj.
  - exfalso. destruct (zeros_head m n (JS.String a) Hgt) as [u Hu].
    rewrite Hu in H. apply append_inv_head in H. symmetry in H.
    pose proof (String_leading_zero _ _ H) as ->.
    assert (L : String.length (JS.String b) = 1%nat) by now rewrite H.
    pose proof (String_nonempty a) as Ha.
    destruct (JS.String a) eqn:Ea; [congruence|]. simpl in *. lia.
Qed.

Lemma codeSample_inj (preFix : string) (Length a b : Z) :
  codeSample preFix Length a = codeSample preFix Length b -> a = b.
Proof.
  unfold codeSample. intros H. apply append_inv_head in H.
  now apply padStart_String_inj in H.
Qed.

(** ** The order of codes as strings *)












(** ** Numbers *)

(** An integer of at most 53 bits is a number as it is. *)
Lemma round_exact (x : Z) : Z.abs x <= 2 ^ 53 -> JS.round x = x.
Proof.
  intros Hx. unfold JS.round.
  destruct (Z.eq_dec (Z.abs x) (2 ^ 53)) as [E|E].
  - destruct x as [|p|p]; cbn [Z.abs] in E; [discriminate| |];
      injection E as ->; reflexivity.
  - assert (L : Z.log2 (Z.abs x) - 52 <= 0).
    { destruct (Z.eq_dec (Z.abs x) 0) as [Z0|Z0]; [rewrite Z0; cbn; lia|].
      assert (Z.log2 (Z.abs x) < 53); [|lia].
      apply Z.log2_lt_pow2; lia. }
    apply Z.leb_le in L. now rewrite L.
Qed.

(** On a safe integer [+ 1] is the successor. *)
Lemma add_one_exact (v : Z) : safe_integer v -> JS.add v 1 = v + 1.
Proof.
  unfold safe_integer, JS.add. intros Hv. apply round_exact. lia.
Qed.

(** From [2^53] on it is not: [2^53 + 1] is [2^53] again. *)
Example add_one_at_the_limit : JS.add (2 ^ 53) 1 = 2 ^ 53.
Proof.
  reflexivity.
Qed.

(** ** generateEntryCode *)

Lemma select_after_update (v codeType : Z) (t : tables) :
  select_codeformat codeType (snd (update_nextValue v codeType t)) =
  map (with_nextValue v) (select_codeformat codeType t).
Proof.
  unfold select_codeformat, update_nextValue; simpl.
  induction (codeformats t) as [|r l IH]; simpl; [reflexivity|].
  destruct (Code r =? codeType) eqn:E; simpl; rewrite E, IH; reflexivity.
Qed.

(** Counters of the other code types are not touched. *)
Lemma select_other_after_update (v codeType other : Z) (t : tables) :
  other <> codeType ->
  select_codeformat other (snd (update_nextValue v codeType t)) =
  select_codeformat other t.
Proof.
  intros Hne. unfold select_codeformat, update_nextValue; simpl.
  induction (codeformats t) as [|r l IH]; simpl; [reflexivity|].
  destruct (Code r =? codeType) eqn:E; simpl.
  - apply Z.eqb_eq in E.
    assert ((Code r =? other) = false) as -> by (apply Z.eqb_neq; congruence).
    exact IH.
  - rewrite IH. reflexivity.
Qed.

(** What one call does on a connection whose first row for [codeType] is
    [row]. *)
Lemma generateEntryCode_step (c : conn) (codeType : Z) (row : codeformat)
  (rest : list codeformat) :
  select_codeformat codeType (cur c) = row :: rest ->
  let newValue := JS.add (nextValue row) 1 in
  generateEntryCode codeType c =
  (Ok (codeSample (PreFix row) (Length row) newValue),
   let t := snd (update_nextValue newValue codeType (cur c)) in
   mkConn t (if in_txn c then committed c else t) (in_txn c)
     (log c ++ [SelectCodeFormat codeType; UpdateNextValue newValue codeType])).
Proof.
  intros Hsel. unfold generateEntryCode, bind, query_read, query_write, ret.
  cbn [cur committed in_txn log]. rewrite Hsel.
  cbn [update_nextValue fst snd cur committed in_txn log].
  rewrite <- app_assoc. reflexivity.
Qed.

(** The same for a counter that is a safe integer. *)
Lemma generateEntryCode_run (c : conn) (codeType : Z) (row : codeformat)
  (rest : list codeformat) :
  select_codeformat codeType (cur c) = row :: rest ->
  safe_integer (nextValue row) ->
  generateEntryCode codeType c =
  (Ok (codeSample (PreFix row) (Length row) (nextValue row + 1)),
   let t := snd (update_nextValue (nextValue row + 1) codeType (cur c)) in
   mkConn t (if in_txn c then committed c else t) (in_txn c)
     (log c ++ [SelectCodeFormat codeType;
                UpdateNextValue (nextValue row + 1) codeType])).
Proof.
  intros Hsel Hsafe. rewrite (generateEntryCode_step c codeType row rest Hsel).
  cbv zeta. now rewrite (add_one_exact _ Hsafe).
Qed.

Lemma generateEntryCode_missing (c : conn) (codeType : Z) :
  select_codeformat codeType (cur c) = [] ->
  generateEntryCode codeType c =
  (Throw (JS.read_of_undefined "nextValue"),
   mkConn (cur c) (committed c) (in_txn c) (log c ++ [SelectCodeFormat codeType])).
Proof.
  intros Hsel. unfold generateEntryCode, bind, query_read, throw.
  simpl. rewrite Hsel. reflexivity.
Qed.



(** ** Sequential generation *)







(** Once a code is wider than the fixed width, the order of the codes as
    plain strings no longer follows the order of their counters. *)
Example widened_code_sorts_before_narrow :
  codeSample "SKU" 2 99 = "SKU99" /\ codeSample "SKU" 2 100 = "SKU100" /\
  String.ltb "SKU100" "SKU99" = true.
Proof.
  repeat split; reflexivity.
Qed.

(** ** A code type without a row *)

(** On the sample tables, which have no row for code type 3, the call
    fails, but not with an error named NotFoundError. *)
Lemma generateEntryCode_missing_row_not_NotFoundError :
  ~ (exists e c',
       generateEntryCode 3 sample_conn = (Throw e, c') /\
       JS.name e = "NotFoundError").
Proof.
  intros [e [c' [H Hname]]].
  rewrite generateEntryCode_missing in H by reflexivity.
  injection H as <- _. discriminate Hname.
Qed.

(** C3, amended.  When [codeformats] has no row for [codeType],
    [generateEntryCode] fails: reading [nextValue] of the missing first row
    throws a TypeError, and the tables are left as they were.  When there is
    a row, the call returns a string. *)
Theorem generateEntryCode_missing_row_TypeError (c : conn) (codeType : Z) :
  (select_codeformat codeType (cur c) = [] ->
     exists c',
       generateEntryCode codeType c =
         (Throw (JS.TypeError
                   "Cannot read properties of undefined (reading 'nextValue')"), c') /\
       cur c' = cur c /\ committed c' = committed c) /\
  (select_codeformat codeType (cur c) <> [] ->
     exists code c', generateEntryCode codeType c = (Ok code, c')).
Proof.
  split.
  - intros Hsel. eexists. split; [apply generateEntryCode_missing, Hsel|].
    split; reflexivity.
  - intros Hsel. destruct (select_codeformat codeType (cur c)) as [|row rest] eqn:E;
      [congruence|].
    eexists. eexists. apply (generateEntryCode_step c codeType row rest E).
Qed.

Lemma generateEntryCode_missing_row_TypeError_witness :
  (exists c',
     generateEntryCode 3 sample_conn =
       (Throw (JS.TypeError
                 "Cannot read properties of undefined (reading 'nextValue')"), c') /\
     cur c' = cur sample_conn /\ committed c' = committed sample_conn) /\
  (exists code c', generateEntryCode 6 sample_conn = (Ok code, c')).
Proof.
  split.
  - apply (proj1 (generateEntryCode_missing_row_TypeError sample_conn 3)).
    reflexivity.
  - apply (proj2 (generateEntryCode_missing_row_TypeError sample_conn 6)).
    discriminate.
Defined.

(** ** Inventory deduction *)

(** One row under the conditional update: the stock goes down by the
    requested amount when the SKU matches and the stock covers the request;
    otherwise the row stays as it is. *)
Lemma update_inventory_row (q : Z) (s : string) (t : tables) (i : nat) (r : product) :
  nth_error (products t) i = Some r ->
  exists r',
    nth_error (products (snd (update_inventory (Some q) (Some s) t))) i = Some r' /\
    (forall stock, sku r = s -> intQty r = Some stock -> q <= stock ->
       intQty r' = Some (stock - q) /\ sku r' = sku r /\ id r' = id r) /\
    (sku r <> s -> r' = r) /\
    (forall stock, intQty r = Some stock -> stock < q -> r' = r) /\
    (intQty r = None -> r' = r).
Proof.
  intros Hr. unfold update_inventory; cbn [snd set_products products].
  rewrite nth_error_map, Hr. cbn [option_map]. eexists. split; [reflexivity|].
  unfold inventory_match.
  split; [|split; [|split]].
  - intros stock Hs Hstock Hle. rewrite Hstock, Hs, String.eqb_refl.
    destruct (Z.geb_spec stock q); [|lia]. cbn. auto.
  - intros Hne. destruct (intQty r); [|reflexivity].
    apply String.eqb_neq in Hne. now rewrite Hne.
  - intros stock Hstock Hlt. rewrite Hstock.
    destruct (Z.geb_spec stock q); [lia|]. now rewrite andb_false_r.
  - intros ->. reflexivity.
Qed.

(** The rows reported as affected are the rows that matched. *)
Lemma update_inventory_affected (q : option Z) (s : option string) (t : tables) :
  affectedRows (fst (update_inventory q s t)) =
  Z.of_nat (List.length (filter (inventory_match q s) (products t))).
Proof.
  reflexivity.
Qed.

(** No row matches when the SKU is unknown or every row of that SKU holds
    less than what is asked for. *)
Lemma update_inventory_no_row (q : Z) (s : string) (t : tables) :
  (forall r stock, In r (products t) -> sku r = s -> intQty r = Some stock ->
     stock < q) ->
  affectedRows (fst (update_inventory (Some q) (Some s) t)) = 0.
Proof.
  rewrite update_inventory_affected. generalize (products t) as l.
  induction l as [|r l IH]; intros Hnone; [reflexivity|].
  cbn [filter]. unfold inventory_match at 1.
  destruct (intQty r) as [stock|] eqn:Hstock.
  - destruct (String.eqb_spec (sku r) s) as [Hs|Hs]; cbn [andb].
    + pose proof (Hnone r stock (or_introl eq_refl) Hs Hstock) as Hlt.
      destruct (Z.geb_spec stock q); [lia|].
      apply IH. intros r' stock' Hin. apply Hnone. now right.
    + apply IH. intros r' stock' Hin. apply Hnone. now right.
  - apply IH. intros r' stock' Hin. apply Hnone. now right.
Qed.

Lemma update_inventory_total (q : Z) (s : option string) (t : tables) :
  total_stock (snd (update_inventory (Some q) s t)) =
  total_stock t - q * affectedRows (fst (update_inventory (Some q) s t)).
Proof.
  unfold total_stock, update_inventory.
  cbn [fst snd set_products products affectedRows].
  induction (products t) as [|r l IH]; cbn [map filter fold_right List.length].
  - cbn. lia.
  - rewrite IH. destruct (inventory_match (Some q) s r) eqn:E.
    + cbn [intQty List.length]. unfold inventory_match in E.
      destruct s; [|discriminate]. destruct (intQty r); [|discriminate]. lia.
    + lia.
Qed.

(** An update without a quantity matches nothing. *)
Lemma update_inventory_undefined (s : option string) (t : tables) :
  affectedRows (fst (update_inventory None s t)) = 0.
Proof.
  rewrite update_inventory_affected. unfold inventory_match.
  induction (products t) as [|r l IH]; [reflexivity|].
  cbn [filter]. destruct s; exact IH.
Qed.

(** The update sent for a [null] element would match no row. *)
Lemma all_applied_null (l : list inventory_entry) (t : tables) :
  all_applied (Null :: l) t = false.
Proof.
  cbn [all_applied e_quantity e_sku]. rewrite update_inventory_undefined.
  reflexivity.
Qed.

(** The test of the fields of each element, on a batch without [null]. *)
Lemma filter_missing_fields_run (l : list inventory_entry) (c : conn) :
  ~ In Null l ->
  filter_missing_fields l c = (Ok (filter missing_fields l), c).
Proof.
  induction l as [|e l IH]; intros Hnull; [reflexivity|].
  destruct e as [|s q]; [exfalso; apply Hnull; now left|].
  cbn [filter_missing_fields filter]. unfold bind.
  rewrite IH by (intros Hin; apply Hnull; now right).
  unfold ret. now destruct (missing_fields (mkEntry s q)).
Qed.

(** On a batch with a [null] element the test throws, with nothing sent. *)
Lemma filter_missing_fields_null (l : list inventory_entry) (c : conn) :
  In Null l ->
  filter_missing_fields l c = (Throw (JS.read_of_null "sku"), c).
Proof.
  induction l as [|e l IH]; intros Hnull; [destruct Hnull|].
  destruct e as [|s q]; [reflexivity|].
  destruct Hnull as [Hnull | Hnull]; [discriminate|].
  cbn [filter_missing_fields]. unfold bind. now rewrite IH.
Qed.

Lemma null_dec (l : list inventory_entry) : In Null l \/ ~ In Null l.
Proof.
  induction l as [|e l [IH | IH]].
  - right. intros [].
  - left. now right.
  - destruct e as [|s q]; [left; now left|].
    right. intros [H | H]; [discriminate H | now apply IH].
Qed.

(** A batch none of whose elements lacks a field has no [null] element. *)
Lemma no_missing_fields_no_null (l : list inventory_entry) :
  filter missing_fields l = [] -> ~ In Null l.
Proof.
  induction l as [|e l IH]; cbn [filter]; intros Hvalid Hin; [exact Hin|].
  destruct (missing_fields e) eqn:E; [discriminate|].
  destruct Hin as [-> | Hin]; [discriminate E | now apply IH].
Qed.

(** The handler on a batch of objects. *)
Lemma auto_update_inventory_objects (e : inventory_entry) (l : list inventory_entry)
  (c : conn) :
  ~ In Null (e :: l) ->
  auto_update_inventory (Some (e :: l)) c =
  if (0 <? List.length (index_labels (filter missing_fields (e :: l)) 0))%nat
  then (Ok (mkResponse 400
              (message_body
                 ("Missing required fields in products: " +++
                  String.concat ", "
                    (index_labels (filter missing_fields (e :: l)) 0)))), c)
  else match deduct_loop (e :: l) c with
       | (Ok (Some early), c') => (Ok early, c')
       | (Ok None, c') =>
           (Ok (mkResponse 200 (message_body "Products updated successfully.")), c')
       | (Throw _, c') =>
           (Ok (mkResponse 500
                  (message_body "An error occurred while updating products.")), c')
       end.
Proof.
  intros Hnull. unfold auto_update_inventory. unfold bind at 1.
  rewrite (filter_missing_fields_run _ c Hnull).
  destruct (0 <? List.length (index_labels (filter missing_fields (e :: l)) 0))%nat;
    [reflexivity|].
  unfold try_catch, bind, ret.
  destruct (deduct_loop (e :: l) c) as [[[r|]|err] c']; reflexivity.
Qed.

(** Taking apart the fact that the first entry of a batch applied. *)
Ltac applied_head H :=
  let Hpos := fresh "Hpos" in
  let Haff := fresh "Haff" in
  let Hrest := fresh "Hrest" in
  cbn [all_applied] in H;
  apply andb_prop in H; destruct H as [H Hrest];
  apply andb_prop in H; destruct H as [Hpos Haff];
  apply negb_true_iff in Hpos, Haff.

(** The loop over a prefix all of whose entries apply: it runs to its end,
    leaves the tables of [deductions], and the loop over a longer batch goes on
    from there. *)
Lemma deduct_loop_applied (pre : list inventory_entry) :
  forall c, all_applied pre (cur c) = true ->
  exists c1,
    deduct_loop pre c = (Ok None, c1) /\
    cur c1 = deductions pre (cur c) /\
    in_txn c1 = in_txn c /\
    committed c1 = (if in_txn c then committed c
                    else match pre with [] => committed c | _ => cur c1 end) /\
    log c1 = log c ++ map inventory_stmt pre /\
    forall l, deduct_loop (pre ++ l) c = deduct_loop l c1.
Proof.
  induction pre as [|e pre IH]; intros c Happ.
  - exists c. cbn. rewrite List.app_nil_r. destruct (in_txn c); repeat split; reflexivity.
  - destruct e as [|s q]; [now rewrite all_applied_null in Happ|].
    applied_head Happ.
    set (t1 := snd (update_inventory (e_quantity (mkEntry s q))
                      (e_sku (mkEntry s q)) (cur c))) in *.
    set (c0 := mkConn t1 (if in_txn c then committed c else t1) (in_txn c)
                 (log c ++ [inventory_stmt (mkEntry s q)])).
    assert (Hstep : forall l,
               deduct_loop (mkEntry s q :: l) c = deduct_loop l c0).
    { intros l. cbn [deduct_loop]. rewrite Hpos.
      unfold bind, query_write.
      destruct (update_inventory (e_quantity (mkEntry s q))
                  (e_sku (mkEntry s q)) (cur c)) as [h t'] eqn:U.
      cbn [fst snd] in *. rewrite Haff. reflexivity. }
    destruct (IH c0 Hrest) as [c1 [Hrun [Hcur [Htxn [Hcom [Hlog Hcont]]]]]].
    exists c1. split; [rewrite Hstep; exact Hrun|].
    split; [exact Hcur|]. split; [exact Htxn|].
    split.
    + rewrite Hcom. subst c0. cbn [in_txn committed cur].
      destruct (in_txn c); [reflexivity|].
      destruct pre; [|reflexivity]. rewrite Hcur. reflexivity.
    + split.
      * rewrite Hlog. subst c0. cbn [log map]. now rewrite <- app_assoc.
      * intros l. rewrite <- app_comm_cons, Hstep. apply Hcont.
Qed.

(** Each entry that applied took a positive amount from at least one row. *)
Lemma all_applied_total_le (l : list inventory_entry) :
  forall t, all_applied l t = true ->
  total_stock (deductions l t) <= total_stock t /\
  (l <> [] -> total_stock (deductions l t) < total_stock t).
Proof.
  induction l as [|e l IH]; intros t Happ; [cbn; split; [lia | congruence]|].
  applied_head Happ.
  cbn [deductions fold_left]. destruct (IH _ Hrest) as [IHle _].
  unfold deductions in IHle.
  destruct (e_quantity e) as [q|] eqn:Q.
  - rewrite update_inventory_total in IHle. cbn [not_positive] in Hpos.
    apply Z.leb_gt in Hpos. apply Z.eqb_neq in Haff.
    pose proof (update_inventory_affected (Some q) (e_sku e) t) as A.
    split; [|intros _]; nia.
  - rewrite update_inventory_undefined in Haff. discriminate.
Qed.

Lemma map_unmatched {A} (p : A -> bool) (f : A -> A) (l : list A) :
  filter p l = [] -> map (fun r => if p r then f r else r) l = l.
Proof.
  induction l as [|r l IH]; cbn [filter map]; [reflexivity|].
  destruct (p r); [discriminate|]. intros H. now rewrite IH.
Qed.

(** An update that matched no row leaves the tables as they were. *)
Lemma update_inventory_noop (q : option Z) (s : option string) (t : tables) :
  affectedRows (fst (update_inventory q s t)) = 0 ->
  snd (update_inventory q s t) = t.
Proof.
  rewrite update_inventory_affected. intros Hz.
  assert (Hnone : filter (inventory_match q s) (products t) = []).
  { destruct (filter (inventory_match q s) (products t)); [reflexivity|].
    cbn [List.length] in Hz. lia. }
  unfold update_inventory. cbn [snd].
  rewrite map_unmatched by exact Hnone. now destruct t.
Qed.

(** Past the checks made before the loop, the response is decided by the
    loop alone. *)
Lemma auto_update_inventory_valid (l : list inventory_entry) (c : conn) :
  l <> [] -> filter missing_fields l = [] ->
  auto_update_inventory (Some l) c =
  match deduct_loop l c with
  | (Ok (Some early), c') => (Ok early, c')
  | (Ok None, c') =>
      (Ok (mkResponse 200 (message_body "Products updated successfully.")), c')
  | (Throw _, c') =>
      (Ok (mkResponse 500
             (message_body "An error occurred while updating products.")), c')
  end.
Proof.
  intros Hne Hvalid. destruct l as [|e l]; [congruence|].
  rewrite (auto_update_inventory_objects e l c (no_missing_fields_no_null _ Hvalid)).
  now rewrite Hvalid.
Qed.

(** The entry at which the loop stops because its update matched no row. *)
Lemma deduct_loop_no_row (s : option string) (q : option Z)
  (post : list inventory_entry) (c : conn) :
  let e := mkEntry s q in
  not_positive (e_quantity e) = false ->
  affectedRows (fst (update_inventory (e_quantity e) (e_sku e) (cur c))) = 0 ->
  deduct_loop (e :: post) c =
  (Ok (Some (mkResponse 404
               (message_body ("Product with SKU " +++ show_str (e_sku e) +++
                              " not found or insufficient stock.")))),
   mkConn (cur c) (if in_txn c then committed c else cur c) (in_txn c)
     (log c ++ [inventory_stmt e])).
Proof.
  intros e Hpos Hzero. subst e. cbn [deduct_loop]. rewrite Hpos.
  unfold bind, query_write, ret.
  pose proof (update_inventory_noop _ _ _ Hzero) as Hsame.
  destruct (update_inventory (e_quantity (mkEntry s q)) (e_sku (mkEntry s q))
              (cur c)) as [h t'] eqn:U.
  cbn [fst snd] in *. rewrite Hzero. cbn [Z.eqb]. subst t'. reflexivity.
Qed.

(** The entry at which the loop stops because the quantity is not positive:
    no statement is sent for it. *)
Lemma deduct_loop_not_positive (s : option string) (q : option Z)
  (post : list inventory_entry) (c : conn) :
  let e := mkEntry s q in
  not_positive (e_quantity e) = true ->
  deduct_loop (e :: post) c =
  (Ok (Some (mkResponse 400
               (message_body ("Quantity must be greater than zero for SKU: " +++
                              show_str (e_sku e))))), c).
Proof.
  intros e Hpos. subst e. cbn [deduct_loop]. rewrite Hpos. reflexivity.
Qed.

(** C4.  Each entry of a batch is one conditional update: a row of the
    requested SKU whose stock covers the request loses exactly the requested
    amount, any other row is left alone.  When the entries before the one for
    [q] units of SKU [s] all applied and no row of SKU [s] holds [q] or more,
    the batch is rejected at that entry with a 404 whose message names [s];
    one statement was sent per entry up to and including it and the entries
    after it are not looked at.  When every entry applies, the batch is
    accepted. *)
Theorem auto_update_inventory_conditional_decrement
  (c : conn) (pre post : list inventory_entry) (s : string) (q : Z) :
  let e := mkEntry (Some s) (Some q) in
  filter missing_fields (pre ++ e :: post) = [] ->
  all_applied pre (cur c) = true ->
  0 < q ->
  (forall i r,
     nth_error (products (cur c)) i = Some r ->
     exists r',
       nth_error (products (snd (update_inventory (Some q) (Some s) (cur c)))) i
         = Some r' /\
       (forall stock, sku r = s -> intQty r = Some stock -> q <= stock ->
          intQty r' = Some (stock - q)) /\
       (sku r <> s -> r' = r) /\
       (forall stock, intQty r = Some stock -> stock < q -> r' = r)) /\
  ((forall r stock, In r (products (deductions pre (cur c))) ->
      sku r = s -> intQty r = Some stock -> stock < q) ->
   exists c',
     auto_update_inventory (Some (pre ++ e :: post)) c =
       (Ok (mkResponse 404
              (message_body ("Product with SKU " +++ s +++
                             " not found or insufficient stock."))), c') /\
     cur c' = deductions pre (cur c) /\
     log c' = log c ++ map inventory_stmt pre ++ [inventory_stmt e]) /\
  (all_applied (e :: post) (deductions pre (cur c)) = true ->
   exists c',
     auto_update_inventory (Some (pre ++ e :: post)) c =
       (Ok (mkResponse 200 (message_body "Products updated successfully.")), c') /\
     cur c' = deductions (pre ++ e :: post) (cur c)).
Proof.
  intros e Hvalid Hpre Hq.
  assert (Hne : pre ++ e :: post <> []) by (destruct pre; discriminate).
  assert (Hpos : not_positive (e_quantity e) = false)
    by (apply Z.leb_gt; exact Hq).
  destruct (deduct_loop_applied pre c Hpre)
    as [c1 [Hrun [Hcur [Htxn [Hcom [Hlog Hcont]]]]]].
  split; [|split].
  - intros i r Hr.
    destruct (update_inventory_row q s (cur c) i r Hr) as [r' [H1 [H2 [H3 [H4 _]]]]].
    exists r'. split; [exact H1|]. split; [|split; assumption].
    intros stock Hs Hstock Hle. now apply (H2 stock).
  - intros Hnone. apply update_inventory_no_row in Hnone. rewrite <- Hcur in Hnone.
    eexists. split.
    + rewrite (auto_update_inventory_valid _ c Hne Hvalid), Hcont.
      unfold e. rewrite (deduct_loop_no_row _ _ post c1 Hpos Hnone). reflexivity.
    + cbn [cur log]. split; [exact Hcur|]. rewrite Hlog, <- app_assoc. reflexivity.
  - intros Hall. rewrite <- Hcur in Hall.
    destruct (deduct_loop_applied (e :: post) c1 Hall) as [c2 [Hrun2 [Hcur2 _]]].
    exists c2. split.
    + rewrite (auto_update_inventory_valid _ c Hne Hvalid), Hcont, Hrun2. reflexivity.
    + rewrite Hcur2, Hcur. unfold deductions. now rewrite fold_left_app.
Qed.

Lemma auto_update_inventory_conditional_decrement_witness :
  let e := mkEntry (Some "SKU97") (Some 4) in
  stock_of "SKU97" (cur sample_conn) = [Some 10] /\
  exists c',
    auto_update_inventory (Some [e; e; e]) sample_conn =
      (Ok (mkResponse 404
             (message_body "Product with SKU SKU97 not found or insufficient stock.")),
       c') /\
    stock_of "SKU97" (cur c') = [Some 2] /\
    log c' = [inventory_stmt e; inventory_stmt e; inventory_stmt e].
Proof.
  intros e. split; [reflexivity|].
  destruct (auto_update_inventory_conditional_decrement sample_conn [e; e] []
              "SKU97" 4 eq_refl eq_refl ltac:(lia)) as [_ [H _]].
  destruct H as [c' [Hrun [Hcur Hlog]]].
  { intros r stock [<- | [<- | []]] Hs Hstock; [|discriminate Hs].
    injection Hstock as <-. lia. }
  exists c'. split; [exact Hrun|]. split.
  - rewrite Hcur. reflexivity.
  - rewrite Hlog. reflexivity.
Defined.

(** The same three deductions sent as three requests: accepted, accepted,
    refused, and the stock is left at 2. *)
Example three_requests_of_four_from_ten :
  let e := mkEntry (Some "SKU97") (Some 4) in
  let accepted := mkResponse 200 (message_body "Products updated successfully.") in
  let refused :=
    mkResponse 404
      (message_body "Product with SKU SKU97 not found or insufficient stock.") in
  let '(r1, c1) := auto_update_inventory (Some [e]) sample_conn in
  let '(r2, c2) := auto_update_inventory (Some [e]) c1 in
  let '(r3, c3) := auto_update_inventory (Some [e]) c2 in
  r1 = Ok accepted /\ r2 = Ok accepted /\ r3 = Ok refused /\
  stock_of "SKU97" (cur c1) = [Some 6] /\
  stock_of "SKU97" (cur c2) = [Some 2] /\
  stock_of "SKU97" (cur c3) = [Some 2].
Proof.
  vm_compute. repeat split; reflexivity.
Qed.

(** C10.  When the entries before the one for [q] units of SKU [s] all
    applied and the batch is rejected at that entry, either because [q] is not
    positive (400) or because no row of SKU [s] holds [q] or more, the SKU
    being unknown or its stock too small (404), the tables are left exactly as
    the updates of the earlier entries made them, and under autocommit that
    state is durable: nothing is restored, so with at least one earlier entry
    the stock held is strictly smaller than before the request.  The message
    names [s] and no other SKU, and no statement is sent after the one of the
    rejected entry. *)
Theorem auto_update_inventory_rejection_keeps_decrements
  (c : conn) (pre post : list inventory_entry) (s : string) (q : Z) :
  let e := mkEntry (Some s) (Some q) in
  filter missing_fields (pre ++ e :: post) = [] ->
  all_applied pre (cur c) = true ->
  q <= 0 \/
  (forall r stock, In r (products (deductions pre (cur c))) ->
     sku r = s -> intQty r = Some stock -> stock < q) ->
  exists r c',
    auto_update_inventory (Some (pre ++ e :: post)) c = (Ok r, c') /\
    r = (if q <=? 0
         then mkResponse 400
                (message_body ("Quantity must be greater than zero for SKU: " +++ s))
         else mkResponse 404
                (message_body ("Product with SKU " +++ s +++
                               " not found or insufficient stock."))) /\
    cur c' = deductions pre (cur c) /\
    (in_txn c = false -> pre <> [] -> committed c' = deductions pre (cur c)) /\
    (pre <> [] -> total_stock (cur c') < total_stock (cur c)) /\
    log c' = log c ++ map inventory_stmt pre ++
             (if q <=? 0 then [] else [inventory_stmt e]).
Proof.
  intros e Hvalid Hpre Hrej.
  assert (Hne : pre ++ e :: post <> []) by (destruct pre; discriminate).
  destruct (deduct_loop_applied pre c Hpre)
    as [c1 [Hrun [Hcur [Htxn [Hcom [Hlog Hcont]]]]]].
  destruct (all_applied_total_le pre (cur c) Hpre) as [_ Htotal].
  destruct (Z.leb_spec q 0) as [Hq | Hq].
  - assert (Hpos : not_positive (e_quantity e) = true) by (apply Z.leb_le; exact Hq).
    eexists. exists c1. split.
    + rewrite (auto_update_inventory_valid _ c Hne Hvalid), Hcont.
      unfold e. rewrite (deduct_loop_not_positive _ _ post c1 Hpos). reflexivity.
    + split; [reflexivity|]. split; [exact Hcur|]. split; [|split].
      * intros Hauto Hpne. rewrite Hcom, Hauto, <- Hcur.
        destruct pre; [congruence | reflexivity].
      * intros Hpne. rewrite Hcur. now apply Htotal.
      * rewrite List.app_nil_r. exact Hlog.
  - destruct Hrej as [Hrej | Hnone]; [lia|].
    assert (Hpos : not_positive (e_quantity e) = false) by (apply Z.leb_gt; exact Hq).
    apply update_inventory_no_row in Hnone. rewrite <- Hcur in Hnone.
    eexists. eexists. split.
    + rewrite (auto_update_inventory_valid _ c Hne Hvalid), Hcont.
      unfold e. rewrite (deduct_loop_no_row _ _ post c1 Hpos Hnone). reflexivity.
    + cbn [cur committed log]. split; [reflexivity|]. split; [exact Hcur|].
      split; [|split].
      * intros Hauto _. rewrite Htxn, Hauto. exact Hcur.
      * intros Hpne. rewrite Hcur. now apply Htotal.
      * rewrite Hlog, <- app_assoc. reflexivity.
Qed.

Lemma auto_update_inventory_rejection_keeps_decrements_witness :
  let batch := [mkEntry (Some "SKU97") (Some 4);
                mkEntry (Some "SKU98") (Some 1);
                mkEntry (Some "SKU98") (Some 1);
                mkEntry (Some "SKU97") (Some 1)] in
  stock_of "SKU97" (cur sample_conn) = [Some 10] /\
  stock_of "SKU98" (cur sample_conn) = [Some 1] /\
  exists r c',
    auto_update_inventory (Some batch) sample_conn = (Ok r, c') /\
    r = mkResponse 404
          (message_body "Product with SKU SKU98 not found or insufficient stock.") /\
    stock_of "SKU97" (cur c') = [Some 6] /\
    stock_of "SKU98" (cur c') = [Some 0] /\
    stock_of "SKU97" (committed c') = [Some 6].
Proof.
  intros batch. split; [reflexivity|]. split; [reflexivity|].
  destruct (auto_update_inventory_rejection_keeps_decrements sample_conn
              [mkEntry (Some "SKU97") (Some 4); mkEntry (Some "SKU98") (Some 1)]
              [mkEntry (Some "SKU97") (Some 1)] "SKU98" 1 eq_refl eq_refl)
    as [r [c' [Hrun [Hr [Hcur [Hcom _]]]]]].
  { right. intros r stock [<- | [<- | []]] Hs Hstock; [discriminate Hs|].
    injection Hstock as <-. lia. }
  exists r, c'. split; [exact Hrun|]. split; [exact Hr|].
  rewrite (Hcom eq_refl ltac:(discriminate)), Hcur. repeat split; reflexivity.
Defined.

(** ** Deleting a purchase order *)

Lemma filter_after_removal {A} (p : A -> bool) (l : list A) :
  filter p (filter (fun r => negb (p r)) l) = [].
Proof.
  induction l as [|r l IH]; cbn [filter]; [reflexivity|].
  destruct (p r) eqn:E; cbn [negb filter]; [exact IH|]. now rewrite E.
Qed.

Lemma filter_other_after_removal {A} (p q : A -> bool) (l : list A) :
  (forall r, q r = true -> p r = false) ->
  filter q (filter (fun r => negb (p r)) l) = filter q l.
Proof.
  intros Hpq. induction l as [|r l IH]; cbn [filter]; [reflexivity|].
  destruct (p r) eqn:E; cbn [negb filter].
  - destruct (q r) eqn:Q; [|exact IH]. apply Hpq in Q. congruence.
  - now rewrite IH.
Qed.

(** C8.  For a non-empty order code the handler sends the delete of the
    [purchaseorderdetails] rows first and the delete of the [purchaseorder]
    row second, and answers 200.  Afterwards the lines selected for that code
    are the empty list and no order row carries the code; lines and orders of
    other codes are untouched, so every remaining line is a line that was
    there before, under a code whose order rows are all still there. *)
Theorem delete_purchase_order_lines_then_order (c : conn) (poCode : string) :
  poCode <> EmptyString ->
  exists c',
    delete_purchase_order (Some poCode) c =
      (Ok (mkResponse 200
             (message_body "Purchase order and details deleted successfully.")), c') /\
    log c' = log c ++ [DeletePurchaseOrderDetails poCode; DeletePurchaseOrder poCode] /\
    select_details poCode (cur c') = [] /\
    filter (fun r => (purchaseOrderCode r =? poCode)%string) (purchaseorder (cur c')) = [] /\
    (forall other, other <> poCode ->
       select_details other (cur c') = select_details other (cur c) /\
       filter (fun r => (purchaseOrderCode r =? other)%string) (purchaseorder (cur c')) =
       filter (fun r => (purchaseOrderCode r =? other)%string) (purchaseorder (cur c))).
Proof.
  intros Hne. destruct poCode as [|a s]; [congruence|].
  set (code := String a s) in *.
  eexists. split.
  - unfold delete_purchase_order, try_catch, bind, query_write, ret.
    cbn [delete_details delete_order fst snd cur in_txn committed log].
    reflexivity.
  - cbn [cur log]. split; [now rewrite <- app_assoc|].
    unfold select_details.
    cbn [purchaseorderdetails purchaseorder set_purchaseorder
           set_purchaseorderdetails].
    split; [apply filter_after_removal|]. split; [apply filter_after_removal|].
    intros other Hother. split.
    + apply filter_other_after_removal. intros r Hr.
      apply String.eqb_eq in Hr. apply String.eqb_neq. congruence.
    + apply filter_other_after_removal. intros r Hr.
      apply String.eqb_eq in Hr. apply String.eqb_neq. congruence.
Qed.

Lemma delete_purchase_order_lines_then_order_witness :
  List.length (select_details "PO0007" (cur sample_orders_conn)) = 2%nat /\
  exists c',
    delete_purchase_order (Some "PO0007") sample_orders_conn =
      (Ok (mkResponse 200
             (message_body "Purchase order and details deleted successfully.")), c') /\
    log c' = [DeletePurchaseOrderDetails "PO0007"; DeletePurchaseOrder "PO0007"] /\
    select_details "PO0007" (cur c') = [] /\
    List.length (select_details "PO0006" (cur c')) = 1%nat.
Proof.
  split; [reflexivity|].
  destruct (delete_purchase_order_lines_then_order sample_orders_conn "PO0007"
              ltac:(discriminate)) as [c' [Hrun [Hlog [Hsel [_ Hother]]]]].
  exists c'. split; [exact Hrun|]. split; [exact Hlog|]. split; [exact Hsel|].
  destruct (Hother "PO0006" ltac:(discriminate)) as [-> _]. reflexivity.
Defined.

(** ** The discount flag *)

(** The flag both writers compute from an accepted [maxDiscount]. *)
Lemma discount_flag (m : Z) :
  0 <= m <= 100 ->
  let flag := if (0 <? m) && (m <? 100) then 1 else 0 in
  (flag = 1 <-> 0 < m < 100) /\ (flag = 0 <-> m = 0 \/ m = 100).
Proof.
  intros Hm flag. subst flag.
  destruct (Z.ltb_spec 0 m), (Z.ltb_spec m 100); cbn [andb]; split; split;
    intros; try lia; try discriminate.
Qed.

Lemma add_product_run (c : conn) (name category : string) (q m : Z)
  (cost price : option Z) (image : option string)
  (row : codeformat) (rest : list codeformat) :
  name <> EmptyString -> category <> EmptyString -> 0 <= q -> 0 <= m <= 100 ->
  select_codeformat 1 (cur c) = row :: rest ->
  exists resp c',
    add_product (mkAddProductBody (Some name) (Some category) (Some q) cost price
                   image (Some m)) c = (Ok resp, c') /\
    status resp = 201 /\
    products (cur c') =
      products (cur c) ++
      [mkProduct (products_next_id (cur c))
         (codeSample (PreFix row) (Length row) (JS.add (nextValue row) 1))
         name category (Some q) cost price image (Some m)
         (if (0 <? m) && (m <? 100) then 1 else 0)].
Proof.
  intros Hname Hcat Hq Hm Hsel.
  destruct name as [|a name]; [congruence|].
  destruct category as [|b category]; [congruence|].
  unfold add_product, try_catch.
  cbn [ap_name ap_category ap_quantity ap_maxDiscount ap_cost ap_price ap_image].
  assert ((q <? 0) = false) as -> by (apply Z.ltb_ge; lia).
  assert ((m <? 0) = false) as -> by (apply Z.ltb_ge; lia).
  assert ((m >? 100) = false) as -> by (rewrite Z.gtb_ltb; apply Z.ltb_ge; lia).
  cbn [orb]. unfold bind at 1.
  rewrite (generateEntryCode_step c 1 row rest Hsel). cbv zeta.
  unfold bind, query_write, ret. cbn [insert_product cur fst snd].
  eexists. eexists. split; [reflexivity|]. split; reflexivity.
Qed.

Lemma update_product_run (c : conn) (s name category : string)
  (quantity price cost : option Z) (image : option string) (maxDiscount : option Z) :
  s <> EmptyString -> name <> EmptyString -> category <> EmptyString ->
  exists c',
    update_product (mkUpdateProductBody (Some s) (Some name) (Some category)
                      quantity price cost image maxDiscount) c =
      (Ok (mkResponse 200 (message_body "Product updated successfully.")), c') /\
    products (cur c') =
      map (fun r => if (sku r =? s)%string
                    then mkProduct (id r) (sku r) name category quantity cost price
                           (image_or_null image) maxDiscount
                           (if discount_in_range maxDiscount then 1 else 0)
                    else r)
          (products (cur c)).
Proof.
  intros Hs Hname Hcat.
  destruct s as [|a s]; [congruence|].
  destruct name as [|b name]; [congruence|].
  destruct category as [|d category]; [congruence|].
  unfold update_product.
  cbn [up_sku up_name up_category up_quantity up_price up_cost up_image
         up_maxDiscount JS.truthy_str app].
  unfold try_catch, bind, query_write, ret, pair_affectedRows.
  cbn [update_product_row fst snd].
  eexists. split; reflexivity.
Qed.

(** C9.  For [maxDiscount = m] with [0 <= m <= 100]: the row inserted by
    add-product, and every row rewritten by update-product, stores [m]
    together with a flag that is 1 exactly when [0 < m < 100] and 0 exactly
    when [m] is 0 or 100. *)
Theorem dicountAllowed_iff_strictly_between (m : Z) :
  0 <= m <= 100 ->
  (forall c name category q cost price image row rest,
     name <> EmptyString -> category <> EmptyString -> 0 <= q ->
     select_codeformat 1 (cur c) = row :: rest ->
     exists resp c' p,
       add_product (mkAddProductBody (Some name) (Some category) (Some q) cost
                      price image (Some m)) c = (Ok resp, c') /\
       status resp = 201 /\
       products (cur c') = products (cur c) ++ [p] /\
       maxDiscount p = Some m /\
       (dicountAllowed p = 1 <-> 0 < m < 100) /\
       (dicountAllowed p = 0 <-> m = 0 \/ m = 100)) /\
  (forall c s name category quantity price cost image,
     s <> EmptyString -> name <> EmptyString -> category <> EmptyString ->
     exists resp c',
       update_product (mkUpdateProductBody (Some s) (Some name) (Some category)
                         quantity price cost image (Some m)) c = (Ok resp, c') /\
       status resp = 200 /\
       List.length (products (cur c')) = List.length (products (cur c)) /\
       forall i p, nth_error (products (cur c)) i = Some p ->
         exists p', nth_error (products (cur c')) i = Some p' /\
           (sku p <> s -> p' = p) /\
           (sku p = s ->
              sku p' = s /\ maxDiscount p' = Some m /\
              (dicountAllowed p' = 1 <-> 0 < m < 100) /\
              (dicountAllowed p' = 0 <-> m = 0 \/ m = 100))).
Proof.
  intros Hm. pose proof (discount_flag m Hm) as [Hone Hzero]. split.
  - intros c name category q cost price image row rest Hname Hcat Hq Hsel.
    destruct (add_product_run c name category q m cost price image row rest
                Hname Hcat Hq Hm Hsel) as [resp [c' [Hrun [Hst Hrows]]]].
    eexists resp, c', _. split; [exact Hrun|]. split; [exact Hst|].
    split; [exact Hrows|]. cbn [maxDiscount dicountAllowed].
    split; [reflexivity|]. split; assumption.
  - intros c s name category quantity price cost image Hs Hname Hcat.
    destruct (update_product_run c s name category quantity price cost image
                (Some m) Hs Hname Hcat) as [c' [Hrun Hrows]].
    eexists _, c'. split; [exact Hrun|]. split; [reflexivity|].
    rewrite Hrows. split; [apply length_map|].
    intros i p Hp. rewrite nth_error_map, Hp. cbn [option_map].
    eexists. split; [reflexivity|]. split.
    + intros Hne. apply String.eqb_neq in Hne. now rewrite Hne.
    + intros He. apply String.eqb_eq in He. rewrite He.
      apply String.eqb_eq in He.
      cbn [sku maxDiscount dicountAllowed discount_in_range].
      split; [exact He|]. split; [reflexivity|]. split; assumption.
Qed.

Lemma dicountAllowed_iff_strictly_between_witness :
  (exists resp c' p,
     add_product (mkAddProductBody (Some "Jam") (Some "Food") (Some 5) (Some 2)
                    (Some 3) None (Some 100)) sample_conn = (Ok resp, c') /\
     products (cur c') = products (cur sample_conn) ++ [p] /\
     sku p = "SKU99" /\ maxDiscount p = Some 100 /\ dicountAllowed p = 0) /\
  (exists resp c',
     update_product (mkUpdateProductBody (Some "SKU97") (Some "Tea") (Some "Drinks")
                       (Some 10) (Some 5) (Some 3) None (Some 99)) sample_conn
       = (Ok resp, c') /\
     map (fun p => (sku p, maxDiscount p, dicountAllowed p)) (products (cur c')) =
       [("SKU97", Some 99, 1); ("SKU98", Some 20, 1)]).
Proof.
  split.
  - destruct (proj1 (dicountAllowed_iff_strictly_between 100 ltac:(lia))
                sample_conn "Jam" "Food" 5 (Some 2) (Some 3) None
                (mkCodeFormat 1 "SKU" 2 98) [] ltac:(discriminate)
                ltac:(discriminate) ltac:(lia) eq_refl)
      as [resp [c' [p [Hrun [_ [Hrows [Hmax [_ Hzero]]]]]]]].
    exists resp, c', p. split; [exact Hrun|]. split; [exact Hrows|].
    split; [|split; [exact Hmax | apply Hzero; now right]].
    vm_compute in Hrun. injection Hrun as _ Hc. subst c'.
    cbn in Hrows. injection Hrows as <-. reflexivity.
  - destruct (proj2 (dicountAllowed_iff_strictly_between 99 ltac:(lia))
                sample_conn "SKU97" "Tea" "Drinks" (Some 10) (Some 5) (Some 3) None
                ltac:(discriminate) ltac:(discriminate) ltac:(discriminate))
      as [resp [c' [Hrun _]]].
    exists resp, c'. split; [exact Hrun|].
    vm_compute in Hrun. injection Hrun as _ Hc. subst c'. reflexivity.
Defined.

(** ** Creating a purchase order *)

(** On the sample tables the order is stored under the code PO0008, and no
    field of the 200 response holds that code. *)
Lemma create_purchase_order_response_omits_code :
  let run := create_purchase_order sample_date sample_order_body sample_conn in
  map purchaseOrderCode (purchaseorder (cur (snd run))) = ["PO0008"] /\
  fst run =
    Ok (mkResponse 200
          (JS.JObj [("message", JS.JStr "Purchase order added successfully");
                    ("purchaseOrderId", JS.JNum 1)])) /\
  ~ (exists r, fst run = Ok r /\ In (JS.JStr "PO0008") (field_values (body r))).
Proof.
  vm_compute. split; [reflexivity|]. split; [reflexivity|].
  intros [r [Hr Hin]]. injection Hr as <-.
  cbn in Hin. destruct Hin as [H | [H | []]]; discriminate H.
Qed.

(** The test for [null] among the lines. *)
Lemma null_line_dec (l : list order_line) : In NullLine l \/ ~ In NullLine l.
Proof.
  induction l as [|item l [IH | IH]].
  - right. intros [].
  - left. now right.
  - destruct item as [|s n q k]; [left; now left|].
    right. intros [H | H]; [discriminate H | now apply IH].
Qed.

(** The rows made of lines that are all objects. *)
Lemma order_items_run (EntryCode : string) (l : list order_line) (c : conn) :
  ~ In NullLine l -> order_items EntryCode l c = (Ok (map (line_row EntryCode) l), c).
Proof.
  induction l as [|item l IH]; intros Hnull; [reflexivity|].
  destruct item as [|s n q k]; [exfalso; apply Hnull; now left|].
  cbn [order_items map]. unfold bind.
  rewrite IH by (intros Hin; apply Hnull; now right). reflexivity.
Qed.

(** With a [null] among the lines no row is made. *)
Lemma order_items_null (EntryCode : string) (l : list order_line) (c : conn) :
  In NullLine l -> order_items EntryCode l c = (Throw (JS.read_of_null "sku"), c).
Proof.
  induction l as [|item l IH]; intros Hnull; [destruct Hnull|].
  destruct item as [|s n q k]; [reflexivity|].
  destruct Hnull as [Hnull | Hnull]; [discriminate|].
  cbn [order_items]. unfold bind. now rewrite IH.
Qed.

(** What an accepted create-purchase-order does: the response, the tables
    and the statements sent, for a request with a supplier and lines that are
    objects. *)
Lemma create_purchase_order_state
  (c : conn) (date : Date) (sup : supplier_ref)
  (details : option (list order_line)) (total : option Z)
  (row : codeformat) (rest : list codeformat) :
  select_codeformat purchase_order_codeType (cur c) = row :: rest ->
  ~ In NullLine (lines_of details) ->
  let newValue := JS.add (nextValue row) 1 in
  let EntryCode := codeSample (PreFix row) (Length row) newValue in
  exists c',
    create_purchase_order date (mkPurchaseOrderBody (Some sup) details total) c =
      (Ok (mkResponse 200
             (JS.JObj [("message", JS.JStr "Purchase order added successfully");
                       ("purchaseOrderId",
                        JS.JNum (purchaseorder_next_id (cur c)))])), c') /\
    purchaseorder (cur c') =
      purchaseorder (cur c) ++
      [mkPurchaseOrder (purchaseorder_next_id (cur c)) EntryCode
         (s_code sup) (s_name sup) total (qdate date) (qdate date)] /\
    purchaseorderdetails (cur c') =
      purchaseorderdetails (cur c) ++ map (line_row EntryCode) (lines_of details) /\
    purchaseorder_next_id (cur c') = purchaseorder_next_id (cur c) + 1 /\
    codeformats (cur c') =
      codeformats (snd (update_nextValue newValue purchase_order_codeType (cur c))) /\
    products (cur c') = products (cur c) /\
    products_next_id (cur c') = products_next_id (cur c) /\
    sales_invoices (cur c') = sales_invoices (cur c) /\
    cart_items (cur c') = cart_items (cur c) /\
    log c' =
      log c ++
      [SelectCodeFormat purchase_order_codeType;
       UpdateNextValue newValue purchase_order_codeType;
       InsertPurchaseOrder EntryCode] ++
      match lines_of details with
      | [] => []
      | _ :: _ => [InsertPurchaseOrderDetails EntryCode
                     (List.length (lines_of details))]
      end.
Proof.
  intros Hsel Hobjects newValue EntryCode.
  destruct details as [[|item items]|];
    (eexists; split;
     [ unfold create_purchase_order, try_catch; unfold bind at 1;
       rewrite (generateEntryCode_step c _ row rest Hsel); cbv zeta;
       fold newValue; fold EntryCode;
       unfold bind, query_write, ret;
       cbn [supplier orderDetails totalCost insert_purchaseorder
              fst snd cur in_txn committed log insertId];
       try (rewrite (order_items_run EntryCode (item :: items) _ Hobjects));
       cbn [insert_details fst snd cur in_txn committed log insertId];
       reflexivity
     | cbn [status cur log purchaseorder purchaseorderdetails set_purchaseorder
              set_purchaseorderdetails set_codeformats update_nextValue snd
              purchaseorder_next_id lines_of map products products_next_id
              sales_invoices cart_items codeformats List.length];
       rewrite ?List.app_nil_r, ?length_map, <- ?app_assoc;
       repeat split; reflexivity ]).
Qed.

(** With a supplier and a counter row the order row is stored and the
    counter moved, whatever the lines: the handler answers 200, or 500 when a
    line is [null], and in that case no line is stored. *)
Lemma create_purchase_order_parent
  (c : conn) (date : Date) (sup : supplier_ref)
  (details : option (list order_line)) (total : option Z)
  (row : codeformat) (rest : list codeformat) :
  select_codeformat purchase_order_codeType (cur c) = row :: rest ->
  let newValue := JS.add (nextValue row) 1 in
  let EntryCode := codeSample (PreFix row) (Length row) newValue in
  exists r c',
    create_purchase_order date (mkPurchaseOrderBody (Some sup) details total) c =
      (Ok r, c') /\
    (status r = 200 \/ status r = 500) /\
    (status r = 500 <-> In NullLine (lines_of details)) /\
    purchaseorder (cur c') =
      purchaseorder (cur c) ++
      [mkPurchaseOrder (purchaseorder_next_id (cur c)) EntryCode
         (s_code sup) (s_name sup) total (qdate date) (qdate date)] /\
    (status r = 500 -> purchaseorderdetails (cur c') = purchaseorderdetails (cur c)) /\
    codeformats (cur c') =
      codeformats (snd (update_nextValue newValue purchase_order_codeType (cur c))).
Proof.
  intros Hsel newValue EntryCode.
  destruct (null_line_dec (lines_of details)) as [Hnull | Hobjects].
  - destruct details as [[|item items]|]; try (now destruct Hnull).
    cbn [lines_of] in Hnull.
    eexists. eexists. split.
    + unfold create_purchase_order, try_catch. unfold bind at 1.
      rewrite (generateEntryCode_step c _ row rest Hsel). cbv zeta.
      fold newValue. fold EntryCode.
      unfold bind, query_write, ret.
      cbn [supplier orderDetails totalCost insert_purchaseorder
             fst snd cur in_txn committed log insertId].
      rewrite (order_items_null EntryCode (item :: items) _ Hnull).
      reflexivity.
    + cbn [status cur purchaseorder purchaseorderdetails set_purchaseorder
             set_codeformats update_nextValue snd codeformats lines_of].
      split; [now right|]. split; [tauto|].
      split; [reflexivity|]. split; reflexivity.
  - destruct (create_purchase_order_state c date sup details total row rest
                Hsel Hobjects)
      as [c' [Hrun [O [_ [_ [F _]]]]]].
    eexists. exists c'. split; [exact Hrun|]. cbn [status].
    split; [now left|]. split; [|split; [exact O|split; [discriminate | exact F]]].
    split; [discriminate | intros Hin; now destruct (Hobjects Hin)].
Qed.

(** C5, amended.  With a counter row for code type 2 whose counter is a safe
    integer, a supplier in the request and lines that are objects,
    create-purchase-order takes the next code of type 2, inserts one
    [purchaseorder] row under that code whose post-date and doc-date are both
    the current date, and then, only when the request carries at least one
    line, inserts in one statement one [purchaseorderdetails] row per line,
    each under the same code.  The 200 response carries a message and the
    identifier of the new order row. *)
Theorem create_purchase_order_parent_then_lines
  (c : conn) (date : Date) (sup : supplier_ref)
  (details : option (list order_line)) (total : option Z)
  (row : codeformat) (rest : list codeformat) :
  select_codeformat purchase_order_codeType (cur c) = row :: rest ->
  safe_integer (nextValue row) ->
  ~ In NullLine (lines_of details) ->
  let EntryCode := codeSample (PreFix row) (Length row) (nextValue row + 1) in
  let lines := lines_of details in
  exists c' new_lines,
    create_purchase_order date (mkPurchaseOrderBody (Some sup) details total) c =
      (Ok (mkResponse 200
             (JS.JObj [("message", JS.JStr "Purchase order added successfully");
                       ("purchaseOrderId",
                        JS.JNum (purchaseorder_next_id (cur c)))])), c') /\
    purchaseorder (cur c') =
      purchaseorder (cur c) ++
      [mkPurchaseOrder (purchaseorder_next_id (cur c)) EntryCode
         (s_code sup) (s_name sup) total (qdate date) (qdate date)] /\
    purchaseorderdetails (cur c') = purchaseorderdetails (cur c) ++ new_lines /\
    new_lines = map (line_row EntryCode) lines /\
    List.length new_lines = List.length lines /\
    Forall (fun r => poCode r = EntryCode) new_lines /\
    log c' =
      log c ++
      [SelectCodeFormat purchase_order_codeType;
       UpdateNextValue (nextValue row + 1) purchase_order_codeType;
       InsertPurchaseOrder EntryCode] ++
      match lines with
      | [] => []
      | _ :: _ => [InsertPurchaseOrderDetails EntryCode (List.length lines)]
      end.
Proof.
  intros Hsel Hsafe Hobjects EntryCode lines.
  destruct (create_purchase_order_state c date sup details total row rest
              Hsel Hobjects)
    as [c' [Hrun [O [D [_ [_ [_ [_ [_ [_ Hlog]]]]]]]]]].
  cbv zeta in O, D, Hlog. rewrite (add_one_exact _ Hsafe) in O, D, Hlog.
  fold EntryCode in O, D, Hlog. fold lines in D, Hlog.
  exists c', (map (line_row EntryCode) lines).
  split; [exact Hrun|]. split; [exact O|]. split; [exact D|].
  split; [reflexivity|]. split; [apply length_map|]. split; [|exact Hlog].
  apply Forall_forall. intros r Hin. apply in_map_iff in Hin.
  destruct Hin as [item [<- _]]. reflexivity.
Qed.

Lemma create_purchase_order_parent_then_lines_witness :
  exists c',
    create_purchase_order sample_date sample_order_body sample_conn =
      (Ok (mkResponse 200
             (JS.JObj [("message", JS.JStr "Purchase order added successfully");
                       ("purchaseOrderId", JS.JNum 1)])), c') /\
    purchaseorder (cur c') =
      [mkPurchaseOrder 1 "PO0008" (Some "SUP01") (Some "Acme") (Some 34)
         "2024-03-09" "2024-03-09"] /\
    purchaseorderdetails (cur c') =
      [mkPurchaseOrderDetails "PO0008" (Some "SKU97") (Some "Tea") (Some 10) (Some 3);
       mkPurchaseOrderDetails "PO0008" (Some "SKU98") (Some "Mug") (Some 2) (Some 2)] /\
    log c' = [SelectCodeFormat 2; UpdateNextValue 8 2; InsertPurchaseOrder "PO0008";
              InsertPurchaseOrderDetails "PO0008" 2].
Proof.
  destruct (create_purchase_order_parent_then_lines sample_conn sample_date
              (mkSupplier (Some "SUP01") (Some "Acme"))
              (orderDetails sample_order_body) (Some 34)
              (mkCodeFormat 2 "PO" 4 7) [] eq_refl (conj eq_refl eq_refl)
              ltac:(intros [H | [H | []]]; discriminate H))
    as [c' [new_lines [Hrun [Hpo [Hpod [Hnew [_ [_ Hlog]]]]]]]].
  exists c'. split; [exact Hrun|]. split; [exact Hpo|].
  split; [rewrite Hpod, Hnew; reflexivity | exact Hlog].
Defined.

(** ** Saving an invoice *)

Lemma complete_entry_params (EntryCode : string) (item : cart_entry) :
  complete_entry item = true ->
  exists s n q p,
    ce_sku item = Some s /\ ce_name item = Some n /\
    ce_quantity item = Some q /\ ce_price item = Some p /\
    cart_item_params EntryCode item =
      Some (mkCartItem EntryCode s n q p
              (match ce_discount item with Some d => d | None => 0 end)).
Proof.
  unfold complete_entry, cart_item_params.
  destruct (ce_sku item) as [s|], (ce_name item) as [n|],
    (ce_quantity item) as [q|], (ce_price item) as [p|]; try discriminate.
  intros _. exists s, n, q, p. repeat split.
  destruct (ce_discount item) as [d|]; cbn [JS.or_default]; [|reflexivity].
  destruct (Z.eqb_spec d 0); congruence.
Qed.

Lemma incomplete_entry_params (EntryCode : string) (item : cart_entry) :
  complete_entry item = false -> cart_item_params EntryCode item = None.
Proof.
  unfold complete_entry, cart_item_params.
  destruct (ce_sku item), (ce_name item), (ce_quantity item), (ce_price item);
    try discriminate; reflexivity.
Qed.

(** The inserts of the cart entries inside an open transaction: every
    complete entry is inserted, whatever happens to the others, and the first
    refusal, if there is one, is what [Promise.all] rejects with. *)
Lemma execute_all_run (EntryCode : string) (cartItems : list cart_entry) :
  forall c, in_txn c = true ->
  exists c',
    execute_all EntryCode cartItems c =
      (Ok (if forallb complete_entry cartItems then None
           else Some undefined_parameter), c') /\
    cur c' = set_cart_items
               (cart_items (cur c) ++ accepted_rows EntryCode cartItems) (cur c) /\
    committed c' = committed c /\ in_txn c' = true /\
    log c' = log c ++ accepted_stmts EntryCode cartItems.
Proof.
  induction cartItems as [|item rest IH]; intros c Htxn.
  - exists c. cbn. rewrite !List.app_nil_r. repeat split; auto.
    now destruct (cur c).
  - cbn [execute_all forallb accepted_rows accepted_stmts flat_map].
    fold (accepted_rows EntryCode rest). fold (accepted_stmts EntryCode rest).
    destruct (complete_entry item) eqn:Hc.
    + destruct (complete_entry_params EntryCode item Hc)
        as [s [n [q [p [_ [_ [_ [_ Hparams]]]]]]]].
      rewrite Hparams.
      set (r := mkCartItem _ _ _ _ _ _).
      set (c1 := mkConn (set_cart_items (cart_items (cur c) ++ [r]) (cur c))
                   (committed c) true
                   (log c ++ [InsertCartItem EntryCode (show_str (ce_sku item))])).
      destruct (IH c1 eq_refl) as [c' [Hrun [Hcur [Hcom [Htxn' Hlog]]]]].
      exists c'. split.
      * unfold bind at 1. unfold try_catch, bind, execute, query_write, ret.
        cbn [insert_cart_item]. rewrite Htxn. fold c1.
        unfold bind in Hrun. rewrite Hrun. cbn [andb]. reflexivity.
      * rewrite Hcur, Hcom, Hlog. subst c1. cbn [cur committed log].
        unfold set_cart_items. cbn. rewrite <- !app_assoc. auto.
    + rewrite (incomplete_entry_params EntryCode item Hc).
      destruct (IH c Htxn) as [c' [Hrun [Hcur [Hcom [Htxn' Hlog]]]]].
      exists c'. split.
      * unfold bind at 1. unfold try_catch, bind, execute, throw, ret.
        rewrite Hrun. cbn [andb].
        destruct (forallb complete_entry rest); reflexivity.
      * cbn [app]. auto.
Qed.

(** The whole handler on a request whose customer, invoice fields and cart
    list are present.  [saved] tells whether every cart entry was complete. *)
Lemma save_invoice_run (c : conn) (cust : customer_ref) (inv : invoice_meta)
  (items : list cart_entry) (row : codeformat) (rest : list codeformat)
  (irow : sales_invoice) :
  select_codeformat invoice_codeType (cur c) = row :: rest ->
  let newValue := JS.add (nextValue row) 1 in
  let EntryCode := codeSample (PreFix row) (Length row) newValue in
  let saved := forallb complete_entry items in
  let counted := snd (update_nextValue newValue invoice_codeType (cur c)) in
  sales_invoice_params EntryCode cust inv = Some irow ->
  exists c',
    save_invoice (mkInvoiceBody (Some cust) (Some inv) (Some items)) c =
      (Ok (if saved
           then mkResponse 200
                  (JS.JObj [("message", JS.JStr "Invoice saved successfully!");
                            ("invoiceCode", JS.JStr EntryCode)])
           else mkResponse 500
                  (message_body ("Failed to save invoice. " +++
                                 JS.message undefined_parameter))), c') /\
    cur c' =
      set_cart_items (cart_items (cur c) ++ accepted_rows EntryCode items)
        (set_sales_invoices (sales_invoices (cur c) ++ [irow]) counted) /\
    in_txn c' = negb saved /\
    committed c' = (if saved then cur c' else counted) /\
    log c' =
      log c ++
      [SelectCodeFormat invoice_codeType;
       UpdateNextValue newValue invoice_codeType;
       BeginTransaction; InsertSalesInvoice EntryCode] ++
      accepted_stmts EntryCode items ++ (if saved then [Commit] else []).
Proof.
  intros Hsel newValue EntryCode saved counted Hparams.
  set (c3 := mkConn (set_sales_invoices (sales_invoices (cur c) ++ [irow]) counted)
               counted true
               (log c ++ [SelectCodeFormat invoice_codeType;
                          UpdateNextValue newValue invoice_codeType;
                          BeginTransaction; InsertSalesInvoice EntryCode])).
  destruct (execute_all_run EntryCode items c3 eq_refl)
    as [c4 [Hrun [Hcur [Hcom [Htxn Hlog]]]]].
  assert (Hhead :
    save_invoice (mkInvoiceBody (Some cust) (Some inv) (Some items)) c =
    match execute_all EntryCode items c3 with
    | (Ok None, c') =>
        (Ok (mkResponse 200
               (JS.JObj [("message", JS.JStr "Invoice saved successfully!");
                         ("invoiceCode", JS.JStr EntryCode)])),
         mkConn (cur c') (cur c') false (log c' ++ [Commit]))
    | (Ok (Some e), c') | (Throw e, c') =>
        (Ok (mkResponse 500
               (message_body ("Failed to save invoice. " +++ JS.message e))), c')
    end).
  { unfold save_invoice. unfold bind at 1.
    rewrite (generateEntryCode_step c _ row rest Hsel).
    cbv zeta. fold newValue. fold EntryCode. fold counted.
    unfold try_catch. unfold bind at 1. unfold beginTransaction.
    cbn [customer invoice cartItems cur committed in_txn log].
    unfold bind at 1. unfold execute at 1. rewrite Hparams.
    unfold query_write at 1.
    cbn [insert_sales_invoice cur committed in_txn log sales_invoices
           set_codeformats].
    replace (((log c ++ [SelectCodeFormat invoice_codeType;
                        UpdateNextValue newValue invoice_codeType])
             ++ [BeginTransaction]) ++ [InsertSalesInvoice EntryCode])
      with (log c3) by (subst c3; cbn [log]; now rewrite <- !app_assoc).
    change (mkConn (set_sales_invoices (sales_invoices counted ++ [irow]) counted)
              counted true (log c3)) with c3.
    unfold bind at 1.
    destruct (execute_all EntryCode items c3) as [[[e|]|e] c'];
      unfold Promise_all, bind, throw, ret, commit; reflexivity. }
  rewrite Hhead, Hrun. subst saved.
  destruct (forallb complete_entry items).
  - eexists. split; [reflexivity|]. cbn [cur committed in_txn log negb].
    rewrite Hcur, Hlog. subst c3. cbn [cur log]. rewrite <- !app_assoc.
    repeat split; reflexivity.
  - exists c4. split; [reflexivity|]. rewrite Hcur, Htxn, Hcom, Hlog.
    subst c3. cbn [cur committed log negb]. rewrite List.app_nil_r, <- !app_assoc.
    repeat split; reflexivity.
Qed.

Lemma accepted_rows_complete (EntryCode : string) (items : list cart_entry) :
  forallb complete_entry items = true ->
  Forall2 (row_of_entry EntryCode) items (accepted_rows EntryCode items).
Proof.
  induction items as [|item items IH]; cbn [forallb accepted_rows flat_map];
    intros Hall; [constructor|].
  apply andb_prop in Hall. destruct Hall as [Hc Hall].
  destruct (complete_entry_params EntryCode item Hc)
    as [s [n [q [p [Hs [Hn [Hq [Hp Hparams]]]]]]]].
  rewrite Hparams. cbn [app]. constructor; [|apply IH, Hall].
  unfold row_of_entry. cbn. repeat split; assumption.
Qed.

Lemma sales_invoice_params_code (EntryCode : string) (cust : customer_ref)
  (inv : invoice_meta) (irow : sales_invoice) :
  sales_invoice_params EntryCode cust inv = Some irow ->
  code irow = EntryCode /\ c_code cust = Some (customer_id irow).
Proof.
  unfold sales_invoice_params.
  destruct (c_code cust), (i_postDate inv), (i_dueDate inv), (i_paymentMethod inv),
    (i_totalAmount inv), (i_discountAmount inv), (i_netTotal inv);
    try discriminate.
  intros [= <-]. split; reflexivity.
Qed.

(** C7.  With a counter row for code type 6 whose counter is a safe
    integer, a request whose customer and
    invoice fields are present and whose [K] cart entries each give sku,
    name, quantity and price: save-invoice takes the next code of type 6,
    inserts one [sales_invoices] row under it, inserts [K] [cart_items] rows,
    one per entry in order and each under the same code, whose discount is
    the entry's or 0 when the entry gives none, commits, and answers 200 with
    the code. *)
Theorem save_invoice_one_row_per_entry
  (c : conn) (cust : customer_ref) (inv : invoice_meta) (items : list cart_entry)
  (row : codeformat) (rest : list codeformat) (irow : sales_invoice) :
  select_codeformat invoice_codeType (cur c) = row :: rest ->
  safe_integer (nextValue row) ->
  let EntryCode := codeSample (PreFix row) (Length row) (nextValue row + 1) in
  sales_invoice_params EntryCode cust inv = Some irow ->
  forallb complete_entry items = true ->
  exists c' rows,
    save_invoice (mkInvoiceBody (Some cust) (Some inv) (Some items)) c =
      (Ok (mkResponse 200
             (JS.JObj [("message", JS.JStr "Invoice saved successfully!");
                       ("invoiceCode", JS.JStr EntryCode)])), c') /\
    sales_invoices (cur c') = sales_invoices (cur c) ++ [irow] /\
    code irow = EntryCode /\
    cart_items (cur c') = cart_items (cur c) ++ rows /\
    List.length rows = List.length items /\
    Forall2 (row_of_entry EntryCode) items rows /\
    committed c' = cur c' /\ in_txn c' = false.
Proof.
  intros Hsel Hsafe EntryCode Hparams Hall.
  subst EntryCode. rewrite <- (add_one_exact _ Hsafe) in *.
  set (EntryCode := codeSample _ _ _) in *.
  destruct (save_invoice_run c cust inv items row rest irow Hsel Hparams)
    as [c' [Hrun [Hcur [Htxn [Hcom _]]]]].
  fold EntryCode in Hrun, Hcur. rewrite Hall in Hrun, Htxn, Hcom.
  pose proof (accepted_rows_complete EntryCode items Hall) as Hrows.
  exists c', (accepted_rows EntryCode items).
  split; [exact Hrun|]. rewrite Hcur. cbn.
  split; [reflexivity|].
  split; [apply (sales_invoice_params_code _ _ _ _ Hparams)|].
  split; [reflexivity|].
  split; [symmetry; apply (Forall2_length Hrows)|].
  split; [exact Hrows|]. split; [rewrite Hcom, Hcur; reflexivity | exact Htxn].
Qed.

Lemma save_invoice_one_row_per_entry_witness :
  exists c',
    save_invoice sample_invoice_body sample_conn =
      (Ok (mkResponse 200
             (JS.JObj [("message", JS.JStr "Invoice saved successfully!");
                       ("invoiceCode", JS.JStr "INV00042")])), c') /\
    map code (sales_invoices (cur c')) = ["INV00042"] /\
    cart_items (cur c') =
      [mkCartItem "INV00042" "SKU97" "Tea" 2 5 0;
       mkCartItem "INV00042" "SKU98" "Mug" 1 4 1;
       mkCartItem "INV00042" "SKU97" "Tea" 2 5 0] /\
    committed c' = cur c'.
Proof.
  destruct (save_invoice_one_row_per_entry sample_conn (mkCustomer (Some "CUS01"))
              sample_invoice_meta
              [mkCartEntry (Some "SKU97") (Some "Tea") (Some 2) (Some 5) None;
               mkCartEntry (Some "SKU98") (Some "Mug") (Some 1) (Some 4) (Some 1);
               mkCartEntry (Some "SKU97") (Some "Tea") (Some 2) (Some 5) (Some 0)]
              (mkCodeFormat 6 "INV" 5 41) []
              (mkSalesInvoice "INV00042" "CUS01" "2024-03-09" "2024-04-09" "cash"
                 25 1 24)
              eq_refl (conj eq_refl eq_refl) eq_refl eq_refl)
    as [c' [rows [Hrun [Hinv [_ [Hcart [_ [_ [Hcom _]]]]]]]]].
  exists c'. split; [exact Hrun|]. split; [rewrite Hinv; reflexivity|].
  split; [|exact Hcom].
  vm_compute in Hrun. injection Hrun as Hc. subst c'. reflexivity.
Defined.

(** C6, the behaviour of the handler on a request whose second cart entry
    has no [sku].  The insert of that entry is refused and the caller gets a
    500 with the driver's message, but the invoice row and the rows of the
    other entries are in the tables the connection reads, the transaction is
    left open, and the next request that begins a transaction makes them
    durable: nothing is rolled back. *)
Theorem save_invoice_failed_insert_not_rolled_back :
  let '(r, c') := save_invoice sample_invoice_body_missing_sku sample_conn in
  let '(r2, c2) := save_invoice sample_invoice_body c' in
  r = Ok (mkResponse 500
            (message_body
               "Failed to save invoice. Bind parameters must not contain undefined. To pass SQL NULL specify JS null")) /\
  map code (sales_invoices (cur c')) = ["INV00042"] /\
  map (fun i => (invoice_code i, ci_sku i)) (cart_items (cur c')) =
    [("INV00042", "SKU97"); ("INV00042", "SKU97")] /\
  in_txn c' = true /\
  log c' = [SelectCodeFormat 6; UpdateNextValue 42 6; BeginTransaction;
            InsertSalesInvoice "INV00042";
            InsertCartItem "INV00042" "SKU97"; InsertCartItem "INV00042" "SKU97"] /\
  sales_invoices (committed c') = [] /\
  r2 = Ok (mkResponse 200
             (JS.JObj [("message", JS.JStr "Invoice saved successfully!");
                       ("invoiceCode", JS.JStr "INV00043")])) /\
  map code (sales_invoices (committed c2)) = ["INV00042"; "INV00043"] /\
  List.length (filter (fun i => (invoice_code i =? "INV00042")%string)
                 (cart_items (committed c2))) = 2%nat.
Proof.
  vm_compute. repeat split; reflexivity.
Qed.

(** * Further properties *)

(** ** Code generation and the rest of the store *)

(** X1.  A call of [generateEntryCode], whether it returns or throws, leaves
    the counters of every other code type, the prefix and length of every
    row, and all the other tables as they were, and neither opens nor closes
    a transaction. *)
Theorem generateEntryCode_touches_one_counter (c : conn) (codeType other : Z) :
  other <> codeType ->
  let c' := snd (generateEntryCode codeType c) in
  select_codeformat other (cur c') = select_codeformat other (cur c) /\
  map (fun r => (Code r, PreFix r, Length r)) (codeformats (cur c')) =
  map (fun r => (Code r, PreFix r, Length r)) (codeformats (cur c)) /\
  same_but_counters (cur c) (cur c') /\
  in_txn c' = in_txn c.
Proof.
  intros Hother c'. subst c'.
  destruct (select_codeformat codeType (cur c)) as [|row rest] eqn:Hsel.
  - rewrite (generateEntryCode_missing c codeType Hsel). cbn [snd cur in_txn].
    repeat split; reflexivity.
  - rewrite (generateEntryCode_step c codeType row rest Hsel). cbn [snd cur in_txn].
    split; [now apply select_other_after_update|].
    split; [|split; [repeat split; reflexivity | reflexivity]].
    unfold update_nextValue. cbn [snd set_codeformats codeformats].
    rewrite map_map. apply map_ext. intros r.
    now destruct (Code r =? codeType).
Qed.

Lemma generateEntryCode_touches_one_counter_witness :
  let c' := snd (generateEntryCode 1 sample_conn) in
  select_codeformat 1 (cur c') = [mkCodeFormat 1 "SKU" 2 99] /\
  select_codeformat 6 (cur c') = [mkCodeFormat 6 "INV" 5 41] /\
  products (cur c') = products (cur sample_conn).
Proof.
  intros c'. split; [reflexivity|].
  destruct (generateEntryCode_touches_one_counter sample_conn 1 6 ltac:(discriminate))
    as [Hsel [_ [[Hp _] _]]].
  split; [exact Hsel | exact Hp].
Defined.

(** ** Writing products *)

(** X2.  update-product does not tell an unknown SKU from a known one: with
    the three required fields given and no product under the SKU, it answers
    200 "Product updated successfully." and the tables stay as they were (the
    test on [affectedRows] reads the property on the result pair, where it is
    undefined). *)
Theorem update_product_unknown_sku_answers_200
  (c : conn) (s name category : string) (quantity price cost : option Z)
  (image : option string) (maxDiscount : option Z) :
  s <> EmptyString -> name <> EmptyString -> category <> EmptyString ->
  (forall p, In p (products (cur c)) -> sku p <> s) ->
  exists c',
    update_product (mkUpdateProductBody (Some s) (Some name) (Some category)
                      quantity price cost image maxDiscount) c =
      (Ok (mkResponse 200 (message_body "Product updated successfully.")), c') /\
    cur c' = cur c /\
    log c' = log c ++ [UpdateProduct s].
Proof.
  intros Hs Hname Hcat Hnone.
  destruct s as [|a s]; [congruence|].
  destruct name as [|b name]; [congruence|].
  destruct category as [|d category]; [congruence|].
  eexists. split.
  - unfold update_product.
    cbn [up_sku up_name up_category up_quantity up_price up_cost up_image
           up_maxDiscount JS.truthy_str app].
    unfold try_catch, bind, query_write, ret, pair_affectedRows.
    cbn [update_product_row fst snd]. reflexivity.
  - cbn [cur log]. split; [|reflexivity].
    rewrite map_unmatched; [now destruct (cur c)|].
    induction (products (cur c)) as [|p l IH]; [reflexivity|].
    cbn [filter]. destruct (String.eqb_spec (sku p) (String a s)) as [E|E].
    + exfalso. apply (Hnone p); [now left | exact E].
    + apply IH. intros p' Hin. apply Hnone. now right.
Qed.

Lemma update_product_unknown_sku_answers_200_witness :
  exists c',
    update_product (mkUpdateProductBody (Some "SKU00") (Some "Jam") (Some "Food")
                      (Some 1) (Some 2) (Some 1) None (Some 5)) sample_conn =
      (Ok (mkResponse 200 (message_body "Product updated successfully.")), c') /\
    cur c' = cur sample_conn.
Proof.
  destruct (update_product_unknown_sku_answers_200 sample_conn "SKU00" "Jam" "Food"
              (Some 1) (Some 2) (Some 1) None (Some 5)
              ltac:(discriminate) ltac:(discriminate) ltac:(discriminate))
    as [c' [Hrun [Hcur _]]].
  { intros p [<- | [<- | []]]; discriminate. }
  exists c'. split; [exact Hrun | exact Hcur].
Defined.

(** X3.  update-product answers 400 exactly when sku, name or category is
    absent or empty, before any statement is sent; the message lists the
    fields that are missing, in the order sku, name, category, and no other. *)
Theorem update_product_missing_fields_rejected (b : update_product_body) (c : conn) :
  update_product_accepts b = false ->
  exists missing,
    update_product b c =
      (Ok (mkResponse 400
             (message_body ("Missing required fields: " +++
                            String.concat ", " missing))), c) /\
    missing <> [] /\
    (In "sku" missing <-> JS.truthy_str (up_sku b) = false) /\
    (In "name" missing <-> JS.truthy_str (up_name b) = false) /\
    (In "category" missing <-> JS.truthy_str (up_category b) = false) /\
    (forall f, In f missing -> f = "sku" \/ f = "name" \/ f = "category").
Proof.
  unfold update_product_accepts, update_product.
  destruct (up_sku b) as [[|a1 s1]|], (up_name b) as [[|a2 s2]|],
    (up_category b) as [[|a3 s3]|];
    cbn [JS.truthy_str andb app]; intros Hacc; try discriminate Hacc;
    (eexists; split; [reflexivity|]);
    (split; [discriminate|]);
    cbn [In]; repeat split; intros; try discriminate; try tauto;
    repeat match goal with
           | H : _ \/ _ |- _ => destruct H
           | H : False |- _ => destruct H
           | H : _ = _ |- _ => discriminate H
           end; auto.
Qed.

Lemma update_product_missing_fields_rejected_witness :
  let b := mkUpdateProductBody None (Some "Jam") (Some "") (Some 1) None None
             None None in
  exists missing,
    update_product b sample_conn =
      (Ok (mkResponse 400
             (message_body ("Missing required fields: " +++
                            String.concat ", " missing))), sample_conn) /\
    In "sku" missing /\ ~ In "name" missing /\ In "category" missing.
Proof.
  intros b.
  destruct (update_product_missing_fields_rejected b sample_conn eq_refl)
    as [missing [Hrun [_ [Hsku [Hname [Hcat _]]]]]].
  exists missing. split; [exact Hrun|].
  split; [now apply Hsku|]. split; [|now apply Hcat].
  intros Hin. apply Hname in Hin. discriminate Hin.
Defined.

Lemma add_product_accepts_inv (b : add_product_body) :
  add_product_accepts b = true ->
  exists name category q m,
    b = mkAddProductBody (Some name) (Some category) (Some q) (ap_cost b)
          (ap_price b) (ap_image b) (Some m) /\
    name <> EmptyString /\ category <> EmptyString /\ 0 <= q /\ 0 <= m <= 100.
Proof.
  unfold add_product_accepts. destruct b as [n ca q co pr im m]; cbn.
  destruct n as [[|a n]|], ca as [[|a' ca]|], q as [q|], m as [m|];
    cbn; try discriminate.
  intros H. apply andb_prop in H. destruct H as [H Hm100].
  apply andb_prop in H. destruct H as [Hq Hm0].
  exists (String a n), (String a' ca), q, m.
  repeat split; try discriminate; lia.
Qed.

Lemma add_product_rejects (b : add_product_body) (c : conn) :
  add_product_accepts b = false ->
  exists msg, add_product b c = (Ok (mkResponse 400 (message_body msg)), c).
Proof.
  unfold add_product_accepts, add_product, try_catch.
  destruct (ap_name b) as [[|a n]|]; cbn [JS.truthy_str andb];
    try (intros _; eexists; reflexivity).
  destruct (ap_category b) as [[|a' ca]|]; cbn [JS.truthy_str andb];
    try (intros _; eexists; reflexivity).
  destruct (ap_quantity b) as [q|]; [|intros _; eexists; reflexivity].
  destruct (Z.ltb_spec q 0); [intros _; eexists; reflexivity|].
  destruct (ap_maxDiscount b) as [m|]; [|intros _; eexists; reflexivity].
  assert ((0 <=? q) = true) as -> by (apply Z.leb_le; lia). cbn [andb].
  rewrite Z.gtb_ltb.
  destruct (Z.ltb_spec m 0), (Z.ltb_spec 100 m); cbn [orb];
    try (intros _; eexists; reflexivity).
  intros Hacc. exfalso.
  assert (E0 : (0 <=? m) = true) by (apply Z.leb_le; lia).
  assert (E1 : (m <=? 100) = true) by (apply Z.leb_le; lia).
  rewrite E0, E1 in Hacc. discriminate Hacc.
Qed.

Lemma add_product_no_row (b : add_product_body) (c : conn) :
  add_product_accepts b = true ->
  select_codeformat 1 (cur c) = [] ->
  add_product b c =
  (Ok (mkResponse 500
         (JS.JObj [("message", JS.JStr "Error adding product");
                   ("error",
                    JS.JStr "Cannot read properties of undefined (reading 'nextValue')")])),
   mkConn (cur c) (committed c) (in_txn c) (log c ++ [SelectCodeFormat 1])).
Proof.
  intros Hacc Hsel.
  destruct (add_product_accepts_inv b Hacc)
    as [name [category [q [m [-> [Hn [Hc [Hq Hm]]]]]]]].
  destruct name as [|a name]; [congruence|].
  destruct category as [|a' category]; [congruence|].
  unfold add_product, try_catch.
  cbn [ap_name ap_category ap_quantity ap_maxDiscount ap_cost ap_price ap_image].
  assert ((q <? 0) = false) as -> by (apply Z.ltb_ge; lia).
  assert ((m <? 0) = false) as -> by (apply Z.ltb_ge; lia).
  assert ((m >? 100) = false) as -> by (rewrite Z.gtb_ltb; apply Z.ltb_ge; lia).
  cbn [orb]. unfold bind at 1.
  rewrite (generateEntryCode_missing c 1 Hsel). reflexivity.
Qed.

(** X4.  add-product always answers, with 201, 400 or 500.  It answers 201
    exactly when the request passes the checks and there is a counter row for
    code type 1.  A 400 comes before anything is sent, so no code is used up;
    and whenever the answer is not 201 the tables are as they were. *)
Theorem add_product_writes_only_on_201 (b : add_product_body) (c : conn) :
  exists r c',
    add_product b c = (Ok r, c') /\
    (status r = 201 \/ status r = 400 \/ status r = 500) /\
    (status r = 201 <->
       add_product_accepts b = true /\ select_codeformat 1 (cur c) <> []) /\
    (status r = 400 <-> add_product_accepts b = false) /\
    (status r = 400 -> c' = c) /\
    (status r <> 201 -> cur c' = cur c /\ committed c' = committed c).
Proof.
  destruct (add_product_accepts b) eqn:Hacc.
  - destruct (select_codeformat 1 (cur c)) as [|row rest] eqn:Hsel.
    + eexists. eexists. split; [apply (add_product_no_row b c Hacc Hsel)|].
      cbn [status cur committed].
      repeat split; intros; try discriminate; try tauto; try lia.
      all: intuition (try discriminate; try congruence; try lia).
    + destruct (add_product_accepts_inv b Hacc)
        as [name [category [q [m [Hb [Hn [Hc [Hq Hm]]]]]]]].
      destruct (add_product_run c name category q m (ap_cost b) (ap_price b)
                  (ap_image b) row rest Hn Hc Hq Hm Hsel)
        as [r [c' [Hrun [Hst _]]]].
      rewrite <- Hb in Hrun. exists r, c'. split; [exact Hrun|].
      rewrite Hst. repeat split; intros; try discriminate; try lia.
  - destruct (add_product_rejects b c Hacc) as [msg Hrun].
    eexists. eexists. split; [exact Hrun|]. cbn [status].
    repeat split; intros; try discriminate; try tauto; try lia.
    all: intuition (try discriminate; try congruence; try lia).
Qed.

(** The connection an accepted add-product leaves behind. *)
Lemma add_product_state (c : conn) (b : add_product_body)
  (row : codeformat) (rest : list codeformat) :
  add_product_accepts b = true ->
  select_codeformat 1 (cur c) = row :: rest ->
  exists r c' p,
    add_product b c = (Ok r, c') /\ status r = 201 /\
    sku p = codeSample (PreFix row) (Length row) (JS.add (nextValue row) 1) /\
    id p = products_next_id (cur c) /\
    cur c' = set_products (products (cur c) ++ [p]) (products_next_id (cur c) + 1)
               (snd (update_nextValue (JS.add (nextValue row) 1) 1 (cur c))).
Proof.
  intros Hacc Hsel.
  destruct (add_product_accepts_inv b Hacc)
    as [name [category [q [m [-> [Hn [Hc [Hq Hm]]]]]]]].
  destruct name as [|a name]; [congruence|].
  destruct category as [|a' category]; [congruence|].
  unfold add_product, try_catch.
  cbn [ap_name ap_category ap_quantity ap_maxDiscount ap_cost ap_price ap_image].
  assert ((q <? 0) = false) as -> by (apply Z.ltb_ge; lia).
  assert ((m <? 0) = false) as -> by (apply Z.ltb_ge; lia).
  assert ((m >? 100) = false) as -> by (rewrite Z.gtb_ltb; apply Z.ltb_ge; lia).
  cbn [orb]. unfold bind at 1.
  rewrite (generateEntryCode_step c 1 row rest Hsel). cbv zeta.
  unfold bind, query_write, ret. cbn [insert_product cur fst snd].
  eexists. eexists. eexists. split; [reflexivity|].
  cbn [status sku id products products_next_id update_nextValue set_codeformats snd].
  repeat split; reflexivity.
Qed.

(** X5.  Two accepted add-product requests in a row, from a counter that
    both requests find a safe integer, store two products with different
    SKUs and consecutive identifiers, the second SKU being the code of the
    counter that follows the first. *)
Theorem add_product_twice_distinct_skus
  (c : conn) (b1 b2 : add_product_body) (row : codeformat) (rest : list codeformat) :
  add_product_accepts b1 = true -> add_product_accepts b2 = true ->
  select_codeformat 1 (cur c) = row :: rest ->
  safe_integer (nextValue row) -> safe_integer (nextValue row + 1) ->
  exists r1 c1 r2 c2 p1 p2,
    add_product b1 c = (Ok r1, c1) /\ status r1 = 201 /\
    add_product b2 c1 = (Ok r2, c2) /\ status r2 = 201 /\
    products (cur c2) = products (cur c) ++ [p1; p2] /\
    sku p1 = codeSample (PreFix row) (Length row) (nextValue row + 1) /\
    sku p2 = codeSample (PreFix row) (Length row) (nextValue row + 2) /\
    sku p1 <> sku p2 /\ id p2 = id p1 + 1.
Proof.
  intros Hacc1 Hacc2 Hsel Hsafe1 Hsafe2.
  destruct (add_product_state c b1 row rest Hacc1 Hsel)
    as [r1 [c1 [p1 [Hrun1 [Hst1 [Hsku1 [Hid1 Hcur1]]]]]]].
  rewrite (add_one_exact _ Hsafe1) in Hsku1, Hcur1.
  assert (Hsel1 : select_codeformat 1 (cur c1) =
                  with_nextValue (nextValue row + 1) row ::
                  map (with_nextValue (nextValue row + 1)) rest).
  { rewrite Hcur1. unfold select_codeformat. cbn [set_products codeformats].
    fold (select_codeformat 1 (snd (update_nextValue (nextValue row + 1) 1 (cur c)))).
    rewrite select_after_update, Hsel. reflexivity. }
  destruct (add_product_state c1 b2 _ _ Hacc2 Hsel1)
    as [r2 [c2 [p2 [Hrun2 [Hst2 [Hsku2 [Hid2 Hcur2]]]]]]].
  cbn [with_nextValue PreFix Length nextValue] in Hsku2.
  rewrite (add_one_exact _ Hsafe2) in Hsku2.
  replace (nextValue row + 1 + 1) with (nextValue row + 2) in Hsku2 by lia.
  exists r1, c1, r2, c2, p1, p2.
  split; [exact Hrun1|]. split; [exact Hst1|].
  split; [exact Hrun2|]. split; [exact Hst2|].
  split.
  { rewrite Hcur2. cbn [set_products products]. rewrite Hcur1.
    cbn [set_products products]. now rewrite <- app_assoc. }
  split; [exact Hsku1|]. split; [exact Hsku2|]. split.
  - rewrite Hsku1, Hsku2. intros E. apply codeSample_inj in E. lia.
  - rewrite Hid2, Hid1, Hcur1. reflexivity.
Qed.

Lemma add_product_twice_distinct_skus_witness :
  let b1 := mkAddProductBody (Some "Jam") (Some "Food") (Some 5) None None None
              (Some 0) in
  let b2 := mkAddProductBody (Some "Rice") (Some "Food") (Some 0) (Some 2) None
              None (Some 50) in
  exists r1 c1 r2 c2,
    add_product b1 sample_conn = (Ok r1, c1) /\
    add_product b2 c1 = (Ok r2, c2) /\
    map (fun p => (id p, sku p)) (products (cur c2)) =
      [(1, "SKU97"); (2, "SKU98"); (3, "SKU99"); (4, "SKU100")].
Proof.
  intros b1 b2.
  destruct (add_product_twice_distinct_skus sample_conn b1 b2
              (mkCodeFormat 1 "SKU" 2 98) [] eq_refl eq_refl eq_refl
              (conj eq_refl eq_refl) (conj eq_refl eq_refl))
    as [r1 [c1 [r2 [c2 [p1 [p2 [Hrun1 [_ [Hrun2 [_ [Hrows [Hs1 [Hs2 [_ Hid]]]]]]]]]]]]]].
  exists r1, c1, r2, c2. split; [exact Hrun1|]. split; [exact Hrun2|].
  rewrite Hrows. cbn [products cur sample_conn sample_tables map app id sku].
  rewrite Hs1, Hs2, Hid.
  assert (Hid1 : id p1 = 3).
  { vm_compute in Hrun1. injection Hrun1 as _ <-.
    vm_compute in Hrun2. injection Hrun2 as _ <-.
    cbn in Hrows. injection Hrows as <- _. reflexivity. }
  rewrite Hid1. reflexivity.
Defined.

(** ** Inventory deduction, whatever the batch *)

(** A property of the tables that every conditional update of a positive or
    undefined quantity keeps is kept by the whole request, whatever the batch
    and whatever the outcome. *)
Lemma deduct_loop_keeps (P : tables -> Prop) :
  (forall q s t, not_positive q = false -> P t ->
                 P (snd (update_inventory q s t))) ->
  forall l c, P (cur c) ->
  P (cur (snd (deduct_loop l c))) /\
  in_txn (snd (deduct_loop l c)) = in_txn c /\
  (in_txn c = true -> committed (snd (deduct_loop l c)) = committed c).
Proof.
  intros Hstep. induction l as [|e l IH]; intros c HP.
  - cbn. repeat split; eauto.
  - destruct e as [|s q]; [cbn; repeat split; eauto|].
    cbn [deduct_loop e_sku e_quantity]. destruct (not_positive q) eqn:Hpos.
    + cbn. repeat split; eauto.
    + unfold bind at 1 2 3. unfold query_write at 1 2 3.
      destruct (update_inventory q s (cur c)) as [h t'] eqn:U.
      assert (HP' : P t').
      { replace t' with (snd (update_inventory q s (cur c))) by now rewrite U.
        now apply Hstep. }
      cbn [fst]. destruct (affectedRows h =? 0).
      * cbn [ret snd fst cur in_txn committed].
        repeat split; eauto. intros ->. reflexivity.
      * set (c1 := mkConn t' (if in_txn c then committed c else t') (in_txn c)
                     (log c ++ [UpdateInventory q s])).
        destruct (IH c1 HP') as [H1 [H2 H3]].
        split; [exact H1|]. split; [exact H2|].
        intros Htxn. rewrite H3; subst c1; cbn [in_txn committed]; [|exact Htxn].
        now rewrite Htxn.
Qed.

(** A batch with a [null] element: the handler throws while it tests the
    fields, before the try block, with nothing sent. *)
Lemma auto_update_inventory_null (batch : option (list inventory_entry)) (c : conn) :
  has_null batch ->
  auto_update_inventory batch c = (Throw (JS.read_of_null "sku"), c).
Proof.
  destruct batch as [[|e l]|]; cbn [has_null]; intros Hnull; try (now destruct Hnull).
  unfold auto_update_inventory. unfold bind at 1.
  now rewrite (filter_missing_fields_null _ c Hnull).
Qed.

(** A batch without: the handler answers. *)
Lemma auto_update_inventory_answers (batch : option (list inventory_entry))
  (c : conn) :
  ~ has_null batch -> exists r, fst (auto_update_inventory batch c) = Ok r.
Proof.
  destruct batch as [[|e l]|]; cbn [has_null]; intros Hnull;
    try (cbn; eauto; fail).
  rewrite (auto_update_inventory_objects e l c Hnull).
  destruct (0 <? List.length (index_labels (filter missing_fields (e :: l)) 0))%nat;
    [cbn; eauto|].
  destruct (deduct_loop (e :: l) c) as [[[early|]|err] c']; cbn [fst]; eauto.
Qed.

Lemma auto_update_inventory_keeps (P : tables -> Prop) :
  (forall q s t, not_positive q = false -> P t ->
                 P (snd (update_inventory q s t))) ->
  forall batch c, P (cur c) ->
  P (cur (snd (auto_update_inventory batch c))) /\
  in_txn (snd (auto_update_inventory batch c)) = in_txn c /\
  (in_txn c = true ->
   committed (snd (auto_update_inventory batch c)) = committed c).
Proof.
  intros Hstep batch c HP.
  destruct batch as [[|e l]|]; try (cbn; repeat split; eauto; fail).
  destruct (null_dec (e :: l)) as [Hnull | Hnull].
  - rewrite (auto_update_inventory_null (Some (e :: l)) c Hnull).
    cbn [snd]. repeat split; eauto.
  - rewrite (auto_update_inventory_objects e l c Hnull).
    destruct (0 <? List.length (index_labels (filter missing_fields (e :: l)) 0))%nat;
      [cbn; repeat split; eauto|].
    destruct (deduct_loop_keeps P Hstep (e :: l) c HP) as [H1 [H2 H3]].
    destruct (deduct_loop (e :: l) c) as [[[early|]|err] c'];
      cbn [fst snd] in *; repeat split; eauto.
Qed.

Lemma update_inventory_nonneg (q : option Z) (s : option string) (t : tables) :
  stock_nonneg t = true -> stock_nonneg (snd (update_inventory q s t)) = true.
Proof.
  unfold stock_nonneg, update_inventory. cbn [snd set_products products].
  induction (products t) as [|p l IH]; cbn [forallb map]; [reflexivity|].
  intros H. apply andb_prop in H. destruct H as [Hp Hl].
  rewrite (IH Hl), andb_true_r.
  destruct (inventory_match q s p) eqn:E; [|exact Hp].
  unfold inventory_match in E. cbn [intQty].
  destruct s; [|discriminate]. destruct q as [q|]; [|discriminate].
  destruct (intQty p) as [stock|]; [|discriminate].
  apply andb_prop in E. destruct E as [_ E].
  apply Z.leb_le. apply Z.geb_le in E. lia.
Qed.

(** X6.  Stock never goes below zero: if no product holds a negative
    quantity before an auto-update-inventory request, none does after it,
    whatever the batch and whether it is accepted or rejected. *)
Theorem auto_update_inventory_keeps_stock_nonneg
  (batch : option (list inventory_entry)) (c : conn) :
  stock_nonneg (cur c) = true ->
  stock_nonneg (cur (snd (auto_update_inventory batch c))) = true.
Proof.
  intros Hnonneg.
  apply (auto_update_inventory_keeps (fun t => stock_nonneg t = true));
    [|exact Hnonneg].
  intros q s t _. apply update_inventory_nonneg.
Qed.

Lemma auto_update_inventory_keeps_stock_nonneg_witness :
  let batch := Some [mkEntry (Some "SKU97") (Some 7); mkEntry (Some "SKU98") (Some 1);
                     mkEntry (Some "SKU97") (Some 7)] in
  stock_nonneg (cur sample_conn) = true /\
  stock_nonneg (cur (snd (auto_update_inventory batch sample_conn))) = true /\
  stock_of "SKU97" (cur (snd (auto_update_inventory batch sample_conn))) = [Some 3].
Proof.
  intros batch. split; [reflexivity|]. split; [|reflexivity].
  apply (auto_update_inventory_keeps_stock_nonneg batch sample_conn). reflexivity.
Defined.

Lemma update_inventory_identity (q : option Z) (s : option string) (t : tables) :
  same_but_stock t (snd (update_inventory q s t)).
Proof.
  unfold same_but_stock, update_inventory. cbn.
  repeat split; try reflexivity.
  rewrite map_map. apply map_ext. intros p.
  now destruct (inventory_match q s p).
Qed.

Lemma update_inventory_total_le (q : option Z) (s : option string) (t : tables) :
  not_positive q = false ->
  total_stock (snd (update_inventory q s t)) <= total_stock t.
Proof.
  intros Hpos. destruct q as [q|].
  - rewrite update_inventory_total, update_inventory_affected.
    cbn [not_positive] in Hpos. apply Z.leb_gt in Hpos. nia.
  - rewrite update_inventory_noop; [lia | apply update_inventory_undefined].
Qed.

(** X7.  An auto-update-inventory request changes nothing but quantities of
    products: whatever the batch and the outcome, the other tables, the
    number of products and every other column of every product are as
    before, the total stock has not grown, and no transaction was opened or
    closed.  The handler answers every batch that has no [null] element; on
    a batch that has one it throws while it tests the fields, outside its
    try block: no answer is sent and no statement either. *)
Theorem auto_update_inventory_changes_only_stock
  (batch : option (list inventory_entry)) (c : conn) :
  let c' := snd (auto_update_inventory batch c) in
  same_but_stock (cur c) (cur c') /\
  total_stock (cur c') <= total_stock (cur c) /\
  in_txn c' = in_txn c /\
  (~ has_null batch -> exists r, fst (auto_update_inventory batch c) = Ok r) /\
  (has_null batch ->
   auto_update_inventory batch c =
     (Throw (JS.TypeError "Cannot read properties of null (reading 'sku')"), c)).
Proof.
  intros c'. subst c'.
  destruct (auto_update_inventory_keeps
              (fun t => same_but_stock (cur c) t /\ total_stock t <= total_stock (cur c)))
    with (batch := batch) (c := c) as [[H1 H2] [H3 _]].
  - intros q s t Hpos [Hsame Hle]. split.
    + pose proof (update_inventory_identity q s t) as Hstep.
      unfold same_but_stock in *.
      destruct Hsame as [A1 [A2 [A3 [A4 [A5 [A6 [A7 A8]]]]]]].
      destruct Hstep as [B1 [B2 [B3 [B4 [B5 [B6 [B7 B8]]]]]]].
      repeat split; congruence.
    + pose proof (update_inventory_total_le q s t Hpos). lia.
  - split; [|lia]. unfold same_but_stock. repeat split; reflexivity.
  - split; [exact H1|]. split; [exact H2|]. split; [exact H3|]. split.
    + apply auto_update_inventory_answers.
    + apply auto_update_inventory_null.
Qed.

(** A batch whose second element is [null], on the sample store: the first
    element is complete, yet nothing is deducted and nothing is answered. *)
Example auto_update_inventory_null_element :
  auto_update_inventory (Some [mkEntry (Some "SKU97") (Some 4); Null]) sample_conn =
  (Throw (JS.TypeError "Cannot read properties of null (reading 'sku')"),
   sample_conn).
Proof.
  reflexivity.
Qed.

Lemma index_labels_seq {A} (l : list A) (start : nat) :
  index_labels l start =
  map (fun i => "Product at index " +++ JS.String (Z.of_nat i))
      (seq start (List.length l)).
Proof.
  revert start. induction l as [|x l IH]; intros start; [reflexivity|].
  cbn [index_labels List.length seq map]. now rewrite IH.
Qed.

(** X8.  When some entry of a non-empty batch of objects lacks its sku or
    its quantity, auto-update-inventory answers 400 before any statement is
    sent, also for entries that come before the faulty one.  The message
    numbers the faulty entries 0, 1, ..., k-1 in the order they appear, where
    k is how many there are: the numbers are not their positions in the
    batch. *)
Theorem auto_update_inventory_missing_fields_rejected
  (l : list inventory_entry) (c : conn) :
  ~ In Null l ->
  filter missing_fields l <> [] ->
  let k := List.length (filter missing_fields l) in
  auto_update_inventory (Some l) c =
    (Ok (mkResponse 400
           (message_body
              ("Missing required fields in products: " +++
               String.concat ", "
                 (map (fun i => "Product at index " +++ JS.String (Z.of_nat i))
                      (seq 0 k))))), c).
Proof.
  intros Hnull Hbad k. subst k.
  destruct l as [|e l]; [now cbn in Hbad|].
  rewrite (auto_update_inventory_objects e l c Hnull). rewrite index_labels_seq.
  rewrite length_map, length_seq.
  destruct (filter missing_fields (e :: l)) as [|x f]; [congruence|].
  reflexivity.
Qed.

Lemma auto_update_inventory_missing_fields_rejected_witness :
  auto_update_inventory
    (Some [mkEntry (Some "SKU97") (Some 4); mkEntry (Some "SKU98") (Some 1);
           mkEntry (Some "SKU98") None]) sample_conn =
    (Ok (mkResponse 400
           (message_body "Missing required fields in products: Product at index 0")),
     sample_conn).
Proof.
  apply (auto_update_inventory_missing_fields_rejected
           [mkEntry (Some "SKU97") (Some 4); mkEntry (Some "SKU98") (Some 1);
            mkEntry (Some "SKU98") None] sample_conn).
  - intros [H | [H | [H | []]]]; discriminate H.
  - discriminate.
Defined.

(** ** Purchase orders: deleting again, and creating then deleting *)

Lemma filter_none_removal {A} (p : A -> bool) (l : list A) :
  filter p l = [] -> filter (fun r => negb (p r)) l = l.
Proof.
  induction l as [|r l IH]; cbn [filter]; [reflexivity|].
  destruct (p r); [discriminate|]. intros H. cbn [negb]. now rewrite IH.
Qed.

Lemma filter_all_removal {A} (p : A -> bool) (l : list A) :
  Forall (fun r => p r = true) l -> filter (fun r => negb (p r)) l = [].
Proof.
  induction 1 as [|r l Hr _ IH]; cbn [filter]; [reflexivity|].
  now rewrite Hr.
Qed.

(** What a delete of a non-empty code leaves behind. *)
Lemma delete_purchase_order_state (c : conn) (orderCode : string) :
  orderCode <> EmptyString ->
  exists c',
    delete_purchase_order (Some orderCode) c =
      (Ok (mkResponse 200
             (message_body "Purchase order and details deleted successfully.")), c') /\
    purchaseorderdetails (cur c') =
      filter (fun r => negb (poCode r =? orderCode)%string)
        (purchaseorderdetails (cur c)) /\
    purchaseorder (cur c') =
      filter (fun r => negb (purchaseOrderCode r =? orderCode)%string)
        (purchaseorder (cur c)) /\
    codeformats (cur c') = codeformats (cur c) /\
    products (cur c') = products (cur c) /\
    products_next_id (cur c') = products_next_id (cur c) /\
    purchaseorder_next_id (cur c') = purchaseorder_next_id (cur c) /\
    sales_invoices (cur c') = sales_invoices (cur c) /\
    cart_items (cur c') = cart_items (cur c).
Proof.
  intros Hne. destruct orderCode as [|a s]; [congruence|].
  eexists. split.
  - unfold delete_purchase_order, try_catch, bind, query_write, ret.
    cbn [delete_details delete_order fst snd cur in_txn committed log].
    reflexivity.
  - cbn. repeat split; reflexivity.
Qed.

Lemma tables_ext (t t' : tables) :
  codeformats t' = codeformats t -> products t' = products t ->
  products_next_id t' = products_next_id t ->
  purchaseorder t' = purchaseorder t ->
  purchaseorder_next_id t' = purchaseorder_next_id t ->
  purchaseorderdetails t' = purchaseorderdetails t ->
  sales_invoices t' = sales_invoices t -> cart_items t' = cart_items t ->
  t' = t.
Proof.
  destruct t, t'. cbn. intros. subst. reflexivity.
Qed.

(** X9.  delete-purchase-order answers 200 whether or not anything carries
    the code: on a store with no order and no line under the code it changes
    nothing, so a second delete of the same code answers 200 again and leaves
    the tables as the first one made them. *)
Theorem delete_purchase_order_twice (c : conn) (orderCode : string) :
  orderCode <> EmptyString ->
  let ok := mkResponse 200
              (message_body "Purchase order and details deleted successfully.") in
  exists c1 c2,
    delete_purchase_order (Some orderCode) c = (Ok ok, c1) /\
    delete_purchase_order (Some orderCode) c1 = (Ok ok, c2) /\
    cur c2 = cur c1 /\
    (select_details orderCode (cur c) = [] ->
     filter (fun r => (purchaseOrderCode r =? orderCode)%string)
       (purchaseorder (cur c)) = [] ->
     cur c1 = cur c).
Proof.
  intros Hne ok.
  destruct (delete_purchase_order_state c orderCode Hne)
    as [c1 [Hrun1 [D1 [O1 [A1 [A2 [A3 [A4 [A5 A6]]]]]]]]].
  destruct (delete_purchase_order_state c1 orderCode Hne)
    as [c2 [Hrun2 [D2 [O2 [B1 [B2 [B3 [B4 [B5 B6]]]]]]]]].
  exists c1, c2. split; [exact Hrun1|]. split; [exact Hrun2|]. split.
  - apply tables_ext; try assumption.
    + rewrite O2. apply filter_none_removal. rewrite O1.
      apply filter_after_removal.
    + rewrite D2. apply filter_none_removal. rewrite D1.
      apply filter_after_removal.
  - intros Hd Ho. apply tables_ext; try assumption.
    + rewrite O1. now apply filter_none_removal.
    + rewrite D1. now apply filter_none_removal.
Qed.

Lemma delete_purchase_order_twice_witness :
  exists c1 c2,
    delete_purchase_order (Some "PO0007") sample_orders_conn =
      (Ok (mkResponse 200
             (message_body "Purchase order and details deleted successfully.")), c1) /\
    delete_purchase_order (Some "PO0007") c1 =
      (Ok (mkResponse 200
             (message_body "Purchase order and details deleted successfully.")), c2) /\
    List.length (purchaseorderdetails (cur c1)) = 1%nat /\
    cur c2 = cur c1.
Proof.
  destruct (delete_purchase_order_twice sample_orders_conn "PO0007"
              ltac:(discriminate)) as [c1 [c2 [H1 [H2 [Hsame _]]]]].
  exists c1, c2. split; [exact H1|]. split; [exact H2|]. split; [|exact Hsame].
  vm_compute in H1. injection H1 as <-. reflexivity.
Defined.

Lemma codeSample_nonempty (preFix : string) (Length newValue : Z) :
  codeSample preFix Length newValue <> EmptyString.
Proof.
  unfold codeSample. rewrite padStart_zero. intros E.
  apply (f_equal String.length) in E.
  rewrite !length_append in E. cbn [String.length] in E.
  pose proof (String_nonempty newValue) as Hne.
  destruct (JS.String newValue); [congruence|]. cbn [String.length] in E. lia.
Qed.

(** X10.  From a counter that is a safe integer, creating a purchase order
    whose lines are objects and then deleting the code it was stored under
    gives back the [purchaseorder] and [purchaseorderdetails] tables as they
    were, provided nothing carried that code before.  What is not given back is the counter
    of code type 2, one higher, and the next row identifier of
    [purchaseorder], one higher. *)
Theorem create_then_delete_purchase_order
  (c : conn) (date : Date) (sup : supplier_ref)
  (details : option (list order_line)) (total : option Z)
  (row : codeformat) (rest : list codeformat) :
  select_codeformat purchase_order_codeType (cur c) = row :: rest ->
  safe_integer (nextValue row) ->
  ~ In NullLine (lines_of details) ->
  let EntryCode := codeSample (PreFix row) (Length row) (nextValue row + 1) in
  select_details EntryCode (cur c) = [] ->
  filter (fun r => (purchaseOrderCode r =? EntryCode)%string)
    (purchaseorder (cur c)) = [] ->
  exists r1 c1 r2 c2,
    create_purchase_order date (mkPurchaseOrderBody (Some sup) details total) c =
      (Ok r1, c1) /\ status r1 = 200 /\
    delete_purchase_order (Some EntryCode) c1 = (Ok r2, c2) /\ status r2 = 200 /\
    purchaseorder (cur c2) = purchaseorder (cur c) /\
    purchaseorderdetails (cur c2) = purchaseorderdetails (cur c) /\
    purchaseorder_next_id (cur c2) = purchaseorder_next_id (cur c) + 1 /\
    select_codeformat purchase_order_codeType (cur c2) =
      with_nextValue (nextValue row + 1) row ::
      map (with_nextValue (nextValue row + 1)) rest.
Proof.
  intros Hsel Hsafe Hobjects EntryCode Hlines Horders.
  subst EntryCode. rewrite <- (add_one_exact _ Hsafe) in *.
  set (EntryCode := codeSample _ _ _) in *.
  destruct (create_purchase_order_state c date sup details total row rest
              Hsel Hobjects)
    as [c1 [Hrun1 [O1 [D1 [N1 [F1 _]]]]]].
  cbv zeta in O1, D1, F1. fold EntryCode in O1, D1.
  destruct (delete_purchase_order_state c1 EntryCode
              (codeSample_nonempty _ _ _))
    as [c2 [Hrun2 [D2 [O2 [F2 [_ [_ [N2 _]]]]]]]].
  eexists _, c1, _, c2. split; [exact Hrun1|]. split; [reflexivity|].
  split; [exact Hrun2|]. split; [reflexivity|].
  split; [|split; [|split]].
  - rewrite O2, O1, filter_app, (filter_none_removal _ _ Horders).
    cbn [filter purchaseOrderCode]. rewrite String.eqb_refl. cbn [negb].
    apply List.app_nil_r.
  - rewrite D2, D1, filter_app.
    unfold select_details in Hlines. rewrite (filter_none_removal _ _ Hlines).
    rewrite filter_all_removal; [apply List.app_nil_r|].
    apply Forall_forall. intros l Hin. apply in_map_iff in Hin.
    destruct Hin as [item [<- _]]. apply String.eqb_refl.
  - rewrite N2, N1. reflexivity.
  - unfold select_codeformat. rewrite F2, F1.
    fold (select_codeformat purchase_order_codeType
            (snd (update_nextValue (JS.add (nextValue row) 1)
                    purchase_order_codeType (cur c)))).
    rewrite select_after_update, Hsel. reflexivity.
Qed.

Lemma create_then_delete_purchase_order_witness :
  exists r1 c1 r2 c2,
    create_purchase_order sample_date sample_order_body sample_orders_conn =
      (Ok r1, c1) /\
    List.length (purchaseorderdetails (cur c1)) = 5%nat /\
    delete_purchase_order (Some "PO0008") c1 = (Ok r2, c2) /\
    purchaseorder (cur c2) = purchaseorder sample_orders /\
    purchaseorderdetails (cur c2) = purchaseorderdetails sample_orders /\
    purchaseorder_next_id (cur c2) = 4.
Proof.
  destruct (create_then_delete_purchase_order sample_orders_conn sample_date
              (mkSupplier (Some "SUP01") (Some "Acme"))
              (orderDetails sample_order_body) (Some 34)
              (mkCodeFormat 2 "PO" 4 7) [] eq_refl (conj eq_refl eq_refl)
              ltac:(intros [H | [H | []]]; discriminate H) eq_refl eq_refl)
    as [r1 [c1 [r2 [c2 [H1 [_ [H2 [_ [Ho [Hd [Hn _]]]]]]]]]]].
  exists r1, c1, r2, c2. split; [exact H1|].
  split; [|split; [exact H2|split; [exact Ho|split; [exact Hd|exact Hn]]]].
  vm_compute in H1. injection H1 as _ <-. reflexivity.
Defined.

(** X11.  A create-purchase-order request whose supplier field is absent is
    answered 500 with the text of the TypeError, after the code was taken:
    the counter of code type 2, a safe integer before, is one higher, no
    order and no line is stored, and the code is never used. *)
Theorem create_purchase_order_without_supplier
  (c : conn) (date : Date) (details : option (list order_line)) (total : option Z)
  (row : codeformat) (rest : list codeformat) :
  select_codeformat purchase_order_codeType (cur c) = row :: rest ->
  safe_integer (nextValue row) ->
  exists c',
    create_purchase_order date (mkPurchaseOrderBody None details total) c =
      (Ok (mkResponse 500
             (JS.JObj
                [("error",
                  JS.JStr
                    "An error occurred while creating the purchase order TypeError: Cannot read properties of undefined (reading 'code')")])),
       c') /\
    select_codeformat purchase_order_codeType (cur c') =
      with_nextValue (nextValue row + 1) row ::
      map (with_nextValue (nextValue row + 1)) rest /\
    same_but_counters (cur c) (cur c').
Proof.
  intros Hsel Hsafe. eexists. split.
  - unfold create_purchase_order, try_catch. unfold bind at 1.
    rewrite (generateEntryCode_run c _ row rest Hsel Hsafe).
    cbn [supplier]. unfold throw. reflexivity.
  - cbn [cur]. split.
    + rewrite select_after_update, Hsel. reflexivity.
    + unfold same_but_counters. cbn. repeat split; reflexivity.
Qed.

Lemma create_purchase_order_without_supplier_witness :
  exists r c',
    create_purchase_order sample_date
      (mkPurchaseOrderBody None (orderDetails sample_order_body) (Some 34))
      sample_conn = (Ok r, c') /\
    status r = 500 /\
    select_codeformat 2 (cur c') = [mkCodeFormat 2 "PO" 4 8] /\
    purchaseorder (cur c') = [].
Proof.
  destruct (create_purchase_order_without_supplier sample_conn sample_date
              (orderDetails sample_order_body) (Some 34)
              (mkCodeFormat 2 "PO" 4 7) [] eq_refl (conj eq_refl eq_refl))
    as [c' [Hrun [Hsel [_ [_ [Hpo _]]]]]].
  eexists. exists c'. split; [exact Hrun|]. split; [reflexivity|].
  split; [exact Hsel | exact Hpo].
Defined.

(** ** A missing counter row, seen from the routes *)

(** X12.  How the routes answer when the counter row they need is missing:
    add-product (for a request that passes its checks) and
    create-purchase-order answer 500 with the TypeError's text in the body;
    save-invoice, which asks for the code outside its try block, sends no
    answer at all.  In the three cases the tables are as they were. *)
Theorem missing_counter_row_at_the_routes (c : conn) :
  (select_codeformat 1 (cur c) = [] ->
   forall b, add_product_accepts b = true ->
   exists c',
     add_product b c =
       (Ok (mkResponse 500
              (JS.JObj [("message", JS.JStr "Error adding product");
                        ("error",
                         JS.JStr "Cannot read properties of undefined (reading 'nextValue')")])),
        c') /\ cur c' = cur c) /\
  (select_codeformat purchase_order_codeType (cur c) = [] ->
   forall date b,
   exists c',
     create_purchase_order date b c =
       (Ok (mkResponse 500
              (JS.JObj
                 [("error",
                   JS.JStr
                     "An error occurred while creating the purchase order TypeError: Cannot read properties of undefined (reading 'nextValue')")])),
        c') /\ cur c' = cur c) /\
  (select_codeformat invoice_codeType (cur c) = [] ->
   forall b,
   exists c',
     save_invoice b c =
       (Throw (JS.TypeError
                 "Cannot read properties of undefined (reading 'nextValue')"), c') /\
     cur c' = cur c /\ in_txn c' = in_txn c).
Proof.
  split; [|split].
  - intros Hsel b Hacc. eexists. split; [apply (add_product_no_row b c Hacc Hsel)|].
    reflexivity.
  - intros Hsel date b. eexists. split.
    + unfold create_purchase_order, try_catch. unfold bind at 1.
      rewrite (generateEntryCode_missing c _ Hsel). reflexivity.
    + reflexivity.
  - intros Hsel b. eexists. split.
    + unfold save_invoice. unfold bind at 1.
      rewrite (generateEntryCode_missing c _ Hsel). reflexivity.
    + split; reflexivity.
Qed.

Lemma missing_counter_row_at_the_routes_witness :
  (exists r c',
     add_product (mkAddProductBody (Some "Jam") (Some "Food") (Some 5) None None
                    None (Some 0)) sample_no_counters = (Ok r, c') /\
     status r = 500 /\ cur c' = cur sample_no_counters) /\
  (exists r c',
     create_purchase_order sample_date sample_order_body sample_no_counters =
       (Ok r, c') /\ status r = 500 /\ cur c' = cur sample_no_counters) /\
  (exists e c',
     save_invoice sample_invoice_body sample_no_counters = (Throw e, c') /\
     cur c' = cur sample_no_counters).
Proof.
  destruct (missing_counter_row_at_the_routes sample_no_counters) as [H1 [H2 H3]].
  split; [|split].
  - destruct (H1 eq_refl (mkAddProductBody (Some "Jam") (Some "Food") (Some 5)
                            None None None (Some 0)) eq_refl) as [c' [Hrun Hcur]].
    eexists. exists c'. split; [exact Hrun|]. split; [reflexivity | exact Hcur].
  - destruct (H2 eq_refl sample_date sample_order_body) as [c' [Hrun Hcur]].
    eexists. exists c'. split; [exact Hrun|]. split; [reflexivity | exact Hcur].
  - destruct (H3 eq_refl sample_invoice_body) as [c' [Hrun [Hcur _]]].
    eexists. exists c'. split; [exact Hrun | exact Hcur].
Defined.

(** ** Invoices: codes used up and transactions left open *)

(** Every way save-invoice can go once it has its code. *)
Lemma save_invoice_cases (b : invoice_body) (c : conn)
  (row : codeformat) (rest : list codeformat) :
  select_codeformat invoice_codeType (cur c) = row :: rest ->
  let counted := snd (update_nextValue (JS.add (nextValue row) 1) invoice_codeType (cur c)) in
  exists r c',
    save_invoice b c = (Ok r, c') /\
    (status r = 200 \/ status r = 500) /\
    codeformats (cur c') = codeformats counted /\
    (status r = 500 -> in_txn c' = true /\ committed c' = counted) /\
    (status r = 200 -> in_txn c' = false /\ committed c' = cur c').
Proof.
  intros Hsel counted.
  destruct b as [[cust|] [inv|] items].
  - destruct (sales_invoice_params
                (codeSample (PreFix row) (Length row) (JS.add (nextValue row) 1)) cust inv)
      as [irow|] eqn:Hparams.
    + destruct items as [items|].
      * destruct (save_invoice_run c cust inv items row rest irow Hsel Hparams)
          as [c' [Hrun [Hcur [Htxn [Hcom _]]]]].
        eexists. exists c'. split; [exact Hrun|].
        destruct (forallb complete_entry items); cbn [status negb] in *.
        -- split; [now left|]. split; [rewrite Hcur; reflexivity|].
           split; [discriminate|]. intros _. split; assumption.
        -- split; [now right|]. split; [rewrite Hcur; reflexivity|].
           split; [|discriminate]. intros _. split; assumption.
      * eexists. eexists. split.
        -- unfold save_invoice. unfold bind at 1.
           rewrite (generateEntryCode_step c _ row rest Hsel). cbv zeta.
           unfold try_catch. unfold bind at 1. unfold beginTransaction.
           cbn [customer invoice cartItems cur committed in_txn log].
           unfold bind at 1. unfold execute at 1. rewrite Hparams.
           unfold query_write at 1. cbn [insert_sales_invoice in_txn cur].
           unfold throw, ret. reflexivity.
        -- cbn [status cur in_txn committed]. split; [now right|].
           split; [reflexivity|]. split; [|discriminate]. intros _. now split.
    + eexists. eexists. split.
      * unfold save_invoice. unfold bind at 1.
        rewrite (generateEntryCode_step c _ row rest Hsel). cbv zeta.
        unfold try_catch. unfold bind at 1. unfold beginTransaction.
        cbn [customer invoice cartItems cur committed in_txn log].
        unfold bind at 1. unfold execute at 1. rewrite Hparams.
        unfold throw, ret. reflexivity.
      * cbn [status cur in_txn committed]. split; [now right|].
        split; [reflexivity|]. split; [|discriminate]. intros _. now split.
  - eexists. eexists. split.
    + unfold save_invoice. unfold bind at 1.
      rewrite (generateEntryCode_step c _ row rest Hsel). cbv zeta.
      unfold try_catch. unfold bind at 1. unfold beginTransaction.
      cbn [customer invoice cartItems cur committed in_txn log].
      unfold throw, ret. reflexivity.
    + cbn [status cur in_txn committed]. split; [now right|].
      split; [reflexivity|]. split; [|discriminate]. intros _. now split.
  - eexists. eexists. split.
    + unfold save_invoice. unfold bind at 1.
      rewrite (generateEntryCode_step c _ row rest Hsel). cbv zeta.
      unfold try_catch. unfold bind at 1. unfold beginTransaction.
      cbn [customer invoice cartItems cur committed in_txn log].
      unfold throw, ret. reflexivity.
    + cbn [status cur in_txn committed]. split; [now right|].
      split; [reflexivity|]. split; [|discriminate]. intros _. now split.
  - eexists. eexists. split.
    + unfold save_invoice. unfold bind at 1.
      rewrite (generateEntryCode_step c _ row rest Hsel). cbv zeta.
      unfold try_catch. unfold bind at 1. unfold beginTransaction.
      cbn [customer invoice cartItems cur committed in_txn log].
      unfold throw, ret. reflexivity.
    + cbn [status cur in_txn committed]. split; [now right|].
      split; [reflexivity|]. split; [|discriminate]. intros _. now split.
Qed.

(** X13.  save-invoice uses up one code of type 6 whatever becomes of the
    request: when the counter row exists, with a safe integer for counter,
    the answer is 200 or 500 and in both cases the counter is one higher
    afterwards; after a 500 the transaction the handler began is still
    open. *)
Theorem save_invoice_uses_up_a_code (b : invoice_body) (c : conn)
  (row : codeformat) (rest : list codeformat) :
  select_codeformat invoice_codeType (cur c) = row :: rest ->
  safe_integer (nextValue row) ->
  exists r c',
    save_invoice b c = (Ok r, c') /\
    (status r = 200 \/ status r = 500) /\
    select_codeformat invoice_codeType (cur c') =
      with_nextValue (nextValue row + 1) row ::
      map (with_nextValue (nextValue row + 1)) rest /\
    (status r = 500 -> in_txn c' = true) /\
    (status r = 200 -> in_txn c' = false).
Proof.
  intros Hsel Hsafe. rewrite <- (add_one_exact _ Hsafe).
  destruct (save_invoice_cases b c row rest Hsel)
    as [r [c' [Hrun [Hst [Hcf [H500 H200]]]]]].
  exists r, c'. split; [exact Hrun|]. split; [exact Hst|]. split.
  - unfold select_codeformat. rewrite Hcf.
    fold (select_codeformat invoice_codeType
            (snd (update_nextValue (JS.add (nextValue row) 1) invoice_codeType
                    (cur c)))).
    rewrite select_after_update, Hsel. reflexivity.
  - split; intros E; [apply (H500 E) | apply (H200 E)].
Qed.

Lemma save_invoice_uses_up_a_code_witness :
  exists r c',
    save_invoice (mkInvoiceBody None (Some sample_invoice_meta) (Some []))
      sample_conn = (Ok r, c') /\
    status r = 500 /\
    select_codeformat 6 (cur c') = [mkCodeFormat 6 "INV" 5 42] /\
    in_txn c' = true /\ sales_invoices (cur c') = [].
Proof.
  destruct (save_invoice_uses_up_a_code
              (mkInvoiceBody None (Some sample_invoice_meta) (Some []))
              sample_conn (mkCodeFormat 6 "INV" 5 41) [] eq_refl
              (conj eq_refl eq_refl))
    as [r [c' [Hrun [_ [Hsel [H500 _]]]]]].
  assert (Hst : status r = 500).
  { vm_compute in Hrun. injection Hrun as <- _. reflexivity. }
  exists r, c'. split; [exact Hrun|]. split; [exact Hst|]. split; [exact Hsel|].
  split; [exact (H500 Hst)|].
  vm_compute in Hrun. injection Hrun as _ <-. reflexivity.
Defined.

(** X14.  After a save-invoice request that was answered 500, the stock that
    later auto-update-inventory requests take is taken inside the transaction
    the failed request left open: the connection sees the new quantities, but
    the durable quantities are still those from before the invoice request. *)
Theorem deductions_after_failed_invoice_not_durable
  (b : invoice_body) (batch : option (list inventory_entry)) (c : conn)
  (row : codeformat) (rest : list codeformat) :
  select_codeformat invoice_codeType (cur c) = row :: rest ->
  exists r c1,
    save_invoice b c = (Ok r, c1) /\
    (status r = 500 ->
     let c2 := snd (auto_update_inventory batch c1) in
     in_txn c2 = true /\
     committed c2 = committed c1 /\
     products (committed c2) = products (cur c)).
Proof.
  intros Hsel.
  destruct (save_invoice_cases b c row rest Hsel)
    as [r [c1 [Hrun [_ [_ [H500 _]]]]]].
  exists r, c1. split; [exact Hrun|]. intros Hst c2. subst c2.
  destruct (H500 Hst) as [Htxn Hcom].
  destruct (auto_update_inventory_keeps (fun _ => True))
    with (batch := batch) (c := c1) as [_ [H2 H3]]; [auto | exact I |].
  split; [now rewrite H2|]. split; [now apply H3|].
  rewrite (H3 Htxn), Hcom. reflexivity.
Qed.

Lemma deductions_after_failed_invoice_not_durable_witness :
  exists r c1,
    save_invoice sample_invoice_body_missing_sku sample_conn = (Ok r, c1) /\
    status r = 500 /\
    let c2 := snd (auto_update_inventory
                     (Some [mkEntry (Some "SKU97") (Some 4)]) c1) in
    stock_of "SKU97" (cur c2) = [Some 6] /\
    stock_of "SKU97" (committed c2) = [Some 10].
Proof.
  destruct (deductions_after_failed_invoice_not_durable
              sample_invoice_body_missing_sku
              (Some [mkEntry (Some "SKU97") (Some 4)]) sample_conn
              (mkCodeFormat 6 "INV" 5 41) [] eq_refl) as [r [c1 [Hrun H500]]].
  assert (Hst : status r = 500).
  { vm_compute in Hrun. injection Hrun as <- _. reflexivity. }
  exists r, c1. split; [exact Hrun|]. split; [exact Hst|].
  intros c2. destruct (H500 Hst) as [_ [_ Hprod]]. split.
  - subst c2. vm_compute in Hrun. injection Hrun as _ <-. reflexivity.
  - unfold stock_of. subst c2. rewrite Hprod. reflexivity.
Defined.

(** ** Looking up the lines of an order *)

Lemma get_purchase_orders_details_run (c : conn) (orderCode : string) :
  orderCode <> EmptyString ->
  get_purchase_orders_details (Some orderCode) c =
  (Ok (match select_details orderCode (cur c) with
       | [] => DetailsError 404 "No purchase order found for the given poCode"
       | rows => DetailsRows rows
       end), c).
Proof.
  intros Hne. destruct orderCode as [|a s]; [congruence|].
  unfold get_purchase_orders_details, try_catch, bind, query_other_read, ret.
  destruct (select_details (String a s) (cur c)); reflexivity.
Qed.

(** X15.  After delete-purchase-order for a code, get-purchase-orders-details
    for that code answers 404 "No purchase order found for the given poCode",
    whatever the store held before. *)
Theorem details_after_delete_not_found (c : conn) (orderCode : string) :
  orderCode <> EmptyString ->
  let c1 := snd (delete_purchase_order (Some orderCode) c) in
  get_purchase_orders_details (Some orderCode) c1 =
    (Ok (DetailsError 404 "No purchase order found for the given poCode"), c1).
Proof.
  intros Hne c1. subst c1.
  destruct (delete_purchase_order_state c orderCode Hne) as [c1 [Hrun [D1 _]]].
  rewrite Hrun. cbn [snd]. rewrite (get_purchase_orders_details_run c1 _ Hne).
  unfold select_details. rewrite D1, filter_after_removal. reflexivity.
Qed.

Lemma details_after_delete_not_found_witness :
  let c1 := snd (delete_purchase_order (Some "PO0007") sample_orders_conn) in
  (exists rows,
     fst (get_purchase_orders_details (Some "PO0007") sample_orders_conn) =
       Ok (DetailsRows rows) /\ List.length rows = 2%nat) /\
  fst (get_purchase_orders_details (Some "PO0007") c1) =
    Ok (DetailsError 404 "No purchase order found for the given poCode").
Proof.
  intros c1. split; [eexists; split; reflexivity|].
  subst c1.
  rewrite (details_after_delete_not_found sample_orders_conn "PO0007"
             ltac:(discriminate)).
  reflexivity.
Defined.

Lemma select_line_rows (orderCode : string) (lines : list order_line) :
  filter (fun r => (poCode r =? orderCode)%string) (map (line_row orderCode) lines) =
  map (line_row orderCode) lines.
Proof.
  induction lines as [|l ls IH]; [reflexivity|].
  cbn [map filter line_row poCode]. rewrite String.eqb_refl. now f_equal.
Qed.

(** X16.  After create-purchase-order from a counter that is a safe
    integer, with lines that are objects, get-purchase-orders-details for
    the code the order was stored under returns exactly the lines of the
    request, in order, provided no line carried that code before; for an order created without lines it
    answers 404 "No purchase order found", although the order row exists. *)
Theorem details_after_create
  (c : conn) (date : Date) (sup : supplier_ref)
  (details : option (list order_line)) (total : option Z)
  (row : codeformat) (rest : list codeformat) :
  select_codeformat purchase_order_codeType (cur c) = row :: rest ->
  safe_integer (nextValue row) ->
  ~ In NullLine (lines_of details) ->
  let EntryCode := codeSample (PreFix row) (Length row) (nextValue row + 1) in
  select_details EntryCode (cur c) = [] ->
  exists r c1,
    create_purchase_order date (mkPurchaseOrderBody (Some sup) details total) c =
      (Ok r, c1) /\ status r = 200 /\
    In EntryCode (map purchaseOrderCode (purchaseorder (cur c1))) /\
    get_purchase_orders_details (Some EntryCode) c1 =
      (Ok (match lines_of details with
           | [] => DetailsError 404 "No purchase order found for the given poCode"
           | lines => DetailsRows (map (line_row EntryCode) lines)
           end), c1).
Proof.
  intros Hsel Hsafe Hobjects EntryCode Hfresh.
  subst EntryCode. rewrite <- (add_one_exact _ Hsafe) in *.
  set (EntryCode := codeSample _ _ _) in *.
  destruct (create_purchase_order_state c date sup details total row rest
              Hsel Hobjects)
    as [c1 [Hrun [O1 [D1 _]]]].
  cbv zeta in O1, D1. fold EntryCode in O1, D1.
  eexists. exists c1. split; [exact Hrun|]. split; [reflexivity|]. split.
  - rewrite O1, map_app. apply in_or_app. right. now left.
  - rewrite (get_purchase_orders_details_run c1 EntryCode
               (codeSample_nonempty _ _ _)).
    unfold select_details in *. rewrite D1, filter_app, Hfresh.
    cbn [app].
    rewrite select_line_rows. destruct (lines_of details); reflexivity.
Qed.

Lemma details_after_create_witness :
  exists r c1,
    create_purchase_order sample_date sample_order_body sample_orders_conn =
      (Ok r, c1) /\
    fst (get_purchase_orders_details (Some "PO0008") c1) =
      Ok (DetailsRows
            [mkPurchaseOrderDetails "PO0008" (Some "SKU97") (Some "Tea") (Some 10)
               (Some 3);
             mkPurchaseOrderDetails "PO0008" (Some "SKU98") (Some "Mug") (Some 2)
               (Some 2)]).
Proof.
  destruct (details_after_create sample_orders_conn sample_date
              (mkSupplier (Some "SUP01") (Some "Acme"))
              (orderDetails sample_order_body) (Some 34)
              (mkCodeFormat 2 "PO" 4 7) [] eq_refl (conj eq_refl eq_refl)
              ltac:(intros [H | [H | []]]; discriminate H) eq_refl)
    as [r [c1 [Hrun [_ [_ Hget]]]]].
  exists r, c1. split; [exact Hrun|]. exact (f_equal fst Hget).
Defined.

(** ** Deleting a product *)

(** X17.  delete-product answers 200 whether or not a product has the
    identifier; it removes the products that have it and nothing else, and
    its commit statement ends whatever transaction was open on the
    connection: afterwards all that the connection sees is durable, the rows
    of an invoice whose save failed included. *)
Theorem delete_product_commits (i : option Z) (c : conn) :
  exists c',
    delete_product i c =
      (Ok (mkResponse 200
             (JS.object [("message", Some (JS.JStr "Product deleted successfully"));
                         ("id", option_map JS.JNum i)])), c') /\
    products (cur c') = filter (fun r => negb (product_has_id i r)) (products (cur c)) /\
    codeformats (cur c') = codeformats (cur c) /\
    purchaseorder (cur c') = purchaseorder (cur c) /\
    purchaseorderdetails (cur c') = purchaseorderdetails (cur c) /\
    sales_invoices (cur c') = sales_invoices (cur c) /\
    cart_items (cur c') = cart_items (cur c) /\
    committed c' = cur c' /\ in_txn c' = false /\
    (filter (product_has_id i) (products (cur c)) = [] -> cur c' = cur c).
Proof.
  eexists. split.
  - unfold delete_product, try_catch, bind, query_other_write, commit, ret.
    cbn [delete_product_rows fst snd cur in_txn committed log]. reflexivity.
  - cbn [cur committed in_txn products set_products].
    do 8 (split; [reflexivity|]).
    intros Hnone. rewrite (filter_none_removal _ _ Hnone). now destruct (cur c).
Qed.

(** After the failed invoice of the sample, a delete-product request for an
    identifier no product has makes the partial invoice durable. *)
Example delete_product_after_failed_invoice :
  let c1 := snd (save_invoice sample_invoice_body_missing_sku sample_conn) in
  let c2 := snd (delete_product (Some 77) c1) in
  sales_invoices (committed c1) = [] /\
  map code (sales_invoices (committed c2)) = ["INV00042"] /\
  List.length (cart_items (committed c2)) = 2%nat /\
  products (cur c2) = products (cur sample_conn).
Proof.
  vm_compute. repeat split; reflexivity.
Qed.

(** ** The session file and the login route *)

Lemma lookup_assign_same (key : string) (v : JS.json) d :
  Session.lookup key (Session.assign key v d) = Some v.
Proof.
  induction d as [|[k w] d IH]; cbn [Session.assign Session.lookup].
  - now rewrite String.eqb_refl.
  - destruct (String.eqb_spec k key) as [E|E]; cbn [Session.lookup].
    + subst k. now rewrite String.eqb_refl.
    + apply String.eqb_neq in E. now rewrite E.
Qed.

Lemma lookup_assign_other (key other : string) (v : JS.json) d :
  other <> key ->
  Session.lookup other (Session.assign key v d) = Session.lookup other d.
Proof.
  intros Hne. induction d as [|[k w] d IH]; cbn [Session.assign Session.lookup].
  - assert ((key =? other)%string = false) as ->
      by (apply String.eqb_neq; congruence). reflexivity.
  - destruct (String.eqb_spec k key) as [E|E]; cbn [Session.lookup].
    + subst k.
      assert ((key =? other)%string = false) as ->
        by (apply String.eqb_neq; congruence). reflexivity.
    + now rewrite IH.
Qed.

Lemma lookup_removed (key other : string) d :
  Session.lookup other (filter (fun kv => negb (fst kv =? key)%string) d) =
  if (other =? key)%string then None else Session.lookup other d.
Proof.
  induction d as [|[k w] d IH]; cbn [filter Session.lookup fst].
  - now destruct (other =? key)%string.
  - destruct (String.eqb_spec k key) as [E|E]; cbn [negb Session.lookup].
    + subst k. rewrite IH. destruct (String.eqb_spec other key) as [E'|E'];
        [reflexivity|].
      assert ((key =? other)%string = false) as ->
        by (apply String.eqb_neq; congruence). reflexivity.
    + rewrite IH. destruct (String.eqb_spec other key) as [E'|E']; [|reflexivity].
      subst other. apply String.eqb_neq in E. now rewrite E.
Qed.

Lemma lookup_set_same (key : string) (v : JS.json) d :
  key <> "__proto__" -> Session.lookup key (Session.set key v d) = Some v.
Proof.
  intros Hkey. unfold Session.set.
  destruct (Session.lookup key d); [apply lookup_assign_same|].
  apply String.eqb_neq in Hkey. rewrite Hkey. apply lookup_assign_same.
Qed.

Lemma lookup_set_other (key other : string) (v : JS.json) d :
  other <> key ->
  Session.lookup other (Session.set key v d) = Session.lookup other d.
Proof.
  intros Hne. unfold Session.set.
  destruct (Session.lookup key d); [now apply lookup_assign_other|].
  destruct (key =? "__proto__")%string; [reflexivity|].
  now apply lookup_assign_other.
Qed.

Lemma lookup_written_other (key other : string) (value : option JS.json) d :
  other <> key ->
  Session.lookup other (Session.written key value d) = Session.lookup other d.
Proof.
  intros Hne. destruct value as [v|]; cbn [Session.written].
  - now apply lookup_set_other.
  - rewrite lookup_removed. apply String.eqb_neq in Hne. now rewrite Hne.
Qed.

Lemma session_get_saved (key : string) (v : JS.json) (f : Session.file) :
  f <> Session.Unparsable -> key <> "__proto__" ->
  Session.getSessionData key (Session.saveSessionData key (Some v) f) =
  Some (Session.Own v).
Proof.
  intros Hf Hkey. destruct f as [| |d]; [|congruence|];
    cbn [Session.saveSessionData Session.getSessionData Session.written];
    unfold Session.get; now rewrite lookup_set_same.
Qed.

(** X18.  On a session file that is absent or holds an object: a value saved
    under a key other than [__proto__] is what a later read of that key
    returns; after saving [undefined] a later read of the key returns what
    every object inherits under that name, nothing for most names; reads of
    the other keys are as before (on an absent file, for the names that are
    not inherited); and a value saved under [__proto__], when the object has
    no own property of that name, is not stored: a later read returns the
    prototype. *)
Theorem session_save_then_get (key : string) (v : JS.json) (f : Session.file) :
  f <> Session.Unparsable ->
  (key <> "__proto__" ->
   Session.getSessionData key (Session.saveSessionData key (Some v) f) =
     Some (Session.Own v)) /\
  Session.getSessionData key (Session.saveSessionData key None f) =
    (if Session.inherited key then Some (Session.Inherited key) else None) /\
  (forall other value, other <> key ->
     (f = Session.Missing -> Session.inherited other = false) ->
     Session.getSessionData other (Session.saveSessionData key value f) =
     Session.getSessionData other f) /\
  (Session.getSessionData "__proto__" f = Some (Session.Inherited "__proto__") ->
   Session.saveSessionData "__proto__" (Some v) f = f /\
   Session.getSessionData "__proto__"
     (Session.saveSessionData "__proto__" (Some v) f) =
     Some (Session.Inherited "__proto__")).
Proof.
  intros Hf. split; [now apply session_get_saved|].
  destruct f as [| |d]; [|congruence|];
    cbn [Session.saveSessionData Session.getSessionData Session.written].
  - split; [reflexivity|]. split.
    + intros other value Hne Hother. unfold Session.get.
      rewrite lookup_written_other by exact Hne. cbn [Session.lookup].
      now rewrite (Hother eq_refl).
    + intros Hproto. discriminate Hproto.
  - split; [|split].
    + unfold Session.get. rewrite lookup_removed. now rewrite String.eqb_refl.
    + intros other value Hne _. unfold Session.get.
      now rewrite lookup_written_other.
    + intros Hproto. unfold Session.get in Hproto.
      destruct (Session.lookup "__proto__" d) eqn:L; [discriminate Hproto|].
      assert (Hset : Session.set "__proto__" v d = d)
        by (unfold Session.set; now rewrite L).
      rewrite Hset. split; [reflexivity|].
      unfold Session.get. now rewrite L.
Qed.

Lemma session_save_then_get_witness :
  let f := Session.Parsed [("theme", JS.JStr "dark"); ("role", JS.JStr "admin")] in
  Session.getSessionData "role"
    (Session.saveSessionData "role" (Some (JS.JStr "cashier")) f) =
    Some (Session.Own (JS.JStr "cashier")) /\
  Session.getSessionData "theme"
    (Session.saveSessionData "role" (Some (JS.JStr "cashier")) f) =
    Some (Session.Own (JS.JStr "dark")) /\
  Session.getSessionData "toString" (Session.saveSessionData "toString" None f) =
    Some (Session.Inherited "toString") /\
  Session.saveSessionData "__proto__" (Some (JS.JStr "cashier")) f = f.
Proof.
  intros f.
  destruct (session_save_then_get "role" (JS.JStr "cashier") f ltac:(discriminate))
    as [Hsame [_ [Hother _]]].
  destruct (session_save_then_get "toString" (JS.JStr "cashier") f ltac:(discriminate))
    as [_ [Hundefined _]].
  destruct (session_save_then_get "__proto__" (JS.JStr "cashier") f ltac:(discriminate))
    as [_ [_ [_ Hproto]]].
  split; [apply Hsame; discriminate|]. split.
  - rewrite (Hother "theme" (Some (JS.JStr "cashier")) ltac:(discriminate)
               ltac:(discriminate)).
    reflexivity.
  - split; [exact Hundefined|].
    apply Hproto. reflexivity.
Defined.

(** X19.  A login with a wrong password for a user that exists is answered
    401, but the user's role has already been written to the session file:
    on a file that is absent or holds an object, get-the-role afterwards
    answers 200 with that role when it is a non-empty text.  A login for a
    name no user has gets the same 401 and leaves the file alone. *)
Theorem login_wrong_password_stores_role
  (bcrypt_compare : string -> string -> bool) (jwt_sign : Z -> string -> string)
  (users : list user) (username password : string) (f : Session.file)
  (u : user) (others : list user) :
  filter (fun r => (u_username r =? username)%string) users = u :: others ->
  bcrypt_compare password (u_password u) = false ->
  f <> Session.Unparsable ->
  let refused := mkResponse 401 (message_body "Invalid username or password") in
  exists f',
    login bcrypt_compare jwt_sign users (Some username) password f = (refused, f') /\
    Session.getSessionData "role" f' = Some (Session.Own (column_text (u_role u))) /\
    (forall role, u_role u = Some role -> role <> EmptyString ->
       get_the_role f' = mkResponse 200 (JS.JObj [("role", JS.JStr role)])) /\
    (forall unknown,
       filter (fun r => (u_username r =? unknown)%string) users = [] ->
       login bcrypt_compare jwt_sign users (Some unknown) password f = (refused, f)).
Proof.
  intros Hrows Hwrong Hf refused.
  exists (Session.saveSessionData "role" (Some (column_text (u_role u))) f).
  pose proof (session_get_saved "role" (column_text (u_role u)) f Hf
                ltac:(discriminate)) as Hget.
  split; [unfold login; rewrite Hrows, Hwrong; reflexivity|].
  split; [exact Hget|]. split.
  - intros role Hrole Hne. unfold get_the_role. rewrite Hget, Hrole.
    cbn [column_text truthy_value].
    destruct role as [|a role]; [congruence|]. reflexivity.
  - intros unknown Hnone. unfold login. rewrite Hnone. reflexivity.
Qed.

Lemma login_wrong_password_stores_role_witness :
  exists f',
    login sample_compare sample_sign sample_users (Some "bob") "guess"
      Session.Missing =
      (mkResponse 401 (message_body "Invalid username or password"), f') /\
    get_the_role Session.Missing = mkResponse 404 (message_body "Role not found") /\
    get_the_role f' = mkResponse 200 (JS.JObj [("role", JS.JStr "cashier")]).
Proof.
  destruct (login_wrong_password_stores_role sample_compare sample_sign
              sample_users "bob" "guess" Session.Missing
              (mkUser 2 "bob" "hash-of-hunter2" (Some "cashier")) []
              eq_refl eq_refl ltac:(discriminate))
    as [f' [Hrun [_ [Hrole _]]]].
  exists f'. split; [exact Hrun|]. split; [reflexivity|].
  apply (Hrole "cashier" eq_refl). discriminate.
Defined.

(** X20.  While the session file holds a text that cannot be parsed, no
    login repairs it: whatever the users, the name and the password, and
    whether the login is answered 200 or 401, the file is left as it is and
    get-the-role answers 404 "Role not found". *)
Theorem login_on_unparsable_session
  (bcrypt_compare : string -> string -> bool) (jwt_sign : Z -> string -> string)
  (users : list user) (username : option string) (password : string) :
  let f' := snd (login bcrypt_compare jwt_sign users username password
                   Session.Unparsable) in
  f' = Session.Unparsable /\
  get_the_role f' = mkResponse 404 (message_body "Role not found").
Proof.
  intros f'. assert (Hf : f' = Session.Unparsable).
  { subst f'. unfold login.
    destruct (filter _ users) as [|u rows]; [reflexivity|].
    destruct (negb (bcrypt_compare password (u_password u))); reflexivity. }
  split; [exact Hf|]. rewrite Hf. reflexivity.
Qed.

(** ** Suppliers and customers *)

Lemma add_supplier_run (b : add_supplier_body) (t : suppliers_table) (c : conn)
  (name : string) (row : codeformat) (rest : list codeformat) :
  as_name b = Some name -> name <> EmptyString ->
  select_codeformat 2 (cur c) = row :: rest ->
  let EntryCode := codeSample (PreFix row) (Length row) (JS.add (nextValue row) 1) in
  add_supplier b t c =
  (Ok (mkResponse 200
         (JS.JObj [("message", JS.JStr "Supplier added successfully");
                   ("supplierId", JS.JNum (suppliers_next_id t))]),
       mkSuppliers
         (suppliers t ++
          [mkSupplierRow (suppliers_next_id t) EntryCode name (as_email b)
             (as_phone b) (as_address b) (as_city b) (as_country b)])
         (suppliers_next_id t + 1)),
   let counted := snd (update_nextValue (JS.add (nextValue row) 1) 2 (cur c)) in
   mkConn counted (if in_txn c then committed c else counted) (in_txn c)
     (log c ++ [SelectCodeFormat 2; UpdateNextValue (JS.add (nextValue row) 1) 2])).
Proof.
  intros Hname Hne Hsel EntryCode.
  unfold add_supplier. rewrite Hname.
  destruct name as [|a name]; [congruence|].
  unfold bind at 1. unfold try_catch. unfold bind at 1.
  rewrite (generateEntryCode_step c 2 row rest Hsel). reflexivity.
Qed.

(** X21.  add-supplier checks the name before it asks for a code and
    answers every request: 400 when the name is absent or empty, with nothing
    sent; 500 "Error generating entry code" when the counter row of code type
    2 is missing; 200 otherwise.  Only a 200 stores a supplier or moves the
    counter. *)
Theorem add_supplier_writes_only_on_200
  (b : add_supplier_body) (t : suppliers_table) (c : conn) :
  exists r t' c',
    add_supplier b t c = (Ok (r, t'), c') /\
    (status r = 200 \/ status r = 400 \/ status r = 500) /\
    (status r = 400 <-> JS.truthy_str (as_name b) = false) /\
    (status r = 500 <->
       JS.truthy_str (as_name b) = true /\ select_codeformat 2 (cur c) = []) /\
    (status r = 400 -> c' = c) /\
    (status r <> 200 -> t' = t /\ cur c' = cur c) /\
    (status r = 200 ->
       List.length (suppliers t') = S (List.length (suppliers t))).
Proof.
  destruct (as_name b) as [[|a name]|] eqn:Hname.
  - eexists. eexists. eexists. split; [unfold add_supplier; rewrite Hname; reflexivity|].
    cbn [status JS.truthy_str].
    repeat split; intros; try discriminate; try tauto; try lia.
    all: intuition (try discriminate; try congruence; try lia).
  - destruct (select_codeformat 2 (cur c)) as [|row rest] eqn:Hsel.
    + eexists. eexists. eexists. split.
      * unfold add_supplier. rewrite Hname.
        unfold bind at 1. unfold try_catch. unfold bind at 1.
        rewrite (generateEntryCode_missing c 2 Hsel). reflexivity.
      * cbn [status JS.truthy_str cur].
        repeat split; intros; try discriminate; try tauto; try lia.
        all: intuition (try discriminate; try congruence; try lia).
    + eexists. eexists. eexists. split.
      * apply (add_supplier_run b t c (String a name) row rest Hname);
          [discriminate | exact Hsel].
      * cbn [status JS.truthy_str suppliers].
        repeat split; intros; try discriminate; try tauto; try lia.
        all: try solve [intuition (try discriminate; try congruence; try lia)].
        rewrite length_app. cbn. lia.
  - eexists. eexists. eexists. split; [unfold add_supplier; rewrite Hname; reflexivity|].
    cbn [status JS.truthy_str].
    repeat split; intros; try discriminate; try tauto; try lia.
    all: intuition (try discriminate; try congruence; try lia).
Qed.

(** X22.  add-customer asks for its code before it checks the name: a
    request without a name is answered 400 and stores no customer, yet the
    counter of code type 5, a safe integer before, is one higher afterwards.
    When that counter row is missing no answer is sent, whatever the
    request. *)
Theorem add_customer_rejected_uses_up_a_code
  (b : add_customer_body) (t : customers_table) (c : conn) :
  (forall row rest,
     select_codeformat 5 (cur c) = row :: rest ->
     safe_integer (nextValue row) ->
     JS.truthy_str (ac_name b) = false ->
     exists c',
       add_customer b t c =
         (Ok (mkResponse 400 (message_body "Missing required fields: name"), t), c') /\
       select_codeformat 5 (cur c') =
         with_nextValue (nextValue row + 1) row ::
         map (with_nextValue (nextValue row + 1)) rest /\
       same_but_counters (cur c) (cur c')) /\
  (select_codeformat 5 (cur c) = [] ->
   exists e c', add_customer b t c = (Throw e, c') /\ cur c' = cur c).
Proof.
  split.
  - intros row rest Hsel Hsafe Hname. eexists. split.
    + unfold add_customer. unfold bind at 1.
      rewrite (generateEntryCode_run c 5 row rest Hsel Hsafe).
      destruct (ac_name b) as [[|a name]|]; try discriminate Hname; reflexivity.
    + cbn [cur]. split; [rewrite select_after_update, Hsel; reflexivity|].
      unfold same_but_counters. cbn. repeat split; reflexivity.
  - intros Hsel. eexists. eexists. split.
    + unfold add_customer. unfold bind at 1.
      rewrite (generateEntryCode_missing c 5 Hsel). reflexivity.
    + reflexivity.
Qed.

Lemma add_customer_rejected_uses_up_a_code_witness :
  (exists c',
     add_customer (mkAddCustomerBody None (Some "a@b.c") None None None None)
       sample_customers sample_conn_with_customers =
       (Ok (mkResponse 400 (message_body "Missing required fields: name"),
            sample_customers), c') /\
     select_codeformat 5 (cur c') = [mkCodeFormat 5 "CUS" 3 10]) /\
  (exists e c',
     add_customer (mkAddCustomerBody (Some "Cy") None None None None None)
       sample_customers sample_conn = (Throw e, c')).
Proof.
  split.
  - destruct (proj1 (add_customer_rejected_uses_up_a_code
                       (mkAddCustomerBody None (Some "a@b.c") None None None None)
                       sample_customers sample_conn_with_customers)
                (mkCodeFormat 5 "CUS" 3 9) [] eq_refl (conj eq_refl eq_refl)
                eq_refl)
      as [c' [Hrun [Hsel _]]].
    exists c'. split; [exact Hrun | exact Hsel].
  - destruct (proj2 (add_customer_rejected_uses_up_a_code
                       (mkAddCustomerBody (Some "Cy") None None None None None)
                       sample_customers sample_conn) eq_refl)
      as [e [c' [Hrun _]]].
    exists e, c'. exact Hrun.
Defined.

(** X23.  Suppliers and purchase orders are numbered from the same counter,
    that of code type 2: from a counter that both requests find a safe
    integer, a supplier added and a purchase order created right after it get
    the codes of two consecutive counter values, with the same prefix and the
    same padding, and these two codes differ. *)
Theorem supplier_and_purchase_order_share_counter
  (b : add_supplier_body) (t : suppliers_table) (c : conn) (name : string)
  (date : Date) (sup : supplier_ref) (details : option (list order_line))
  (total : option Z) (row : codeformat) (rest : list codeformat) :
  as_name b = Some name -> name <> EmptyString ->
  select_codeformat 2 (cur c) = row :: rest ->
  safe_integer (nextValue row) -> safe_integer (nextValue row + 1) ->
  exists r1 t1 c1 r2 c2 s o,
    add_supplier b t c = (Ok (r1, t1), c1) /\
    suppliers t1 = suppliers t ++ [s] /\
    sup_code s = codeSample (PreFix row) (Length row) (nextValue row + 1) /\
    create_purchase_order date (mkPurchaseOrderBody (Some sup) details total) c1 =
      (Ok r2, c2) /\
    purchaseorder (cur c2) = purchaseorder (cur c) ++ [o] /\
    purchaseOrderCode o = codeSample (PreFix row) (Length row) (nextValue row + 2) /\
    sup_code s <> purchaseOrderCode o.
Proof.
  intros Hname Hne Hsel Hsafe1 Hsafe2.
  pose proof (add_supplier_run b t c name row rest Hname Hne Hsel) as Hrun1.
  cbv zeta in Hrun1. rewrite (add_one_exact _ Hsafe1) in Hrun1.
  set (c1 := mkConn _ _ _ _) in Hrun1.
  assert (Hsel1 : select_codeformat purchase_order_codeType (cur c1) =
                  with_nextValue (nextValue row + 1) row ::
                  map (with_nextValue (nextValue row + 1)) rest).
  { subst c1. cbn [cur]. unfold purchase_order_codeType.
    rewrite select_after_update, Hsel. reflexivity. }
  destruct (create_purchase_order_parent c1 date sup details total _ _ Hsel1)
    as [r2 [c2 [Hrun2 [_ [_ [O2 _]]]]]].
  cbv zeta in O2. cbn [with_nextValue PreFix Length nextValue] in O2.
  rewrite (add_one_exact _ Hsafe2) in O2.
  replace (nextValue row + 1 + 1) with (nextValue row + 2) in O2 by lia.
  do 7 eexists. split; [exact Hrun1|]. cbn [suppliers].
  split; [reflexivity|]. cbn [sup_code]. split; [reflexivity|].
  split; [exact Hrun2|]. split.
  - rewrite O2. subst c1. cbn [cur]. reflexivity.
  - cbn [purchaseOrderCode]. split; [reflexivity|].
    intros E. apply codeSample_inj in E. lia.
Qed.

Lemma supplier_and_purchase_order_share_counter_witness :
  exists r1 t1 c1 r2 c2,
    add_supplier (mkAddSupplierBody (Some "Acme") None None None None None)
      sample_suppliers sample_conn = (Ok (r1, t1), c1) /\
    map sup_code (suppliers t1) = ["PO0008"] /\
    create_purchase_order sample_date sample_order_body c1 = (Ok r2, c2) /\
    map purchaseOrderCode (purchaseorder (cur c2)) = ["PO0009"].
Proof.
  destruct (supplier_and_purchase_order_share_counter
              (mkAddSupplierBody (Some "Acme") None None None None None)
              sample_suppliers sample_conn "Acme" sample_date
              (mkSupplier (Some "SUP01") (Some "Acme"))
              (orderDetails sample_order_body) (Some 34)
              (mkCodeFormat 2 "PO" 4 7) [] eq_refl ltac:(discriminate) eq_refl
              (conj eq_refl eq_refl) (conj eq_refl eq_refl))
    as [r1 [t1 [c1 [r2 [c2 [s [o [H1 [Hs [Hsc [H2 [Ho [Hoc _]]]]]]]]]]]]].
  exists r1, t1, c1, r2, c2. split; [exact H1|].
  split; [rewrite Hs; cbn [map app suppliers sample_suppliers]; rewrite Hsc; reflexivity|].
  split; [exact H2|].
  rewrite Ho. cbn. rewrite Hoc. reflexivity.
Defined.

(** ** The counters under every route *)

Lemma generateEntryCode_counter_step (codeType : Z) (c : conn) :
  counter_step (cur c) (cur (snd (generateEntryCode codeType c))) /\
  match fst (generateEntryCode codeType c) with
  | Ok _ => True
  | Throw _ => cur (snd (generateEntryCode codeType c)) = cur c
  end.
Proof.
  destruct (select_codeformat codeType (cur c)) as [|row rest] eqn:Hsel.
  - rewrite (generateEntryCode_missing c codeType Hsel). cbn. split; [now left|reflexivity].
  - rewrite (generateEntryCode_step c codeType row rest Hsel). cbn [fst snd cur].
    split; [|exact I]. right. exists codeType, row, rest. now split.
Qed.

Lemma add_product_counter_step (b : add_product_body) (c : conn) :
  counter_step (cur c) (cur (snd (add_product b c))).
Proof.
  destruct (add_product_accepts b) eqn:Hacc.
  - destruct (select_codeformat 1 (cur c)) as [|row rest] eqn:Hsel.
    + rewrite (add_product_no_row b c Hacc Hsel). now left.
    + destruct (add_product_state c b row rest Hacc Hsel)
        as [r [c' [p [Hrun [_ [_ [_ Hcur]]]]]]].
      rewrite Hrun. cbn [snd]. right. exists 1, row, rest.
      split; [exact Hsel|]. rewrite Hcur. reflexivity.
  - destruct (add_product_rejects b c Hacc) as [msg Hrun]. rewrite Hrun. now left.
Qed.

Lemma update_product_counter_step (b : update_product_body) (c : conn) :
  counter_step (cur c) (cur (snd (update_product b c))).
Proof.
  left. unfold update_product.
  destruct (up_sku b) as [[|a1 s1]|], (up_name b) as [[|a2 s2]|],
    (up_category b) as [[|a3 s3]|]; reflexivity.
Qed.

Lemma delete_purchase_order_counter_step (poCode : option string) (c : conn) :
  counter_step (cur c) (cur (snd (delete_purchase_order poCode c))).
Proof.
  left. destruct poCode as [[|a s]|]; reflexivity.
Qed.

Lemma get_purchase_orders_details_same (poCode : option string) (c : conn) :
  snd (get_purchase_orders_details poCode c) = c.
Proof.
  destruct poCode as [[|a s]|]; try reflexivity.
  now rewrite get_purchase_orders_details_run.
Qed.

Lemma create_purchase_order_counter_step (date : Date) (b : purchase_order_body)
  (c : conn) :
  counter_step (cur c) (cur (snd (create_purchase_order date b c))).
Proof.
  destruct (select_codeformat purchase_order_codeType (cur c)) as [|row rest] eqn:Hsel.
  - left. unfold create_purchase_order, try_catch. unfold bind at 1.
    rewrite (generateEntryCode_missing c _ Hsel). reflexivity.
  - right. exists purchase_order_codeType, row, rest. split; [exact Hsel|].
    destruct b as [[sup|] details total].
    + destruct (create_purchase_order_parent c date sup details total row rest Hsel)
        as [r [c' [Hrun [_ [_ [_ [_ Hcf]]]]]]].
      rewrite Hrun. exact Hcf.
    + unfold create_purchase_order, try_catch. unfold bind at 1.
      rewrite (generateEntryCode_step c _ row rest Hsel). reflexivity.
Qed.

Lemma save_invoice_counter_step (b : invoice_body) (c : conn) :
  counter_step (cur c) (cur (snd (save_invoice b c))).
Proof.
  destruct (select_codeformat invoice_codeType (cur c)) as [|row rest] eqn:Hsel.
  - left. unfold save_invoice. unfold bind at 1.
    rewrite (generateEntryCode_missing c _ Hsel). reflexivity.
  - right. exists invoice_codeType, row, rest. split; [exact Hsel|].
    destruct (save_invoice_cases b c row rest Hsel) as [r [c' [Hrun [_ [Hcf _]]]]].
    rewrite Hrun. exact Hcf.
Qed.

Lemma add_supplier_counter_step (b : add_supplier_body) (t : suppliers_table)
  (c : conn) :
  counter_step (cur c) (cur (snd (add_supplier b t c))).
Proof.
  destruct (as_name b) as [[|a name]|] eqn:Hname;
    try (left; unfold add_supplier; rewrite Hname; reflexivity).
  destruct (select_codeformat 2 (cur c)) as [|row rest] eqn:Hsel.
  - left. unfold add_supplier. rewrite Hname.
    unfold bind at 1. unfold try_catch. unfold bind at 1.
    rewrite (generateEntryCode_missing c 2 Hsel). reflexivity.
  - right. exists 2, row, rest. split; [exact Hsel|].
    rewrite (add_supplier_run b t c (String a name) row rest Hname);
      [reflexivity | discriminate | exact Hsel].
Qed.

Lemma add_customer_counter_step (b : add_customer_body) (t : customers_table)
  (c : conn) :
  counter_step (cur c) (cur (snd (add_customer b t c))).
Proof.
  destruct (select_codeformat 5 (cur c)) as [|row rest] eqn:Hsel.
  - left. unfold add_customer. unfold bind at 1.
    rewrite (generateEntryCode_missing c 5 Hsel). reflexivity.
  - right. exists 5, row, rest. split; [exact Hsel|].
    unfold add_customer. unfold bind at 1.
    rewrite (generateEntryCode_step c 5 row rest Hsel).
    destruct (ac_name b) as [[|a name]|]; reflexivity.
Qed.

Lemma serve_counter_step (r : request) (c : conn) :
  counter_step (cur c) (cur (serve r c)).
Proof.
  destruct r as [b|b|i|batch|b t|b t|date b|poCode|poCode|b]; cbn [serve].
  - apply add_product_counter_step.
  - apply update_product_counter_step.
  - left. reflexivity.
  - left. destruct (auto_update_inventory_keeps
                      (fun t => codeformats t = codeformats (cur c)))
      with (batch := batch) (c := c) as [H _]; auto.
  - apply add_supplier_counter_step.
  - apply add_customer_counter_step.
  - apply create_purchase_order_counter_step.
  - left. now rewrite get_purchase_orders_details_same.
  - apply delete_purchase_order_counter_step.
  - apply save_invoice_counter_step.
Qed.

(** What one step does to the first row of a code type, when its counter is
    a safe integer. *)
Lemma counter_step_first_row (t t' : tables) (codeType : Z)
  (row : codeformat) (rest : list codeformat) :
  counter_step t t' ->
  select_codeformat codeType t = row :: rest ->
  safe_integer (nextValue row) ->
  exists row' rest',
    select_codeformat codeType t' = row' :: rest' /\
    nextValue row <= nextValue row' <= nextValue row + 1 /\
    Code row' = Code row /\ PreFix row' = PreFix row /\ Length row' = Length row.
Proof.
  intros [Hsame | [ty [row0 [rest0 [Hsel0 Hcf]]]]] Hsel Hsafe.
  - exists row, rest. unfold select_codeformat in *. rewrite Hsame.
    split; [exact Hsel|]. repeat split; lia.
  - assert (Hsel' : select_codeformat codeType t' =
                    select_codeformat codeType
                      (snd (update_nextValue (JS.add (nextValue row0) 1) ty t))).
    { unfold select_codeformat. now rewrite Hcf. }
    destruct (Z.eq_dec codeType ty) as [-> | Hne].
    + rewrite select_after_update, Hsel0 in Hsel'.
      rewrite Hsel in Hsel0. injection Hsel0 as <- <-.
      rewrite (add_one_exact _ Hsafe) in Hsel'.
      eexists. eexists. split; [exact Hsel'|].
      cbn [with_nextValue nextValue Code PreFix Length]. repeat split; lia.
    + rewrite (select_other_after_update _ _ _ _ Hne) in Hsel'.
      exists row, rest. split; [now rewrite Hsel'|]. repeat split; lia.
Qed.

(** X24.  Under the modelled routes a counter only goes up, and by at most
    one per request: after any list of requests served one after the other,
    the first row of a code type is still there with its code, prefix and
    length, and its counter lies between its old value and its old value plus
    the number of requests, for a counter that has room for that many steps
    within the safe integers. *)
Theorem counter_never_decreases
  (rs : list request) (c : conn) (codeType : Z)
  (row : codeformat) (rest : list codeformat) :
  select_codeformat codeType (cur c) = row :: rest ->
  - 2 ^ 53 < nextValue row ->
  nextValue row + Z.of_nat (List.length rs) <= 2 ^ 53 ->
  exists row' rest',
    select_codeformat codeType (cur (serve_all rs c)) = row' :: rest' /\
    nextValue row <= nextValue row' <= nextValue row + Z.of_nat (List.length rs) /\
    Code row' = Code row /\ PreFix row' = PreFix row /\ Length row' = Length row.
Proof.
  revert c row rest.
  induction rs as [|r rs IH]; intros c row rest Hsel Hlow Hhigh.
  - exists row, rest. cbn [serve_all fold_left List.length].
    split; [exact Hsel|]. repeat split; lia.
  - cbn [List.length] in Hhigh.
    destruct (counter_step_first_row _ _ codeType row rest
                (serve_counter_step r c) Hsel)
      as [row1 [rest1 [Hsel1 [Hv1 [Hc1 [Hp1 Hl1]]]]]];
      [unfold safe_integer; lia|].
    destruct (IH (serve r c) row1 rest1 Hsel1)
      as [row' [rest' [Hsel' [Hv' [Hc' [Hp' Hl']]]]]]; [lia..|].
    exists row', rest'. cbn [serve_all fold_left List.length].
    split; [exact Hsel'|]. repeat split; try congruence; lia.
Qed.

Lemma counter_never_decreases_witness :
  let rs := [ToSaveInvoice sample_invoice_body_missing_sku;
             ToAutoUpdateInventory (Some [mkEntry (Some "SKU97") (Some 4)]);
             ToSaveInvoice sample_invoice_body;
             ToDeleteProduct (Some 1)] in
  exists row' rest',
    select_codeformat 6 (cur (serve_all rs sample_conn)) = row' :: rest' /\
    41 <= nextValue row' <= 45 /\
    select_codeformat 6 (cur (serve_all rs sample_conn)) =
      [mkCodeFormat 6 "INV" 5 43].
Proof.
  intros rs.
  destruct (counter_never_decreases rs sample_conn 6 (mkCodeFormat 6 "INV" 5 41) []
              eq_refl eq_refl ltac:(vm_compute; discriminate))
    as [row' [rest' [Hsel [Hv _]]]].
  exists row', rest'. split; [exact Hsel|]. split; [exact Hv | reflexivity].
Defined.

(** ** The date of a purchase order *)

Lemma String_length_by_table (lo len k : nat) :
  forallb (fun i => (String.length (JS.String (Z.of_nat i)) =? k)%nat)
    (seq lo len) = true ->
  forall n, Z.of_nat lo <= n < Z.of_nat (lo + len) ->
  String.length (JS.String n) = k.
Proof.
  intros Htable n Hn.
  rewrite forallb_forall in Htable.
  specialize (Htable (Z.to_nat n)).
  rewrite Z2Nat.id in Htable by lia.
  apply Nat.eqb_eq, Htable, in_seq. lia.
Qed.

Lemma String_length_one_digit n : 0 <= n < 10 -> String.length (JS.String n) = 1%nat.
Proof.
  apply (String_length_by_table 0 10 1). vm_compute. reflexivity.
Qed.

Lemma String_length_two_digits n :
  10 <= n < 100 -> String.length (JS.String n) = 2%nat.
Proof.
  apply (String_length_by_table 10 90 2). vm_compute. reflexivity.
Qed.

Lemma String_length_four_digits n :
  1000 <= n < 10000 -> String.length (JS.String n) = 4%nat.
Proof.
  apply (String_length_by_table (10 * 100) (90 * 100) 4). vm_compute. reflexivity.
Qed.

Lemma padStart_two (n : Z) :
  0 <= n < 100 ->
  String.length (JS.padStart (JS.String n) 2 "0") = 2%nat /\
  JS.padStart (JS.String n) 2 "0" =
    (if n <? 10 then "0" +++ JS.String n else JS.String n).
Proof.
  intros Hn. rewrite padStart_zero. destruct (Z.ltb_spec n 10).
  - pose proof (String_length_one_digit n ltac:(lia)) as L1. rewrite L1.
    change (Z.to_nat (2 - Z.of_nat 1)) with 1%nat. cbn [zeros String.append].
    split; [|reflexivity]. cbn [String.length]. now rewrite L1.
  - pose proof (String_length_two_digits n ltac:(lia)) as L2. rewrite L2.
    change (Z.to_nat (2 - Z.of_nat 2)) with 0%nat. cbn [zeros String.append].
    split; [exact L2 | reflexivity].
Qed.

(** X25.  For a clock reading with a four-digit year, a month index from 0
    to 11 and a day from 1 to 31, the date stored with a purchase order is
    ten characters long, of the form year-month-day with month and day on two
    digits; the month written is the month index plus one and a single-digit
    month or day gets a leading zero. *)
Theorem qdate_shape (date : Date) :
  1000 <= getFullYear date < 10000 ->
  0 <= getMonth date <= 11 ->
  1 <= getDate date <= 31 ->
  exists month day,
    qdate date = JS.String (getFullYear date) +++ "-" +++ month +++ "-" +++ day /\
    String.length (JS.String (getFullYear date)) = 4%nat /\
    String.length month = 2%nat /\ String.length day = 2%nat /\
    String.length (qdate date) = 10%nat /\
    month = (if getMonth date <? 9 then "0" +++ JS.String (getMonth date + 1)
             else JS.String (getMonth date + 1)) /\
    day = (if getDate date <? 10 then "0" +++ JS.String (getDate date)
           else JS.String (getDate date)).
Proof.
  intros Hy Hm Hd.
  destruct (padStart_two (getMonth date + 1)) as [Lm Em]; [lia|].
  destruct (padStart_two (getDate date)) as [Ld Ed]; [lia|].
  pose proof (String_length_four_digits _ Hy) as Ly.
  assert (Hadd : JS.add (getMonth date) 1 = getMonth date + 1)
    by (apply add_one_exact; unfold safe_integer; lia).
  exists (JS.padStart (JS.String (getMonth date + 1)) 2 "0"),
         (JS.padStart (JS.String (getDate date)) 2 "0").
  split; [unfold qdate; now rewrite Hadd|]. split; [exact Ly|]. split; [exact Lm|].
  split; [exact Ld|]. split.
  - unfold qdate. cbv zeta. rewrite Hadd, !length_append, Ly, Lm, Ld. reflexivity.
  - split; [|exact Ed]. rewrite Em.
    destruct (Z.ltb_spec (getMonth date + 1) 10), (Z.ltb_spec (getMonth date) 9);
      try lia; reflexivity.
Qed.

Lemma qdate_shape_witness :
  qdate sample_date = "2024-03-09" /\ String.length (qdate sample_date) = 10%nat.
Proof.
  destruct (qdate_shape sample_date ltac:(cbn; lia) ltac:(cbn; lia) ltac:(cbn; lia))
    as [month [day [Hq [_ [_ [_ [Hlen [Hm Hd]]]]]]]].
  split; [|exact Hlen]. rewrite Hq, Hm, Hd. reflexivity.
Defined.
